(** * Device test orchestrator and performance monitor: a shallow embedding

    The development models two scripts of the repository,

    - [scripts/device-testing/orchestrator.py]  (registry, test runner,
      report generator), and
    - [scripts/device-testing/performance_monitor.py]  (background sampler,
      the monitors of the two platforms, performance analyzer),

    and proves the properties their specification states about them.

    Conventions of the embedding.
    - A Python [str] is a [string] (a sequence of 8-bit characters); Python
      [int] is [Z]; Python [float] is the kernel's binary64 [float].
    - A Python exception that a function lets escape is a [Raise] result of
      the [PyResult] monad.
    - What the scripts obtain from the outside world (the output of a
      subprocess, the clock) is an explicit input of the model.
    - Definitions come first (Part I), properties afterwards (Part II). *)

From Stdlib Require Import ZArith String Ascii List Lia Bool Floats Uint63.
From stdpp Require Import gmap strings list pretty.

Set Default Proof Using "Type".
Open Scope string_scope.
Open Scope list_scope.
Open Scope Z_scope.

(* ===================================================================== *)
(** * Part I.  The model                                                  *)
(* ===================================================================== *)

(** ** Python results and exceptions *)

Module Py.

(** The exceptions the modelled code can meet.  [OSError msg] stands for any
    exception other than the named ones, [msg] being its [str(e)]. *)
Inductive exn : Type :=
| ValueError
| IndexError
| OverflowError
| ZeroDivisionError
| StatisticsError
| TypeError
| TimeoutExpired
| OSError (msg : string).

Inductive PyResult (A : Type) : Type :=
| Ok (a : A)
| Raise (e : exn).
Arguments Ok {A} a.
Arguments Raise {A} e.

(** The error monad on [PyResult]; [x ← m; k] runs [k] on the value of
    [m] and propagates an exception. *)
#[global] Instance pyresult_ret : MRet PyResult := λ A a, Ok a.
#[global] Instance pyresult_bind : MBind PyResult := λ A B k m,
  match m with
  | Ok a => k a
  | Raise e => Raise e
  end.

Definition is_ok {A : Type} (m : PyResult A) : bool :=
  match m with Ok _ => true | Raise _ => false end.

(** ** Strings *)

(** [sub in s]. *)
Fixpoint contains (sub s : string) : bool :=
  String.prefix sub s ||
  match s with
  | EmptyString => false
  | String _ s' => contains sub s'
  end.

Definition string_rev (s : string) : string :=
  string_of_list_ascii (rev (list_ascii_of_string s)).

(** [s.split(sep)] for a non-empty separator: left to right, separators do
    not overlap.  [skip] counts the characters of a separator that has just
    been recognised and is still to be passed over; [acc] is the current
    field, reversed. *)
Fixpoint split_go (sep : string) (skip : nat) (acc : list ascii) (s : string)
  : list string :=
  match s with
  | EmptyString => [string_of_list_ascii (rev acc)]
  | String c s' =>
      match skip with
      | S k => split_go sep k acc s'
      | O =>
          if String.prefix sep s
          then string_of_list_ascii (rev acc)
                 :: split_go sep (Nat.pred (String.length sep)) [] s'
          else split_go sep 0 (c :: acc) s'
      end
  end.

Definition split (sep s : string) : list string := split_go sep 0 [] s.

(** The white space of [str.strip] and [str.split], as far as single bytes
    go: [\t \n \v \f \r], [\x1c]..[\x1f] and the space. *)
Definition is_space (c : ascii) : bool :=
  let n := nat_of_ascii c in
  ((9 <=? n)%nat && (n <=? 13)%nat) || ((28 <=? n)%nat && (n <=? 32)%nat).

Fixpoint lstrip_with (f : ascii → bool) (s : string) : string :=
  match s with
  | EmptyString => EmptyString
  | String c s' => if f c then lstrip_with f s' else s
  end.

Definition strip_with (f : ascii → bool) (s : string) : string :=
  string_rev (lstrip_with f (string_rev (lstrip_with f s))).

(** [s.strip()]. *)
Definition strip (s : string) : string := strip_with is_space s.

(** [s.split()]: the maximal runs of characters that are not white space. *)
Fixpoint words_go (acc : list ascii) (s : string) : list string :=
  let flush := match acc with
               | [] => []
               | _ => [string_of_list_ascii (rev acc)]
               end in
  match s with
  | EmptyString => flush
  | String c s' =>
      if is_space c then flush ++ words_go [] s' else words_go (c :: acc) s'
  end.

Definition words (s : string) : list string := words_go [] s.

(** [s.lower()] on the ASCII letters. *)
Definition lower_ascii (c : ascii) : ascii :=
  let n := nat_of_ascii c in
  if ((65 <=? n)%nat && (n <=? 90)%nat) then ascii_of_nat (n + 32) else c.

Fixpoint lower (s : string) : string :=
  match s with
  | EmptyString => EmptyString
  | String c s' => String (lower_ascii c) (lower s')
  end.

(** [''.join(parts)]. *)
Definition join (parts : list string) : string :=
  fold_right String.append EmptyString parts.

(** [l[i]] on a list: [IndexError] out of range (indices are not negative
    in the modelled code). *)
Definition index {A : Type} (l : list A) (i : nat) : PyResult A :=
  match l !! i with
  | Some a => Ok a
  | None => Raise IndexError
  end.

(** ** Integers *)

Definition digit_of (c : ascii) : option Z :=
  let n := nat_of_ascii c in
  if ((48 <=? n)%nat && (n <=? 57)%nat) then Some (Z.of_nat n - 48) else None.

(** The digits of a decimal literal: one or more digits, single
    underscores allowed between digits.  [prev] tells whether the previous
    character was a digit; [acc] is the value read so far. *)
Fixpoint digits_go (prev : bool) (acc : Z) (s : string) : option Z :=
  match s with
  | EmptyString => if prev then Some acc else None
  | String c s' =>
      match digit_of c with
      | Some d => digits_go true (10 * acc + d) s'
      | None =>
          if (Ascii.eqb c "_" && prev)%bool then digits_go false acc s' else None
      end
  end.

(** The white space [int] passes over: [\t \n \v \f \r] and the space. *)
Definition is_int_space (c : ascii) : bool :=
  let n := nat_of_ascii c in
  ((9 <=? n)%nat && (n <=? 13)%nat) || (n =? 32)%nat.

(** [int(s)] on a [str], base ten: surrounding white space, an optional
    sign, then digits (the ASCII ones; the limit Python puts on the number
    of digits is left out).  [ValueError] otherwise. *)
Definition int_of_str (s : string) : PyResult Z :=
  let body := strip_with is_int_space s in
  let '(neg, ds) :=
    match body with
    | String "-" r => (true, r)
    | String "+" r => (false, r)
    | _ => (false, body)
    end in
  match digits_go false 0 ds with
  | Some v => Ok (if neg then - v else v)
  | None => Raise ValueError
  end.

(** [str(n)] for an [int]. *)
Definition str_of_int (n : Z) : string := pretty n.

(** ** Floats *)

(** [float(n)] for an [int]: the nearest binary64 number, ties to even;
    [OverflowError] when that is no finite number. *)
Definition float_of_int (n : Z) : PyResult float :=
  match binary_normalize prec emax n 0 false with
  | S754_infinity _ => Raise OverflowError
  | sf => Ok (SF2Prim sf)
  end.

(** [a / b] for two [int]s: the correctly rounded quotient. *)
Definition int_truediv (a b : Z) : PyResult float :=
  if b =? 0 then Raise ZeroDivisionError
  else
    let neg := xorb (a <? 0) (b <? 0) in
    if a =? 0 then Ok (SF2Prim (S754_zero neg))
    else
      let '(q, e, l) := SFdiv_core_binary prec emax (Z.abs a) 0 (Z.abs b) 0 in
      match binary_round_aux prec emax neg q e l with
      | S754_infinity _ => Raise OverflowError
      | sf => Ok (SF2Prim sf)
      end.

(** [x / y] for two [float]s: IEEE division, except that Python raises on
    a zero divisor. *)
Definition float_truediv (x y : float) : PyResult float :=
  if PrimFloat.is_zero y then Raise ZeroDivisionError else Ok (x / y)%float.

(** Rounding of the rational [num / den] ([den > 0], [num >= 0]) to the
    nearest integer, ties to even. *)
Definition round_half_even (num den : Z) : Z :=
  let q := num / den in
  let r := num mod den in
  match (2 * r) ?= den with
  | Lt => q
  | Gt => q + 1
  | Eq => if Z.even q then q else q + 1
  end.

Fixpoint zeros (n : nat) : string :=
  match n with
  | O => EmptyString
  | S k => String "0" (zeros k)
  end.

(** The decimal digits of [n >= 0] with a point before the last [p] ones,
    as the [f] presentation type prints them. *)
Definition fixed_digits (p : nat) (n : Z) : string :=
  let ds := pretty n in
  let ds := zeros (S p - String.length ds) +:+ ds in
  let k := (String.length ds - p)%nat in
  match p with
  | O => ds
  | _ => String.substring 0 k ds +:+ "." +:+ String.substring k p ds
  end.

(** [format(x, '.<p>f')]: the exact value of [x] rounded to [p] decimals,
    ties to even. *)
Definition format_f (p : nat) (x : float) : string :=
  match Prim2SF x with
  | S754_nan => "nan"
  | S754_infinity s => if s then "-inf" else "inf"
  | S754_zero s => (if s then "-" else EmptyString) +:+ fixed_digits p 0
  | S754_finite s m e =>
      let scaled :=
        match e with
        | Zneg k => round_half_even (Zpos m * 10 ^ Z.of_nat p) (2 ^ Zpos k)
        | _ => Zpos m * 2 ^ e * 10 ^ Z.of_nat p
        end in
      (if s then "-" else EmptyString) +:+ fixed_digits p scaled
  end.

End Py.

(** ** Insertion-ordered dictionaries

    A Python [dict] with [str] keys: the entries in insertion order, every
    key at most once.  Assigning to a key that is present replaces the value
    in place; assigning to a new key appends the entry. *)

Module Dict.

Definition dict (V : Type) : Type := list (string * V).

Definition empty {V : Type} : dict V := [].

Fixpoint get {V : Type} (k : string) (d : dict V) : option V :=
  match d with
  | [] => None
  | (k', v) :: rest => if String.eqb k k' then Some v else get k rest
  end.

Fixpoint set {V : Type} (k : string) (v : V) (d : dict V) : dict V :=
  match d with
  | [] => [(k, v)]
  | (k', v') :: rest =>
      if String.eqb k k' then (k, v) :: rest else (k', v') :: set k v rest
  end.

Definition keys {V : Type} (d : dict V) : list string := map fst d.

Definition values {V : Type} (d : dict V) : list V := map snd d.

Definition mem {V : Type} (k : string) (d : dict V) : bool :=
  match get k d with Some _ => true | None => false end.

End Dict.

Abbreviation dict := Dict.dict.

(* ===================================================================== *)
(** ** orchestrator.py                                                    *)
(* ===================================================================== *)

Module Orchestrator.
Import Py.

(** The line separator. *)
Definition nl : string := String "010"%char EmptyString.

(** What one [subprocess.run(..., capture_output=True, text=True,
    timeout=...)] call gives back: the captured standard output, a
    [subprocess.TimeoutExpired], or any other exception ([msg] is its
    [str(e)]). *)
Inductive RunError : Type :=
| TimedOut
| Failed (msg : string).

Inductive RunOutcome : Type :=
| Completed (stdout : string)
| Raised (e : RunError).

Definition exn_of (e : RunError) : exn :=
  match e with
  | TimedOut => TimeoutExpired
  | Failed msg => OSError msg
  end.

(** *** Data model *)

(** [class Device].  A [Device] object is shared and mutated in place: the
    registry below is the store of these objects. *)
Record Device : Type := {
  id : string;
  platform : string;
  name : string;
  os_version : string;
  ble_version : string;
  status : string;
  battery_level : Z;
  temperature : float
}.

(** [Device(id=..., platform=..., name=..., os_version=..., ble_version=...)]
    with the defaults of the data class. *)
Definition new_Device (i p n o b : string) : Device :=
  {| id := i; platform := p; name := n; os_version := o; ble_version := b;
     status := "idle"; battery_level := -1; temperature := 0%float |}.

(** [device.battery_level = v] and [device.temperature = x]. *)
Definition set_battery_level (v : Z) (d : Device) : Device :=
  {| id := id d; platform := platform d; name := name d;
     os_version := os_version d; ble_version := ble_version d;
     status := status d; battery_level := v; temperature := temperature d |}.

Definition set_temperature (x : float) (d : Device) : Device :=
  {| id := id d; platform := platform d; name := name d;
     os_version := os_version d; ble_version := ble_version d;
     status := status d; battery_level := battery_level d; temperature := x |}.

(** The values of a [metrics] dictionary ([Dict[str, any]]): the code
    stores [int]s, [float]s and [str]s. *)
Inductive value : Type :=
| VInt (n : Z)
| VFloat (x : float)
| VStr (s : string).

(** [class TestResult]. *)
Record TestResult : Type := {
  device_id : string;
  test_name : string;
  success : bool;
  duration : float;
  timestamp : string;
  output : string;
  metrics : dict value
}.

(** An entry of the test suite: a dictionary with the keys [name],
    [timeout] and [description]. *)
Record TestSpec : Type := {
  spec_name : string;
  spec_timeout : Z;
  spec_description : string
}.

(** [TestRunner._load_test_suite]. *)
Definition _load_test_suite : list TestSpec :=
  [ {| spec_name := "BLEDiscoveryTest"; spec_timeout := 30;
       spec_description := "Test BLE device discovery" |};
    {| spec_name := "ConnectionStabilityTest"; spec_timeout := 60;
       spec_description := "Test connection stability over time" |};
    {| spec_name := "MeshFormationTest"; spec_timeout := 120;
       spec_description := "Test mesh network formation" |};
    {| spec_name := "ConsensusTest"; spec_timeout := 90;
       spec_description := "Test consensus protocol" |};
    {| spec_name := "BatteryDrainTest"; spec_timeout := 300;
       spec_description := "Test battery consumption" |} ].

(** *** DeviceManager: discovery *)

(** The command channel as discovery sees it: the outcome of each command
    it may issue. *)
Record Adapters : Type := {
  adb_devices : RunOutcome;                   (* adb devices -l *)
  adb_model : string → RunOutcome;            (* getprop ro.product.model *)
  adb_release : string → RunOutcome;          (* getprop ro.build.version.release *)
  idevice_id : RunOutcome;                    (* idevice_id -l *)
  ideviceinfo : string → RunOutcome           (* ideviceinfo -u <id> *)
}.

(** [props.get(key, default)]. *)
Definition get_default (k : string) (default : string) (d : dict string) : string :=
  match Dict.get k d with Some v => v | None => default end.

(** [DeviceManager._get_android_properties]: the dictionary is returned as
    far as it was filled when a command raised. *)
Definition _get_android_properties (a : Adapters) (device_id : string) : dict string :=
  match adb_model a device_id with
  | Completed out1 =>
      let props := Dict.set "model" (strip out1) Dict.empty in
      match adb_release a device_id with
      | Completed out2 =>
          let props := Dict.set "version" ("Android " +:+ strip out2) props in
          Dict.set "ble_version" "5.0+" props
      | _ => props
      end
  | _ => Dict.empty
  end.

(** One line of [adb devices -l]. *)
Definition discover_android_line (a : Adapters) (devices : dict Device) (line : string)
  : dict Device :=
  if contains "device product:" line then
    match words line with
    | device_id :: _ =>
        let props := _get_android_properties a device_id in
        let device :=
          new_Device device_id "android"
            (get_default "model" "Unknown" props)
            (get_default "version" "Unknown" props)
            (get_default "ble_version" "Unknown" props) in
        Dict.set device_id device devices
    | [] => devices
    end
  else devices.

(** [DeviceManager._discover_android_devices]. *)
Definition _discover_android_devices (a : Adapters) (devices : dict Device) : dict Device :=
  match adb_devices a with
  | Completed stdout => fold_left (discover_android_line a) (split nl stdout) devices
  | _ => devices
  end.

(** One [key: value] line of [ideviceinfo]: [line.split(':', 1)]. *)
Fixpoint split_first_colon (acc : list ascii) (s : string) : option (string * string) :=
  match s with
  | EmptyString => None
  | String c s' =>
      if Ascii.eqb c ":" then Some (string_of_list_ascii (rev acc), s')
      else split_first_colon (c :: acc) s'
  end.

Definition ios_info_line (info : dict string) (line : string) : dict string :=
  match split_first_colon [] line with
  | Some (key, v) => Dict.set (strip key) (strip v) info
  | None => info
  end.

(** [DeviceManager._get_ios_info]. *)
Definition _get_ios_info (a : Adapters) (device_id : string) : dict string :=
  match ideviceinfo a device_id with
  | Completed stdout => fold_left ios_info_line (split nl stdout) Dict.empty
  | _ => Dict.empty
  end.

Definition discover_ios_line (a : Adapters) (devices : dict Device) (device_id : string)
  : dict Device :=
  if String.eqb device_id EmptyString then devices
  else
    let info := _get_ios_info a device_id in
    let device :=
      new_Device device_id "ios"
        (get_default "DeviceName" "Unknown" info)
        ("iOS " +:+ get_default "ProductVersion" "Unknown" info)
        "5.0+" in
    Dict.set device_id device devices.

(** [DeviceManager._discover_ios_devices]. *)
Definition _discover_ios_devices (a : Adapters) (devices : dict Device) : dict Device :=
  match idevice_id a with
  | Completed stdout => fold_left (discover_ios_line a) (split nl (strip stdout)) devices
  | _ => devices
  end.

(** [DeviceManager.__init__] and [discover_devices]: the registry starts
    empty and is filled by the two platforms in turn. *)
Definition discover_devices (a : Adapters) : dict Device :=
  _discover_ios_devices a (_discover_android_devices a Dict.empty).

(** *** DeviceManager: status refresh *)

(** The body of the loop over the lines of [dumpsys battery]. *)
Definition update_android_line (line : string) (device : Device) : PyResult Device :=
  if contains "level:" line then
    field ← index (split ":" line) 1;
    v ← int_of_str (strip field);
    Ok (set_battery_level v device)
  else if contains "temperature:" line then
    field ← index (split ":" line) 1;
    temp ← int_of_str (strip field);
    x ← float_of_int temp;
    Ok (set_temperature (x / 10)%float device)
  else Ok device.

(** The body of the loop over the lines of the iOS battery query. *)
Definition update_ios_line (line : string) (device : Device) : PyResult Device :=
  if contains "BatteryCurrentCapacity" line then
    field ← index (split ":" line) 1;
    v ← int_of_str (strip field);
    Ok (set_battery_level v device)
  else Ok device.

(** A [for line in lines] loop that assigns to fields of [device] inside a
    [try]: when a line raises, the loop is left and the assignments made so
    far stay.  The second component is the exception the [except] clause
    caught (and logged), if any. *)
Fixpoint update_lines (body : string → Device → PyResult Device)
  (lines : list string) (device : Device) : Device * option exn :=
  match lines with
  | [] => (device, None)
  | line :: rest =>
      match body line device with
      | Ok device' => update_lines body rest device'
      | Raise e => (device, Some e)
      end
  end.

(** [DeviceManager._update_android_status] on the outcome of
    [adb shell dumpsys battery]. *)
Definition _update_android_status (out : RunOutcome) (device : Device)
  : Device * option exn :=
  match out with
  | Completed stdout => update_lines update_android_line (split nl stdout) device
  | Raised e => (device, Some (exn_of e))
  end.

(** [DeviceManager._update_ios_status]. *)
Definition _update_ios_status (out : RunOutcome) (device : Device)
  : Device * option exn :=
  match out with
  | Completed stdout => update_lines update_ios_line (split nl stdout) device
  | Raised e => (device, Some (exn_of e))
  end.

(** The two platforms a status refresh knows. *)
Inductive Plat : Type := Android | IOS.

Definition plat_of (p : string) : option Plat :=
  if String.eqb p "android" then Some Android
  else if String.eqb p "ios" then Some IOS
  else None.

Definition status_line (p : Plat) : string → Device → PyResult Device :=
  match p with
  | Android => update_android_line
  | IOS => update_ios_line
  end.

Definition _update_status (p : Plat) : RunOutcome → Device → Device * option exn :=
  match p with
  | Android => _update_android_status
  | IOS => _update_ios_status
  end.

(** [DeviceManager.update_device_status]: [out] is the outcome of the status
    command, should one be issued.  The object found under [device_id] is
    updated in place. *)
Definition update_device_status (out : RunOutcome) (device_id : string)
  (devices : dict Device) : dict Device :=
  match Dict.get device_id devices with
  | None => devices
  | Some device =>
      match plat_of (platform device) with
      | Some p => Dict.set device_id (fst (_update_status p out device)) devices
      | None => devices
      end
  end.

(** The states a record passes through while the lines of a refresh are
    applied one after the other, the starting state first. *)
Fixpoint refresh_trace (body : string → Device → PyResult Device)
  (lines : list string) (device : Device) : list Device :=
  device ::
  match lines with
  | [] => []
  | line :: rest =>
      match body line device with
      | Ok device' => refresh_trace body rest device'
      | Raise _ => []
      end
  end.

(** *** TestRunner: one test on one device *)

Section Runner.

(** [float(value)] on a [str] is left to the language: the model takes
    Python's parser of floating-point literals as given. *)
Variable float_of_str : string → PyResult float.

(** [metrics[key] = float(value)] or [int(value)], and the string itself
    on a [ValueError]; any other exception leaves the line's [try]. *)
Definition metric_value (v : string) : PyResult value :=
  let parsed :=
    if contains "." v then x ← float_of_str v; Ok (VFloat x)
    else n ← int_of_str v; Ok (VInt n) in
  match parsed with
  | Raise ValueError => Ok (VStr v)
  | r => r
  end.

(** The body of the loop of [_parse_android_metrics]; a line whose [try]
    block raises is passed over. *)
Definition android_metric_line (metrics : dict value) (line : string) : dict value :=
  if contains "METRIC:" line then
    let attempt : PyResult (dict value) :=
      field ← index (split "METRIC:" line) 1;
      match split "=" (strip field) with
      | [k; v] =>
          x ← metric_value (strip v);
          Ok (Dict.set (strip k) x metrics)
      | _ => Ok metrics
      end in
    match attempt with
    | Ok metrics' => metrics'
    | Raise _ => metrics
    end
  else metrics.

(** [TestRunner._parse_android_metrics]. *)
Definition _parse_android_metrics (logcat : string) : dict value :=
  fold_left android_metric_line (split nl logcat) Dict.empty.

(** The body of the loop of [_parse_ios_metrics]. *)
Definition ios_metric_line (metrics : dict value) (line : string) : dict value :=
  if contains "measured" (lower line) then
    let attempt : PyResult (dict value) :=
      if contains "average:" line then
        match split "average:" line with
        | _ :: after :: _ =>
            v ← index (words after) 0;
            x ← float_of_str v;
            Ok (Dict.set "average" (VFloat x) metrics)
        | _ => Ok metrics
        end
      else Ok metrics in
    match attempt with
    | Ok metrics' => metrics'
    | Raise _ => metrics
    end
  else metrics.

(** [TestRunner._parse_ios_metrics]. *)
Definition _parse_ios_metrics (out : string) : dict value :=
  fold_left ios_metric_line (split nl out) Dict.empty.

(** What one execution of [run_test_on_device] obtains from outside: the
    clock, and the outcome of each command it may issue. *)
Record ExecEnv : Type := {
  clock_start : float;          (* time.time() on entry *)
  clock_iso : string;           (* datetime.now().isoformat() *)
  pre_status : RunOutcome;      (* the status command before the test *)
  logcat_clear : RunOutcome;    (* adb logcat -c *)
  instrument : RunOutcome;      (* adb shell am instrument ..., bounded by the test's timeout *)
  logcat_dump : RunOutcome;     (* adb logcat -d *)
  xcodebuild : RunOutcome;      (* xcodebuild test ..., bounded by the test's timeout *)
  post_status : RunOutcome;     (* the status command after the test *)
  clock_end : float             (* time.time() after the test *)
}.

(** The triple [(success, output, metrics)] the platform runners return. *)
Definition Outcome : Type := bool * string * dict value.

(** The [except] clauses of the two runners: [subprocess.TimeoutExpired]
    first, any other exception next; [metrics] is the local dictionary as
    it stands when the exception arrives. *)
Definition except_clause (e : RunError) (metrics : dict value) : Outcome :=
  match e with
  | TimedOut => (false, "Test timed out", metrics)
  | Failed msg => (false, msg, metrics)
  end.

(** [TestRunner._run_android_test]. *)
Definition _run_android_test (env : ExecEnv) : Outcome :=
  let metrics : dict value := Dict.empty in
  match logcat_clear env with
  | Raised e => except_clause e metrics
  | Completed _ =>
      match instrument env with
      | Raised e => except_clause e metrics
      | Completed stdout =>
          let ok := negb (contains "FAILURES!!!" stdout) in
          match logcat_dump env with
          | Raised e => except_clause e metrics
          | Completed logcat =>
              let metrics := _parse_android_metrics logcat in
              (ok, stdout, metrics)
          end
      end
  end.

(** [TestRunner._run_ios_test]. *)
Definition _run_ios_test (env : ExecEnv) : Outcome :=
  let metrics : dict value := Dict.empty in
  match xcodebuild env with
  | Raised e => except_clause e metrics
  | Completed stdout =>
      let ok := contains "TEST SUCCEEDED" stdout in
      let metrics := _parse_ios_metrics stdout in
      (ok, stdout, metrics)
  end.

(** The dispatch of [run_test_on_device]: Android when the platform field
    says so, iOS otherwise. *)
Definition run_platform_test (p : string) (env : ExecEnv) : Outcome :=
  if String.eqb p "android" then _run_android_test env else _run_ios_test env.

(** The end of [run_test_on_device]: the battery metrics are written into
    the runner's dictionary and the result object is built. *)
Definition build_result (env : ExecEnv) (test : TestSpec) (o : Outcome)
  (battery_drain final_battery : Z) (temp : float) (dev_id : string) : TestResult :=
  let '(ok, out, metrics) := o in
  let metrics := Dict.set "battery_drain" (VInt battery_drain) metrics in
  let metrics := Dict.set "final_battery" (VInt final_battery) metrics in
  let metrics := Dict.set "temperature" (VFloat temp) metrics in
  {| device_id := dev_id;
     test_name := spec_name test;
     success := ok;
     duration := (clock_end env - clock_start env)%float;
     timestamp := clock_iso env;
     output := out;
     metrics := metrics |}.


(** *** TestRunner: the executions as threads of a worker pool

    [run_parallel_tests] hands every (test, device) pair to a
    [ThreadPoolExecutor]; the executions then run as threads that share
    the registry (the [Device] objects) and the list [self.results].  A
    thread is modelled by its program counter: each constructor of [PC] is
    a point of [run_test_on_device] between two accesses to shared state,
    with the local variables that are live there. *)

(** Where a status refresh returns to: the refresh before the test or the
    one after it. *)
Inductive Cont : Type :=
| KPre
| KPost (initial_battery : Z) (o : Outcome).

Inductive PC : Type :=
| Queued                                   (* submitted, not yet picked by a worker *)
| CallRefresh (k : Cont)                   (* update_device_status(device.id) *)
| InRefresh (k : Cont) (p : Plat) (target : string) (lines : list string)
                                           (* inside the loop over the status lines *)
| ReadInitial                              (* initial_battery = device.battery_level *)
| RunTest (initial_battery : Z)            (* the platform runner *)
| ReadDrain (initial_battery : Z) (o : Outcome)
                                           (* battery_drain = initial_battery - device.battery_level *)
| ReadFinal (battery_drain : Z) (o : Outcome)
                                           (* metrics['final_battery'] = device.battery_level *)
| ReadTemp (battery_drain final_battery : Z) (o : Outcome)
                                           (* metrics['temperature'] = device.temperature *)
| ReadId (battery_drain final_battery : Z) (temp : float) (o : Outcome)
                                           (* TestResult(device_id=device.id, ...) *)
| Append (r : TestResult)                  (* self.results.append(result) *)
| Done (r : TestResult).                   (* returned *)

Record Thread : Type := {
  dev : string;          (* the device argument: its key in the registry *)
  test : TestSpec;
  env : ExecEnv;
  pc : PC
}.

Definition with_pc (t : Thread) (c : PC) : Thread :=
  {| dev := dev t; test := test t; env := env t; pc := c |}.

Definition after_refresh (k : Cont) : PC :=
  match k with
  | KPre => ReadInitial
  | KPost i o => ReadDrain i o
  end.

Definition refresh_command (k : Cont) (e : ExecEnv) : RunOutcome :=
  match k with
  | KPre => pre_status e
  | KPost _ _ => post_status e
  end.

(** One step of a running thread on the shared registry and result list;
    [None] when the thread is not running (or holds a device the registry
    does not). *)
Definition step_thread (t : Thread) (devices : dict Device) (results : list TestResult)
  : option (PC * dict Device * list TestResult) :=
  match pc t with
  | Queued => None
  | Done _ => None
  | CallRefresh k =>
      device ← Dict.get (dev t) devices;
      let device_id := id device in
      match Dict.get device_id devices with
      | None => Some (after_refresh k, devices, results)
      | Some target =>
          match plat_of (platform target) with
          | None => Some (after_refresh k, devices, results)
          | Some p =>
              match refresh_command k (env t) with
              | Completed stdout =>
                  Some (InRefresh k p device_id (split nl stdout), devices, results)
              | Raised _ => Some (after_refresh k, devices, results)
              end
          end
      end
  | InRefresh k p target lines =>
      match lines with
      | [] => Some (after_refresh k, devices, results)
      | line :: rest =>
          device ← Dict.get target devices;
          match status_line p line device with
          | Ok device' =>
              Some (InRefresh k p target rest, Dict.set target device' devices, results)
          | Raise _ => Some (after_refresh k, devices, results)
          end
      end
  | ReadInitial =>
      device ← Dict.get (dev t) devices;
      Some (RunTest (battery_level device), devices, results)
  | RunTest initial =>
      device ← Dict.get (dev t) devices;
      Some (CallRefresh (KPost initial (run_platform_test (platform device) (env t))),
            devices, results)
  | ReadDrain initial o =>
      device ← Dict.get (dev t) devices;
      Some (ReadFinal (initial - battery_level device) o, devices, results)
  | ReadFinal drain o =>
      device ← Dict.get (dev t) devices;
      Some (ReadTemp drain (battery_level device) o, devices, results)
  | ReadTemp drain final o =>
      device ← Dict.get (dev t) devices;
      Some (ReadId drain final (temperature device) o, devices, results)
  | ReadId drain final temp o =>
      device ← Dict.get (dev t) devices;
      Some (Append (build_result (env t) (test t) o drain final temp (id device)),
            devices, results)
  | Append r => Some (Done r, devices, results ++ [r])
  end.

(** The shared state of a run. *)
Record State : Type := {
  devices : dict Device;          (* device_manager.devices *)
  results : list TestResult;      (* TestRunner.results *)
  threads : list Thread           (* the submitted executions, in submission order *)
}.

Definition is_queued (t : Thread) : bool :=
  match pc t with Queued => true | _ => false end.

Definition is_done (t : Thread) : bool :=
  match pc t with Done _ => true | _ => false end.

Definition is_running (t : Thread) : bool := negb (is_queued t || is_done t).

(** The number of executions that occupy a worker. *)
Definition busy (ts : list Thread) : nat := length (List.filter is_running ts).

(** [sched_step max_workers i s]: the execution number [i] makes a step.
    A queued execution is picked when it is the oldest one in the queue and
    fewer than [max_workers] executions are running; a running execution
    makes the step of [step_thread].  [None] when execution [i] cannot move. *)
Definition sched_step (max_workers : Z) (i : nat) (s : State) : option State :=
  t ← threads s !! i;
  match pc t with
  | Queued =>
      if forallb (λ t', negb (is_queued t')) (take i (threads s))
         && (Z.of_nat (busy (threads s)) <? max_workers)
      then Some {| devices := devices s;
                   results := results s;
                   threads := <[i := with_pc t (CallRefresh KPre)]> (threads s) |}
      else None
  | _ =>
      '(c, devices', results') ← step_thread t (devices s) (results s);
      Some {| devices := devices';
              results := results';
              threads := <[i := with_pc t c]> (threads s) |}
  end.

(** A run along a schedule: the list of the executions that move, in the
    order in which they do. *)
Fixpoint run_schedule (max_workers : Z) (sched : list nat) (s : State) : option State :=
  match sched with
  | [] => Some s
  | i :: rest => s' ← sched_step max_workers i s; run_schedule max_workers rest s'
  end.

(** The pairs [run_parallel_tests] submits, in submission order: for every
    test of the suite, every device of the registry. *)
Definition submissions (suite : list TestSpec) (devs : dict Device)
  : list (TestSpec * string) :=
  tst ← suite; k ← Dict.keys devs; [(tst, k)].

(** The state right after the submission loop.  [world i] is what the
    [i]-th submitted execution will obtain from outside. *)
Definition submitted (world : nat → ExecEnv) (suite : list TestSpec)
  (devs : dict Device) : State :=
  {| devices := devs;
     results := [];
     threads := imap (λ i '(tst, k), {| dev := k; test := tst; env := world i; pc := Queued |})
                  (submissions suite devs) |}.

(** [TestRunner.run_parallel_tests]: [ThreadPoolExecutor] refuses a pool of
    no worker with a [ValueError]; otherwise all pairs are submitted.  The
    executions then proceed by [sched_step]; leaving the [with] block waits
    until every one of them has returned.  (The loop over the futures only
    logs what [future.result] raises; it touches neither the registry nor
    the results.) *)
Definition run_parallel_tests (world : nat → ExecEnv) (max_workers : Z)
  (suite : list TestSpec) (devs : dict Device) : PyResult State :=
  if max_workers <=? 0 then Raise ValueError
  else Ok (submitted world suite devs).

(** Every execution has returned. *)
Definition finished (s : State) : Prop := Forall (λ t, is_done t = true) (threads s).

(** The result an execution returned. *)
Definition returned (t : Thread) : option TestResult :=
  match pc t with Done r => Some r | _ => None end.

(** *** An execution run to its end on its own

    [complete t d] is the result execution [t] returns when it runs on from
    where it stands while nothing else writes to its device; [d] is the
    present state of that device. *)

(** The device after a status refresh with command outcome [out]. *)
Definition refreshed (out : RunOutcome) (d : Device) : Device :=
  match plat_of (platform d) with
  | Some p => fst (_update_status p out d)
  | None => d
  end.

Definition complete_from_drain (t : Thread) (initial : Z) (o : Outcome) (d : Device)
  : TestResult :=
  build_result (env t) (test t) o (initial - battery_level d) (battery_level d)
    (temperature d) (id d).

Definition complete_from_test (t : Thread) (initial : Z) (d : Device) : TestResult :=
  complete_from_drain t initial (run_platform_test (platform d) (env t))
    (refreshed (post_status (env t)) d).

Definition complete_after (t : Thread) (k : Cont) (d : Device) : TestResult :=
  match k with
  | KPre => complete_from_test t (battery_level d) d
  | KPost i o => complete_from_drain t i o d
  end.

Definition complete (t : Thread) (d : Device) : TestResult :=
  match pc t with
  | Queued => complete_after t KPre (refreshed (pre_status (env t)) d)
  | CallRefresh k => complete_after t k (refreshed (refresh_command k (env t)) d)
  | InRefresh k p _ lines => complete_after t k (fst (update_lines (status_line p) lines d))
  | ReadInitial => complete_after t KPre d
  | RunTest i => complete_from_test t i d
  | ReadDrain i o => complete_from_drain t i o d
  | ReadFinal drain o =>
      build_result (env t) (test t) o drain (battery_level d) (temperature d) (id d)
  | ReadTemp drain final o =>
      build_result (env t) (test t) o drain final (temperature d) (id d)
  | ReadId drain final temp o =>
      build_result (env t) (test t) o drain final temp (id d)
  | Append r => r
  | Done r => r
  end.

(** The number of steps an execution has at most before it, used to show
    that every run ends. *)
Definition status_lines (out : RunOutcome) : list string :=
  match out with
  | Completed stdout => split nl stdout
  | Raised _ => []
  end.

Definition weight_after (e : ExecEnv) (k : Cont) : nat :=
  match k with
  | KPre => 9 + length (status_lines (post_status e))
  | KPost _ _ => 5
  end.

Definition weight (t : Thread) : nat :=
  match pc t with
  | Queued =>
      3 + length (status_lines (pre_status (env t))) + weight_after (env t) KPre
  | CallRefresh k =>
      2 + length (status_lines (refresh_command k (env t))) + weight_after (env t) k
  | InRefresh k _ _ lines => 1 + length lines + weight_after (env t) k
  | ReadInitial => weight_after (env t) KPre
  | RunTest _ => 8 + length (status_lines (post_status (env t)))
  | ReadDrain _ _ => 5
  | ReadFinal _ _ => 4
  | ReadTemp _ _ _ => 3
  | ReadId _ _ _ _ => 2
  | Append _ => 1
  | Done _ => 0
  end.

Definition total_weight (s : State) : nat := sum_list_with weight (threads s).

End Runner.

(** *** ReportGenerator *)

(** [[r for r in self.results if r.device_id == device.id]]. *)
Definition results_of_device (results : list TestResult) (device : Device)
  : list TestResult :=
  List.filter (λ r, String.eqb (device_id r) (id device)) results.

(** [[r for r in self.results if r.test_name == test_name]]. *)
Definition results_of_test (results : list TestResult) (name : string)
  : list TestResult :=
  List.filter (λ r, String.eqb (test_name r) name) results.

(** [sum(1 for r in rs if r.success)]. *)
Definition count_passed (rs : list TestResult) : Z :=
  Z.of_nat (length (List.filter success rs)).

(** [len(rs)]. *)
Definition len {A : Type} (l : list A) : Z := Z.of_nat (length l).

(** The last column of the device summary: the pass rate of the device's
    results, as a percentage without decimals. *)
Definition device_status (results : list TestResult) (device : Device)
  : PyResult string :=
  let device_results := results_of_device results device in
  match device_results with
  | [] => Ok "No tests"
  | _ =>
      q ← int_truediv (count_passed device_results) (len device_results);
      let pass_rate := (q * 100)%float in
      Ok (format_f 0 pass_rate +:+ "% pass")
  end.

(** A row of the device summary table, column by column, as the header
    line of the table names them. *)
Record SummaryRow : Type := {
  col_device : string;
  col_platform : string;
  col_os_version : string;
  col_battery_start : string;
  col_battery_end : string;
  col_status : string
}.

Definition summary_row (results : list TestResult) (device : Device)
  : PyResult SummaryRow :=
  st ← device_status results device;
  Ok {| col_device := name device;
        col_platform := platform device;
        col_os_version := os_version device;
        col_battery_start := str_of_int (battery_level device) +:+ "%";
        col_battery_end := str_of_int (battery_level device) +:+ "%";
        col_status := st |}.

Definition render_row (r : SummaryRow) : string :=
  "| " +:+ col_device r +:+ " | " +:+ col_platform r +:+ " | " +:+ col_os_version r
  +:+ " | " +:+ col_battery_start r +:+ " | " +:+ col_battery_end r
  +:+ " | " +:+ col_status r +:+ " |" +:+ nl.

(** The rows of the device summary, one per device of the registry. *)
Definition device_summary (results : list TestResult) (devs : dict Device)
  : PyResult (list SummaryRow) :=
  mapM (summary_row results) (Dict.values devs).

(** The pass-rate line of a test's summary block. *)
Definition pass_rate_line (test_results : list TestResult) : PyResult string :=
  let passed := count_passed test_results in
  let total := len test_results in
  q ← int_truediv passed total;
  Ok ("- **Pass Rate**: " +:+ str_of_int passed +:+ "/" +:+ str_of_int total
      +:+ " (" +:+ format_f 1 (q * 100)%float +:+ "%)" +:+ nl).

(** [sum(xs)] for [float]s, from the left, starting at the integer zero. *)
Definition sum_floats (xs : list float) : float :=
  match xs with
  | [] => 0%float
  | x :: rest => fold_left PrimFloat.add rest (0 + x)%float
  end.

Definition average_duration_line (test_results : list TestResult) : PyResult string :=
  n ← float_of_int (len test_results);
  q ← float_truediv (sum_floats (map duration test_results)) n;
  Ok ("- **Average Duration**: " +:+ format_f 2 q +:+ "s" +:+ nl).

(** [x + y] on the numbers a metrics dictionary holds; a string cannot be
    added to a number. *)
Definition value_add (x y : value) : PyResult value :=
  match x, y with
  | VInt a, VInt b => Ok (VInt (a + b))
  | VInt a, VFloat g => f ← float_of_int a; Ok (VFloat (f + g))
  | VFloat f, VInt b => g ← float_of_int b; Ok (VFloat (f + g))
  | VFloat f, VFloat g => Ok (VFloat (f + g))
  | _, _ => Raise TypeError
  end.

(** [sum(values)]. *)
Definition sum_values (vs : list value) : PyResult value :=
  foldl (λ acc v, a ← acc; value_add a v) (Ok (VInt 0)) vs.

(** [total / n] for a sum of metric values and a length. *)
Definition value_div (total : value) (n : Z) : PyResult float :=
  match total with
  | VInt a => int_truediv a n
  | VFloat f => g ← float_of_int n; float_truediv f g
  | VStr _ => Raise TypeError
  end.

Definition is_number (v : value) : bool :=
  match v with VStr _ => false | _ => true end.

(** The line of one metric key in a test's summary block, if any. *)
Definition metric_line (test_results : list TestResult) (key : string)
  : PyResult (list string) :=
  let values := omap (λ r, Dict.get key (metrics r)) test_results in
  match values with
  | v :: _ =>
      if is_number v then
        total ← sum_values values;
        avg ← value_div total (len values);
        Ok ["  - " +:+ key +:+ ": " +:+ format_f 2 avg +:+ " (avg)" +:+ nl]
      else Ok []
  | [] => Ok []
  end.

(** The summary block of one test name. *)
Definition test_block (results : list TestResult) (name : string)
  : PyResult (list string) :=
  let test_results := results_of_test results name in
  rate ← pass_rate_line test_results;
  avg ← average_duration_line test_results;
  ms ← match test_results with
       | first :: _ =>
           match metrics first with
           | [] => Ok []
           | _ =>
               ls ← mapM (metric_line test_results) (Dict.keys (metrics first));
               Ok (("- **Metrics**:" +:+ nl) :: concat ls)
           end
       | [] => Raise IndexError
       end;
  Ok (["### " +:+ name +:+ nl; rate; avg] ++ ms ++ [nl]).

(** The lines of a failed result's output that the detailed section
    quotes: of the first three, those that are not blank. *)
Definition error_lines (r : TestResult) : list string :=
  if negb (success r) && negb (String.eqb (output r) EmptyString) then
    map (λ line, "  - " +:+ strip line +:+ nl)
      (List.filter (λ line, negb (String.eqb (strip line) EmptyString))
         (take 3 (split nl (output r))))
  else [].

Definition pass_mark (r : TestResult) : string :=
  if success r then "✅" else "❌".

Definition detail_lines (r : TestResult) : list string :=
  ("- " +:+ pass_mark r +:+ " **" +:+ test_name r +:+ "** ("
     +:+ format_f 2 (duration r) +:+ "s)" +:+ nl)
  :: error_lines r.

(** The section of one device in the detailed results; a device without
    results has none. *)
Definition device_details (results : list TestResult) (device : Device) : list string :=
  match results_of_device results device with
  | [] => []
  | device_results =>
      ["### " +:+ name device +:+ " (" +:+ platform device +:+ ")" +:+ nl +:+ nl]
      ++ concat (map detail_lines device_results) ++ [nl]
  end.

Definition total_tests_line (results : list TestResult) : string :=
  "**Total Tests Run**: " +:+ str_of_int (len results) +:+ nl +:+ nl.

Section Markdown.

(** [list(set(names))]: the distinct names in the order in which the set
    yields them, which the language leaves open. *)
Variable set_order : list string → list string.

(** [ReportGenerator.generate_markdown_report]; [now] is the formatted
    current time. *)
Definition generate_markdown_report (now : string) (results : list TestResult)
  (devs : dict Device) : PyResult string :=
  rows ← device_summary results devs;
  blocks ← mapM (test_block results) (set_order (map test_name results));
  Ok (join
    (["# BitCraps Device Test Report" +:+ nl;
      "**Generated**: " +:+ now +:+ nl;
      "**Devices Tested**: " +:+ str_of_int (len devs) +:+ nl;
      total_tests_line results;
      "## Device Summary" +:+ nl +:+ nl;
      "| Device | Platform | OS Version | Battery Start | Battery End | Status |" +:+ nl;
      "|--------|----------|------------|---------------|-------------|--------|" +:+ nl]
     ++ map render_row rows
     ++ [nl +:+ "## Test Summary" +:+ nl +:+ nl]
     ++ concat blocks
     ++ ["## Detailed Results" +:+ nl +:+ nl]
     ++ concat (map (device_details results) (Dict.values devs)))).

End Markdown.

(** The document [generate_json_report] serialises. *)
#[warnings="-register-all"]
Inductive json : Type :=
| JBool (b : bool)
| JInt (n : Z)
| JFloat (x : float)
| JStr (s : string)
| JArr (items : list json)
| JObj (fields : list (string * json)).

Definition json_of_value (v : value) : json :=
  match v with
  | VInt n => JInt n
  | VFloat x => JFloat x
  | VStr s => JStr s
  end.

(** [asdict(d)] for a [Device]. *)
Definition asdict_Device (d : Device) : json :=
  JObj [("id", JStr (id d)); ("platform", JStr (platform d)); ("name", JStr (name d));
        ("os_version", JStr (os_version d)); ("ble_version", JStr (ble_version d));
        ("status", JStr (status d)); ("battery_level", JInt (battery_level d));
        ("temperature", JFloat (temperature d))].

(** [asdict(r)] for a [TestResult]. *)
Definition asdict_TestResult (r : TestResult) : json :=
  JObj [("device_id", JStr (device_id r)); ("test_name", JStr (test_name r));
        ("success", JBool (success r)); ("duration", JFloat (duration r));
        ("timestamp", JStr (timestamp r)); ("output", JStr (output r));
        ("metrics", JObj (map (λ kv, (fst kv, json_of_value (snd kv))) (metrics r)))].

(** [ReportGenerator.generate_json_report]: the dictionary [report_data]
    that is handed to [json.dumps]; [now] is the current time in ISO
    format. *)
Definition generate_json_report (now : string) (results : list TestResult)
  (devs : dict Device) : json :=
  JObj [("metadata",
         JObj [("generated", JStr now);
               ("devices_tested", JInt (len devs));
               ("total_tests", JInt (len results))]);
        ("devices", JArr (map asdict_Device (Dict.values devs)));
        ("results", JArr (map asdict_TestResult results))].

(** Reading a structured report back: a field of an object, and the
    entries of its [results] list. *)
Definition json_field (k : string) (j : json) : option json :=
  match j with
  | JObj fields => Dict.get k fields
  | _ => None
  end.

Definition json_items (j : json) : list json :=
  match j with
  | JArr items => items
  | _ => []
  end.

Definition json_results (report : json) : list json :=
  match json_field "results" report with
  | Some j => json_items j
  | None => []
  end.

(** The results of a structured report that belong to a device, and those
    among them that passed. *)
Definition json_is_device (device_id : string) (entry : json) : bool :=
  match json_field "device_id" entry with
  | Some (JStr s) => String.eqb s device_id
  | _ => false
  end.

Definition json_passed (entry : json) : bool :=
  match json_field "success" entry with
  | Some (JBool b) => b
  | _ => false
  end.

Definition json_device_total (report : json) (device_id : string) : Z :=
  len (List.filter (json_is_device device_id) (json_results report)).

Definition json_device_passed (report : json) (device_id : string) : Z :=
  len (List.filter json_passed
         (List.filter (json_is_device device_id) (json_results report))).

Definition json_total_tests (report : json) : option json :=
  meta ← json_field "metadata" report;
  json_field "total_tests" meta.

End Orchestrator.

(* ===================================================================== *)
(** ** performance_monitor.py                                             *)
(* ===================================================================== *)

Module PerformanceMonitor.
Import Py.

(** [class PerformanceMetrics]. *)
Record PerformanceMetrics : Type := {
  timestamp : string;
  device_id : string;
  platform : string;
  cpu_usage : float;
  memory_usage : float;
  memory_available : float;
  network_rx_bytes : Z;
  network_tx_bytes : Z;
  battery_level : float;
  battery_temperature : float;
  fps : option float;
  frame_drops : Z
}.

(** *** DeviceMonitor: the sampler

    A monitor is shared by the thread that calls its methods (the caller)
    and by the loop threads [start_monitoring] creates.  The state below
    holds the attributes of the object, where every loop thread stands,
    and where the caller stands inside a method. *)

(** The points of [_monitor_loop]. *)
Inductive LoopPC : Type :=
| AtWhile                                   (* while self.monitoring: *)
| AtCollect                                 (* metrics = self.collect_metrics() *)
| AtPut (m : option PerformanceMetrics)     (* if metrics: self.metrics_queue.put(metrics) *)
| AtSleep                                   (* time.sleep(1) *)
| Exited.                                   (* the thread has ended *)

(** The caller: outside the methods, or at a point inside one. *)
Inductive Caller : Type :=
| Idle
| InStart                                   (* start_monitoring, self.monitoring set *)
| InStop                                    (* stop_monitoring, self.monitoring cleared *)
| InGet (acc : list PerformanceMetrics).    (* get_metrics, inside the loop *)

Record Monitor : Type := {
  metrics_queue : list PerformanceMetrics;  (* oldest first *)
  monitoring : bool;
  monitor_thread : option nat;              (* the thread object, by its number *)
  loops : list LoopPC;                      (* every loop thread created so far *)
  caller : Caller
}.

(** [DeviceMonitor.__init__]. *)
Definition new_monitor : Monitor :=
  {| metrics_queue := []; monitoring := false; monitor_thread := None;
     loops := []; caller := Idle |}.

(** What can happen next.  [Loop tid o] is a step of loop thread [tid];
    [o] is what [collect_metrics] gives should the step be the call. *)
Inductive event : Type :=
| CallStart                (* start_monitoring is entered: self.monitoring = True *)
| SpawnThread              (* the thread is created and started; start_monitoring returns *)
| CallStop                 (* stop_monitoring is entered: self.monitoring = False *)
| StopReturns              (* the join is over (or there was no thread): stop_monitoring returns *)
| CallGet                  (* get_metrics is entered *)
| GetOne                   (* one round of its loop: the queue is not empty *)
| GetReturns               (* the queue is empty: get_metrics returns *)
| Loop (tid : nat) (o : PyResult (option PerformanceMetrics)).

Definition set_caller (c : Caller) (s : Monitor) : Monitor :=
  {| metrics_queue := metrics_queue s; monitoring := monitoring s;
     monitor_thread := monitor_thread s; loops := loops s; caller := c |}.

Definition set_loop (tid : nat) (c : LoopPC) (s : Monitor) : Monitor :=
  {| metrics_queue := metrics_queue s; monitoring := monitoring s;
     monitor_thread := monitor_thread s; loops := <[tid := c]> (loops s);
     caller := caller s |}.

(** One step of [_monitor_loop] in thread [tid]. *)
Definition loop_step (tid : nat) (o : PyResult (option PerformanceMetrics))
  (s : Monitor) : option Monitor :=
  c ← loops s !! tid;
  match c with
  | AtWhile => Some (set_loop tid (if monitoring s then AtCollect else Exited) s)
  | AtCollect =>
      match o with
      | Ok m => Some (set_loop tid (AtPut m) s)
      | Raise _ => Some (set_loop tid Exited s)
      end
  | AtPut (Some m) =>
      Some {| metrics_queue := metrics_queue s ++ [m]; monitoring := monitoring s;
              monitor_thread := monitor_thread s;
              loops := <[tid := AtSleep]> (loops s); caller := caller s |}
  | AtPut None => Some (set_loop tid AtSleep s)
  | AtSleep => Some (set_loop tid AtWhile s)
  | Exited => None
  end.

(** [join()] returns once the thread has ended. *)
Definition joinable (s : Monitor) : bool :=
  match monitor_thread s with
  | None => true
  | Some tid =>
      match loops s !! tid with
      | Some Exited => true
      | _ => false
      end
  end.

(** The step an event makes, [None] when the event cannot happen. *)
Definition step (e : event) (s : Monitor) : option Monitor :=
  match e, caller s with
  | CallStart, Idle =>
      Some {| metrics_queue := metrics_queue s; monitoring := true;
              monitor_thread := monitor_thread s; loops := loops s;
              caller := InStart |}
  | SpawnThread, InStart =>
      Some {| metrics_queue := metrics_queue s; monitoring := monitoring s;
              monitor_thread := Some (length (loops s));
              loops := loops s ++ [AtWhile]; caller := Idle |}
  | CallStop, Idle =>
      Some {| metrics_queue := metrics_queue s; monitoring := false;
              monitor_thread := monitor_thread s; loops := loops s;
              caller := InStop |}
  | StopReturns, InStop =>
      if joinable s then Some (set_caller Idle s) else None
  | CallGet, Idle => Some (set_caller (InGet []) s)
  | GetOne, InGet acc =>
      match metrics_queue s with
      | m :: rest =>
          Some {| metrics_queue := rest; monitoring := monitoring s;
                  monitor_thread := monitor_thread s; loops := loops s;
                  caller := InGet (acc ++ [m]) |}
      | [] => None
      end
  | GetReturns, InGet acc =>
      match metrics_queue s with
      | [] => Some (set_caller Idle s)
      | _ => None
      end
  | Loop tid o, _ => loop_step tid o s
  | _, _ => None
  end.

(** A run: the events in the order in which they happen. *)
Fixpoint run (tr : list event) (s : Monitor) : option Monitor :=
  match tr with
  | [] => Some s
  | e :: rest => s' ← step e s; run rest s'
  end.

(** The life cycle of a sampler: [start_monitoring] is entered only while
    the monitor is not monitoring.  [lifecycle tr s] says that the run [tr]
    from [s] keeps to it. *)
Fixpoint lifecycle (tr : list event) (s : Monitor) : bool :=
  match tr with
  | [] => true
  | e :: rest =>
      match e with
      | CallStart => negb (monitoring s)
      | _ => true
      end &&
      match step e s with
      | Some s' => lifecycle rest s'
      | None => true
      end
  end.

Definition is_start (e : event) : bool :=
  match e with CallStart => true | _ => false end.

(** *** PerformanceAnalyzer *)

(** A number that is an [int] or a [float]. *)
Inductive num : Type :=
| Int (n : Z)
| Float (x : float).

(** [min(values)] and [max(values)]: the first of the smallest (largest)
    items under [<] ([>]); [ValueError] on an empty list. *)
Definition py_min (values : list float) : PyResult float :=
  match values with
  | [] => Raise ValueError
  | x :: rest => Ok (fold_left (λ best y, if (y <? best)%float then y else best) rest x)
  end.

Definition py_max (values : list float) : PyResult float :=
  match values with
  | [] => Raise ValueError
  | x :: rest => Ok (fold_left (λ best y, if (best <? y)%float then y else best) rest x)
  end.

(** [sum(ns)] for [int]s. *)
Definition sum_ints (ns : list Z) : Z := fold_left Z.add ns 0.

(** [x / n] for a number and an [int]. *)
Definition num_div (x : num) (n : Z) : PyResult float :=
  match x with
  | Int a => int_truediv a n
  | Float f => g ← float_of_int n; float_truediv f g
  end.

(** The dictionary [_analyze_metric] returns. *)
Record MetricStats : Type := {
  stat_min : float;
  stat_max : float;
  stat_avg : float;
  stat_median : float;
  stat_stdev : num
}.

Record NetworkStats : Type := {
  rx_total_kb : float;
  tx_total_kb : float;
  rx_rate_kbps : float;
  tx_rate_kbps : float
}.

Record BatteryStats : Type := {
  start_level : float;
  end_level : float;
  drain_rate : float;
  avg_temperature : float
}.

Record GraphicsStats : Type := {
  avg_fps : option float;
  min_fps : option float;
  total_frame_drops : Z;
  drop_rate : num
}.

(** An entry of [report["devices"]]. *)
Record DeviceReport : Type := {
  rep_platform : string;
  rep_samples : Z;
  rep_duration_seconds : Z;
  rep_cpu : MetricStats;
  rep_memory : MetricStats;
  rep_network : NetworkStats;
  rep_battery : BatteryStats;
  rep_graphics : GraphicsStats
}.

(** [PerformanceAnalyzer.add_metrics]. *)
Definition add_metrics (device_id : string) (metrics : list PerformanceMetrics)
  (history : dict (list PerformanceMetrics)) : dict (list PerformanceMetrics) :=
  let history :=
    if Dict.mem device_id history then history else Dict.set device_id [] history in
  match Dict.get device_id history with
  | Some old => Dict.set device_id (old ++ metrics) history
  | None => history
  end.

Section Analyzer.

(** The functions of the [statistics] module the analyzer calls; they are
    the library's and are taken as given.  [statistics_mean_int] is
    [statistics.mean] on [int]s, whose result is an [int] or a [float]. *)
Variable statistics_mean : list float → PyResult float.
Variable statistics_mean_int : list Z → PyResult num.
Variable statistics_median : list float → PyResult float.
Variable statistics_stdev : list float → PyResult float.

(** [PerformanceAnalyzer._analyze_metric]; [field] is the attribute that
    [getattr] reads. *)
Definition _analyze_metric (metrics : list PerformanceMetrics)
  (field : PerformanceMetrics → float) : PyResult MetricStats :=
  let values := map field metrics in
  lo ← py_min values;
  hi ← py_max values;
  avg ← statistics_mean values;
  med ← statistics_median values;
  sd ← (if 1 <? Z.of_nat (length values)
        then x ← statistics_stdev values; Ok (Float x)
        else Ok (Int 0));
  Ok {| stat_min := lo; stat_max := hi; stat_avg := avg; stat_median := med;
        stat_stdev := sd |}.

(** [PerformanceAnalyzer._analyze_graphics]. *)
Definition _analyze_graphics (metrics : list PerformanceMetrics)
  : PyResult GraphicsStats :=
  let fps_values := omap fps metrics in
  let total_drops := sum_ints (map frame_drops metrics) in
  match fps_values with
  | _ :: _ =>
      avg ← statistics_mean fps_values;
      lo ← py_min fps_values;
      rate ← int_truediv total_drops (Z.of_nat (length metrics));
      Ok {| avg_fps := Some avg; min_fps := Some lo;
            total_frame_drops := total_drops; drop_rate := Float rate |}
  | [] =>
      Ok {| avg_fps := None; min_fps := None; total_frame_drops := 0;
            drop_rate := Int 0 |}
  end.

(** The body of the loop of [generate_report] for a series that is not
    empty: [first] and [last] are [metrics[0]] and [metrics[-1]]. *)
Definition device_report (first last : PerformanceMetrics)
  (metrics : list PerformanceMetrics) : PyResult DeviceReport :=
  let n := Z.of_nat (length metrics) in
  cpu ← _analyze_metric metrics cpu_usage;
  mem ← _analyze_metric metrics memory_usage;
  rx_total ← int_truediv (sum_ints (map network_rx_bytes metrics)) 1024;
  tx_total ← int_truediv (sum_ints (map network_tx_bytes metrics)) 1024;
  rx_mean ← statistics_mean_int (map network_rx_bytes metrics);
  rx_rate ← num_div rx_mean 1024;
  tx_mean ← statistics_mean_int (map network_tx_bytes metrics);
  tx_rate ← num_div tx_mean 1024;
  drain ← num_div (Float (battery_level first - battery_level last)) n;
  temp ← statistics_mean (map battery_temperature metrics);
  gfx ← _analyze_graphics metrics;
  Ok {| rep_platform := platform first;
        rep_samples := n;
        rep_duration_seconds := n;
        rep_cpu := cpu;
        rep_memory := mem;
        rep_network := {| rx_total_kb := rx_total; tx_total_kb := tx_total;
                          rx_rate_kbps := rx_rate; tx_rate_kbps := tx_rate |};
        rep_battery := {| start_level := battery_level first;
                          end_level := battery_level last;
                          drain_rate := drain;
                          avg_temperature := temp |};
        rep_graphics := gfx |}.

(** One round of the loop of [generate_report] over
    [self.metrics_history.items()]: a device whose series is empty is
    passed over. *)
Definition report_entry (devices : dict DeviceReport)
  (item : string * list PerformanceMetrics) : PyResult (dict DeviceReport) :=
  let '(device_id, metrics) := item in
  match metrics with
  | [] => Ok devices
  | first :: _ =>
      r ← device_report first (List.last metrics first) metrics;
      Ok (Dict.set device_id r devices)
  end.

(** [PerformanceAnalyzer.generate_report]: the [devices] entry of the
    report (its [timestamp] entry is the current time). *)
Definition generate_report (history : dict (list PerformanceMetrics))
  : PyResult (dict DeviceReport) :=
  foldl (λ acc item, devices ← acc; report_entry devices item) (Ok Dict.empty) history.

End Analyzer.

End PerformanceMonitor.

(** ** performance_monitor.py: the monitors of the two platforms *)

Module AndroidMonitor.
Import Py PerformanceMonitor.

(** The result of a [subprocess.run(cmd, shell=True, capture_output=True,
    text=True)] call: the captured output, or an exception. *)
Abbreviation RunOutcome := Orchestrator.RunOutcome.
Abbreviation Completed := Orchestrator.Completed.
Abbreviation Raised := Orchestrator.Raised.
Abbreviation nl := Orchestrator.nl.

(** [s.rstrip(c)] for a single character [c]. *)
Definition rstrip_char (c : ascii) (s : string) : string :=
  string_rev (lstrip_with (Ascii.eqb c) (string_rev s)).

(** [s.isdigit()] on the ASCII digits (the outputs of the commands are
    taken to be ASCII text). *)
Definition isdigit (s : string) : bool :=
  match s with
  | EmptyString => false
  | _ => forallb (λ c, match digit_of c with Some _ => true | None => false end)
           (list_ascii_of_string s)
  end.

(** A loop that returns from inside its body: the result of the first
    round that returns, [None] when the loop runs to its end. *)
Fixpoint first_hit {A B : Type} (f : A → option B) (l : list A) : option B :=
  match l with
  | [] => None
  | x :: rest =>
      match f x with
      | Some b => Some b
      | None => first_hit f rest
      end
  end.

(** A loop over lines that assigns local variables: it is left at the
    first line that raises. *)
Fixpoint for_each {S : Type} (body : string → S → PyResult S)
  (lines : list string) (s : S) : PyResult S :=
  match lines with
  | [] => Ok s
  | line :: rest => s' ← body line s; for_each body rest s'
  end.

(** [try: ... except: return default]. *)
Definition or_default {A : Type} (default : A) (r : PyResult A) : A :=
  match r with
  | Ok a => a
  | Raise _ => default
  end.

Section Parsers.

(** [float(s)] on a [str], taken as given. *)
Variable float_of_str : string → PyResult float.

(** [AndroidMonitor._parse_cpu_usage]: the first token with a percent sign
    on the first line that names the package and has such a token. *)
Definition cpu_of_line (line : string) : option (PyResult float) :=
  if contains "com.bitcraps" line then
    first_hit (λ part, if contains "%" part
                       then Some (float_of_str (rstrip_char "%" part))
                       else None)
      (words line)
  else None.

Definition _parse_cpu_usage (output : string) : float :=
  match first_hit cpu_of_line (split nl (strip output)) with
  | Some r => or_default 0%float r
  | None => 0%float
  end.

(** [AndroidMonitor._parse_memory_usage]; [avail] is the outcome of the
    [MemAvailable] query, which is issued when a line with [TOTAL] has a
    token of digits. *)
Definition avail_kb_of (avail : RunOutcome) : PyResult Z :=
  match avail with
  | Orchestrator.Raised e => Raise (Orchestrator.exn_of e)
  | Orchestrator.Completed out =>
      if String.eqb out EmptyString then Ok 0
      else w ← index (words out) 1; int_of_str w
  end.

Definition memory_of_line (avail : RunOutcome) (line : string)
  : option (PyResult (float * float)) :=
  if contains "TOTAL" line then
    first_hit (λ part, if isdigit part
                       then Some (used_kb ← int_of_str part;
                                  avail_kb ← avail_kb_of avail;
                                  used ← int_truediv used_kb 1024;
                                  available ← int_truediv avail_kb 1024;
                                  Ok (used, available))
                       else None)
      (words line)
  else None.

Definition _parse_memory_usage (avail : RunOutcome) (output : string) : float * float :=
  match first_hit (memory_of_line avail) (split nl output) with
  | Some r => or_default (0%float, 0%float) r
  | None => (0%float, 0%float)
  end.

(** The two counters of a line of [/proc/net/dev]: the second and the
    tenth token. *)
Definition counters_of (output : string) : PyResult (Z * Z) :=
  let parts := words output in
  rx ← index parts 1;
  rx_bytes ← int_of_str rx;
  tx ← index parts 9;
  tx_bytes ← int_of_str tx;
  Ok (rx_bytes, tx_bytes).

(** [AndroidMonitor._parse_network_stats]: [last] is the attribute
    [last_network_stats] before the call; the function gives the pair it
    returns and the attribute after the call. *)
Definition _parse_network_stats (last : option (Z * Z)) (output : string)
  : (Z * Z) * option (Z * Z) :=
  if (10 <=? length (words output))%nat then
    match counters_of output with
    | Ok (rx_bytes, tx_bytes) =>
        match last with
        | Some (last_rx, last_tx) =>
            ((rx_bytes - last_rx, tx_bytes - last_tx), Some (rx_bytes, tx_bytes))
        | None => ((0, 0), Some (rx_bytes, tx_bytes))
        end
    | Raise _ => ((0, 0), last)
    end
  else ((0, 0), last).

(** [AndroidMonitor._parse_battery_stats]. *)
Definition battery_line (line : string) (acc : float * float) : PyResult (float * float) :=
  let '(level, temp) := acc in
  if contains "level:" line then
    field ← index (split ":" line) 1;
    x ← float_of_str (strip field);
    Ok (x, temp)
  else if contains "temperature:" line then
    field ← index (split ":" line) 1;
    x ← float_of_str (strip field);
    Ok (level, (x / 10)%float)
  else Ok acc.

Definition _parse_battery_stats (output : string) : float * float :=
  or_default (0%float, 0%float)
    (for_each battery_line (split nl output) (0%float, 0%float)).

(** [AndroidMonitor._parse_fps_stats]. *)
Definition fps_line (line : string) (acc : option float * Z)
  : PyResult (option float * Z) :=
  let '(fps, drops) := acc in
  if contains "Total frames rendered:" line then
    field ← index (split ":" line) 1;
    total_frames ← int_of_str (strip field);
    Ok acc
  else if contains "Janky frames:" line then
    field ← index (split ":" line) 1;
    w ← index (words field) 0;
    n ← int_of_str w;
    Ok (fps, n)
  else if contains "Average FPS:" line then
    field ← index (split ":" line) 1;
    x ← float_of_str (strip field);
    Ok (Some x, drops)
  else Ok acc.

Definition _parse_fps_stats (output : string) : option float * Z :=
  or_default (None, 0) (for_each fps_line (split nl output) (None, 0)).

(** What one call of [collect_metrics] obtains from outside: the outcome
    of each of its commands and the clock. *)
Record SampleEnv : Type := {
  top_out : RunOutcome;           (* adb shell top -n 1 | grep com.bitcraps *)
  meminfo_out : RunOutcome;       (* adb shell dumpsys meminfo com.bitcraps | grep TOTAL *)
  avail_out : RunOutcome;         (* adb shell cat /proc/meminfo | grep MemAvailable *)
  netdev_out : RunOutcome;        (* adb shell cat /proc/net/dev | grep wlan0 *)
  battery_out : RunOutcome;       (* adb shell dumpsys battery *)
  gfxinfo_out : RunOutcome;       (* adb shell dumpsys gfxinfo com.bitcraps | grep 'Total frames' *)
  clock_iso : string              (* datetime.now().isoformat() *)
}.

(** [AndroidMonitor.collect_metrics]: the sample, [None] when a command
    raised, and the attribute [last_network_stats] after the call. *)
Definition collect_metrics (device_id : string) (last : option (Z * Z)) (env : SampleEnv)
  : option PerformanceMetrics * option (Z * Z) :=
  match top_out env with
  | Orchestrator.Raised _ => (None, last)
  | Orchestrator.Completed cpu_stdout =>
      let cpu := _parse_cpu_usage cpu_stdout in
      match meminfo_out env with
      | Orchestrator.Raised _ => (None, last)
      | Orchestrator.Completed mem_stdout =>
          let '(mem_used, mem_available) := _parse_memory_usage (avail_out env) mem_stdout in
          match netdev_out env with
          | Orchestrator.Raised _ => (None, last)
          | Orchestrator.Completed net_stdout =>
              let '((rx_bytes, tx_bytes), last') := _parse_network_stats last net_stdout in
              match battery_out env with
              | Orchestrator.Raised _ => (None, last')
              | Orchestrator.Completed battery_stdout =>
                  let '(level, temp) := _parse_battery_stats battery_stdout in
                  match gfxinfo_out env with
                  | Orchestrator.Raised _ => (None, last')
                  | Orchestrator.Completed fps_stdout =>
                      let '(frame_rate, drops) := _parse_fps_stats fps_stdout in
                      (Some {| timestamp := clock_iso env;
                               device_id := device_id;
                               platform := "android";
                               cpu_usage := cpu;
                               memory_usage := mem_used;
                               memory_available := mem_available;
                               network_rx_bytes := rx_bytes;
                               network_tx_bytes := tx_bytes;
                               battery_level := level;
                               battery_temperature := temp;
                               fps := frame_rate;
                               frame_drops := drops |},
                       last')
                  end
              end
          end
      end
  end.

End Parsers.

End AndroidMonitor.

Module IOSMonitor.
Import Py PerformanceMonitor.

(** What one call of [collect_metrics] obtains from outside. *)
Record SampleEnv : Type := {
  capacity_out : Orchestrator.RunOutcome;   (* ideviceinfo ... | grep BatteryCurrentCapacity *)
  battery_out : Orchestrator.RunOutcome;    (* ideviceinfo ... | grep -E 'BatteryCurrentCapacity|Temperature' *)
  clock_iso : string                        (* datetime.now().isoformat() *)
}.

(** [IOSMonitor._get_ios_cpu_usage]: the command is run and its output is
    not read. *)
Definition _get_ios_cpu_usage (env : SampleEnv) : float :=
  match capacity_out env with
  | Orchestrator.Completed _ => 25%float
  | Orchestrator.Raised _ => 0%float
  end.

Definition _get_ios_memory_usage : float * float := (512%float, 2048%float).

Definition _get_ios_network_stats : Z * Z := (1024, 512).

Definition _get_ios_battery_stats (env : SampleEnv) : float * float :=
  match battery_out env with
  | Orchestrator.Completed _ => (85%float, 32%float)
  | Orchestrator.Raised _ => (0%float, 0%float)
  end.

Definition _get_ios_fps_stats : option float * Z := (Some 60%float, 2).

(** [IOSMonitor.collect_metrics]. *)
Definition collect_metrics (device_id : string) (env : SampleEnv)
  : option PerformanceMetrics :=
  let cpu := _get_ios_cpu_usage env in
  let '(mem_used, mem_available) := _get_ios_memory_usage in
  let '(rx_bytes, tx_bytes) := _get_ios_network_stats in
  let '(level, temp) := _get_ios_battery_stats env in
  let '(frame_rate, drops) := _get_ios_fps_stats in
  Some {| timestamp := clock_iso env;
          device_id := device_id;
          platform := "ios";
          cpu_usage := cpu;
          memory_usage := mem_used;
          memory_available := mem_available;
          network_rx_bytes := rx_bytes;
          network_tx_bytes := tx_bytes;
          battery_level := level;
          battery_temperature := temp;
          fps := frame_rate;
          frame_drops := drops |}.

End IOSMonitor.

(* ===================================================================== *)
(** * Part II.  Properties                                                *)
(* ===================================================================== *)

(** ** Dictionaries *)

Section DictFacts.
Context {V : Type}.
Implicit Types (d : dict V) (k : string) (v : V).

Lemma dict_get_set_eq d k v : Dict.get k (Dict.set k v d) = Some v.
Proof.
  induction d as [|[k' v'] d IH]; simpl.
  - by rewrite String.eqb_refl.
  - destruct (String.eqb k k') eqn:E; simpl.
    + by rewrite String.eqb_refl.
    + by rewrite E.
Qed.

Lemma dict_get_set_ne d k k' v :
  k ≠ k' → Dict.get k' (Dict.set k v d) = Dict.get k' d.
Proof.
  intros Hne. induction d as [|[k0 v0] d IH]; simpl.
  - destruct (String.eqb k' k) eqn:E; [|done].
    apply String.eqb_eq in E. congruence.
  - destruct (String.eqb k k0) eqn:E; simpl.
    + apply String.eqb_eq in E. subst k0.
      destruct (String.eqb k' k) eqn:E'; [|done].
      apply String.eqb_eq in E'. congruence.
    + by rewrite IH.
Qed.

Lemma dict_get_set d k k' v :
  Dict.get k' (Dict.set k v d) = if String.eqb k k' then Some v else Dict.get k' d.
Proof.
  destruct (String.eqb k k') eqn:E.
  - apply String.eqb_eq in E. subst. apply dict_get_set_eq.
  - apply String.eqb_neq in E. by apply dict_get_set_ne.
Qed.

Lemma dict_get_Some_keys d k v : Dict.get k d = Some v → k ∈ Dict.keys d.
Proof.
  induction d as [|[k' v'] d IH]; simpl; [done|].
  destruct (String.eqb k k') eqn:E.
  - apply String.eqb_eq in E. subst. intros _. apply list_elem_of_here.
  - intros H. apply list_elem_of_further. auto.
Qed.

Lemma dict_keys_get d k : k ∈ Dict.keys d → is_Some (Dict.get k d).
Proof.
  induction d as [|[k' v'] d IH]; simpl.
  - by intros ?%elem_of_nil.
  - destruct (String.eqb k k') eqn:E; [by eauto|].
    apply String.eqb_neq in E.
    intros [?|?]%elem_of_cons; [congruence|auto].
Qed.

Lemma dict_get_None_keys d k : Dict.get k d = None → k ∉ Dict.keys d.
Proof.
  intros H Hin. apply dict_keys_get in Hin. rewrite H in Hin. by destruct Hin.
Qed.

(** Assigning to a key that is present keeps the keys and their order. *)
Lemma dict_keys_set_present d k v :
  is_Some (Dict.get k d) → Dict.keys (Dict.set k v d) = Dict.keys d.
Proof.
  induction d as [|[k' v'] d IH]; simpl.
  - by intros [? ?].
  - destruct (String.eqb k k') eqn:E; simpl.
    + apply String.eqb_eq in E. by subst.
    + intros H. f_equal. by apply IH.
Qed.

(** Assigning to a new key appends it. *)
Lemma dict_keys_set_new d k v :
  Dict.get k d = None → Dict.keys (Dict.set k v d) = Dict.keys d ++ [k].
Proof.
  induction d as [|[k' v'] d IH]; simpl; [done|].
  destruct (String.eqb k k') eqn:E; [done|].
  intros H. simpl. f_equal. by apply IH.
Qed.

Lemma dict_keys_set_NoDup d k v :
  NoDup (Dict.keys d) → NoDup (Dict.keys (Dict.set k v d)).
Proof.
  intros Hnd. destruct (Dict.get k d) eqn:E.
  - by rewrite dict_keys_set_present.
  - rewrite dict_keys_set_new by done.
    apply NoDup_app. split_and!; [done| |apply NoDup_singleton].
    intros x Hx ->%list_elem_of_singleton. by apply dict_get_None_keys in E.
Qed.

Lemma dict_length_set_present d k v :
  is_Some (Dict.get k d) → length (Dict.set k v d) = length d.
Proof.
  intros H. apply dict_keys_set_present with (v := v) in H.
  unfold Dict.keys in H. apply (f_equal length) in H.
  by rewrite !length_map in H.
Qed.

Lemma dict_get_lookup d k v :
  NoDup (Dict.keys d) → (k, v) ∈ d → Dict.get k d = Some v.
Proof.
  induction d as [|[k' v'] d IH]; simpl.
  - by intros _ ?%elem_of_nil.
  - intros [Hk Hnd]%NoDup_cons [Heq|Hin]%elem_of_cons.
    + inversion Heq; subst. by rewrite String.eqb_refl.
    + destruct (String.eqb k k') eqn:E; [|by auto].
      apply String.eqb_eq in E. subst k'. exfalso. apply Hk.
      unfold Dict.keys. apply list_elem_of_fmap. by exists (k, v).
Qed.

Lemma dict_get_elem_of d k v : Dict.get k d = Some v → (k, v) ∈ d.
Proof.
  induction d as [|[k' v'] d IH]; simpl; [done|].
  destruct (String.eqb k k') eqn:E.
  - apply String.eqb_eq in E. intros [= ->]. subst. apply list_elem_of_here.
  - intros H. apply list_elem_of_further. auto.
Qed.

End DictFacts.

(** ** The error monad *)

Lemma bind_Ok {A B : Type} (m : Py.PyResult A) (k : A → Py.PyResult B) (b : B) :
  (x ← m; k x) = Py.Ok b → ∃ a, m = Py.Ok a ∧ k a = Py.Ok b.
Proof. destruct m as [a|e]; simpl; [eauto|done]. Qed.

Lemma mapM_Ok_length {A B : Type} (f : A → Py.PyResult B) (l : list A) (l' : list B) :
  mapM f l = Py.Ok l' → length l' = length l.
Proof.
  revert l'. induction l as [|a l IH]; intros l'; simpl.
  - by intros [= <-].
  - intros (b & Hb & H)%bind_Ok. apply bind_Ok in H as (bs & Hbs & H).
    injection H as <-. simpl. f_equal. by apply IH.
Qed.

Lemma mapM_Ok_lookup {A B : Type} (f : A → Py.PyResult B) (l : list A) (l' : list B) i b :
  mapM f l = Py.Ok l' → l' !! i = Some b → ∃ a, l !! i = Some a ∧ f a = Py.Ok b.
Proof.
  revert l' i. induction l as [|a l IH]; intros l' i; simpl.
  - by intros [= <-].
  - intros (b0 & Hb & H)%bind_Ok. apply bind_Ok in H as (bs & Hbs & H).
    injection H as <-. destruct i as [|i]; simpl.
    + intros [= ->]. eauto.
    + intros Hi. eapply IH; eauto.
Qed.

(** Case analysis on the result that decides the goal. *)
Ltac py_destruct :=
  repeat match goal with
  | |- context [mbind _ ?m] =>
      let E := fresh "E" in destruct m eqn:E; simpl
  | |- context [match ?m with Py.Ok _ => _ | Py.Raise _ => _ end] =>
      let E := fresh "E" in destruct m eqn:E; simpl
  end.

(** ** The built-ins on examples *)

Example split_examples :
  Py.split ":" "  level: 85" = ["  level"; " 85"]
  ∧ Py.split ":" "a:" = ["a"; EmptyString]
  ∧ Py.split "aa" "aaa" = [EmptyString; "a"]
  ∧ Py.split "METRIC:" "xx METRIC: a=1 METRIC:b" = ["xx "; " a=1 "; "b"]
  ∧ Py.words "  a b   c " = ["a"; "b"; "c"]
  ∧ Py.strip "  85  " = "85".
Proof. by vm_compute. Qed.

Example int_of_str_examples :
  Py.int_of_str " 85 " = Py.Ok 85
  ∧ Py.int_of_str "-1_0" = Py.Ok (-10)
  ∧ Py.int_of_str "+007" = Py.Ok 7
  ∧ Py.int_of_str "1__0" = Py.Raise Py.ValueError
  ∧ Py.int_of_str "12a" = Py.Raise Py.ValueError
  ∧ Py.int_of_str "- 1" = Py.Raise Py.ValueError
  ∧ Py.int_of_str EmptyString = Py.Raise Py.ValueError.
Proof. by vm_compute. Qed.

Example truediv_examples :
  Py.int_truediv 1 2 = Py.Ok 0.5%float
  ∧ Py.int_truediv (-7) 2 = Py.Ok (-3.5)%float
  ∧ Py.int_truediv (10 ^ 400) (10 ^ 399) = Py.Ok 10%float
  ∧ Py.int_truediv 1 0 = Py.Raise Py.ZeroDivisionError
  ∧ Py.int_truediv (10 ^ 400) 1 = Py.Raise Py.OverflowError
  ∧ Py.float_of_int (2 ^ 53 + 1) = Py.Ok 9007199254740992%float
  ∧ Py.float_of_int (2 ^ 1024) = Py.Raise Py.OverflowError.
Proof. by vm_compute. Qed.

Example format_f_examples :
  Py.format_f 1 6.25 = "6.2"
  ∧ Py.format_f 0 0.5 = "0"
  ∧ Py.format_f 0 1.5 = "2"
  ∧ Py.format_f 2 1.5 = "1.50"
  ∧ Py.format_f 1 100 = "100.0"
  ∧ Py.format_f 2 (-0.0009765625) = "-0.00"
  ∧ Py.format_f 1 (2 / 3 * 100) = "66.7"
  ∧ Py.format_f 1 (1 / 2000 * 100) = "0.1".
Proof. by vm_compute. Qed.

(** ** The device registry *)

Module RegistryProps.
Import Py Orchestrator.

(** The fields of a [Device] that no status refresh assigns. *)
Definition static (d : Device) : string * string * string * string * string * string :=
  (id d, platform d, name d, os_version d, ble_version d, status d).

Lemma status_line_static p line d d' :
  status_line p line d = Ok d' → static d' = static d.
Proof.
  destruct p; simpl; unfold update_android_line, update_ios_line;
    repeat (case_match; simpl; try done);
    py_destruct; try done; intros [= <-]; done.
Qed.

Lemma update_lines_static body lines d :
  (∀ line d d', body line d = Ok d' → static d' = static d) →
  static (fst (update_lines body lines d)) = static d.
Proof.
  intros Hbody. revert d. induction lines as [|line lines IH]; intros d; simpl; [done|].
  destruct (body line d) as [d'|e] eqn:E; simpl; [|done].
  rewrite IH. eauto.
Qed.

Lemma _update_status_static p out d :
  static (fst (_update_status p out d)) = static d.
Proof.
  destruct p, out as [stdout|e]; simpl; try done;
    apply update_lines_static; intros line d1 d2.
  - apply (status_line_static Android).
  - apply (status_line_static IOS).
Qed.


(** The iOS refresh never assigns the temperature. *)
Lemma update_ios_temperature out d :
  temperature (fst (_update_ios_status out d)) = temperature d.
Proof.
  destruct out as [stdout|e]; simpl; [|done].
  generalize (split nl stdout). intros lines. revert d.
  induction lines as [|line lines IH]; intros d; simpl; [done|].
  destruct (update_ios_line line d) as [d'|e] eqn:E; simpl; [|done].
  rewrite IH. unfold update_ios_line in E.
  destruct (contains _ line); [|by injection E as <-].
  revert E. py_destruct; try done. by intros [= <-].
Qed.

(** What a loop over status lines leaves behind when a line raises: the
    record as the lines before it made it. *)
Lemma update_lines_app_raise body l1 bad l2 d e :
  snd (update_lines body l1 d) = None →
  body bad (fst (update_lines body l1 d)) = Raise e →
  update_lines body (l1 ++ bad :: l2) d = (fst (update_lines body l1 d), Some e).
Proof.
  revert d. induction l1 as [|line l1 IH]; intros d; simpl.
  - intros _ ->. done.
  - destruct (body line d) as [d'|e'] eqn:E; simpl; [|done]. apply IH.
Qed.

(** The record after the refresh is the last state of its trace. *)
Lemma refresh_trace_last body lines d :
  last (refresh_trace body lines d) = Some (fst (update_lines body lines d)).
Proof.
  revert d. induction lines as [|line lines IH]; intros d; simpl; [done|].
  destruct (body line d) as [d'|e] eqn:E; simpl; [|done].
  specialize (IH d'). destruct (refresh_trace body lines d') eqn:T; [|done].
  by destruct lines; simpl in T; [|destruct (body _ d')].
Qed.

(** A well-formed registry: every key once, and every device under its own
    [id]. *)
Definition registry_wf (devs : dict Device) : Prop :=
  NoDup (Dict.keys devs) ∧ ∀ k d, Dict.get k devs = Some d → id d = k.

Lemma registry_wf_empty : registry_wf Dict.empty.
Proof. split; [constructor|done]. Qed.

Lemma registry_wf_set devs k d :
  registry_wf devs → id d = k → registry_wf (Dict.set k d devs).
Proof.
  intros [Hnd Hid] Hk. split; [by apply dict_keys_set_NoDup|].
  intros k' d'. rewrite dict_get_set.
  destruct (String.eqb k k') eqn:E; [|by auto].
  apply String.eqb_eq in E. by intros [= <-]; subst.
Qed.

Lemma fold_left_wf {A : Type} (f : dict Device → A → dict Device) (l : list A) devs :
  (∀ devs x, registry_wf devs → registry_wf (f devs x)) →
  registry_wf devs → registry_wf (fold_left f l devs).
Proof.
  intros Hf. revert devs. induction l as [|x l IH]; intros devs H; simpl; auto.
Qed.

(** Discovery builds a well-formed registry, whatever the commands give. *)
Lemma discover_devices_wf a : registry_wf (discover_devices a).
Proof.
  unfold discover_devices, _discover_ios_devices, _discover_android_devices.
  assert (Ha : registry_wf
    (match adb_devices a with
     | Completed stdout => fold_left (discover_android_line a) (split nl stdout) Dict.empty
     | Raised _ => Dict.empty
     end)).
  { destruct (adb_devices a); [|apply registry_wf_empty].
    apply fold_left_wf; [|apply registry_wf_empty].
    intros devs line H. unfold discover_android_line.
    destruct (contains _ line); [|done]. destruct (words line); [done|].
    by apply registry_wf_set. }
  destruct (idevice_id a); [|done].
  apply fold_left_wf; [|done].
  intros devs line H. unfold discover_ios_line.
  destruct (String.eqb line EmptyString); [done|]. by apply registry_wf_set.
Qed.

Lemma update_device_status_get out device_id devs k :
  Dict.get k (update_device_status out device_id devs) =
  if String.eqb device_id k
  then refreshed out <$> Dict.get k devs
  else Dict.get k devs.
Proof.
  unfold update_device_status, refreshed.
  destruct (String.eqb device_id k) eqn:E.
  - apply String.eqb_eq in E. subst k.
    destruct (Dict.get device_id devs) as [d|] eqn:G; simpl; [|by rewrite G].
    destruct (plat_of (platform d)); [|by rewrite G].
    by rewrite dict_get_set_eq.
  - apply String.eqb_neq in E.
    destruct (Dict.get device_id devs) as [d|] eqn:G; [|done].
    destruct (plat_of (platform d)); [|done].
    by rewrite dict_get_set_ne.
Qed.

(** *** Status refresh *)

(** A device with the battery at 80 and 30 degrees. *)
Definition ex_pixel : Device :=
  {| id := "emulator-5554"; platform := "android"; name := "Pixel 7";
     os_version := "Android 14"; ble_version := "5.0+"; status := "idle";
     battery_level := 80; temperature := 30 |}.

(** The status command answers, but its temperature line cannot be read. *)
Definition ex_garbled : RunOutcome :=
  Completed ("  level: 50" +:+ nl +:+ "  temperature: n/a" +:+ nl +:+ "  scale: 100").

(** The status command answers with a level and a temperature. *)
Definition ex_status : RunOutcome :=
  Completed ("  level: 50" +:+ nl +:+ "  temperature: 250").

(** The claim that a failed refresh leaves the record as it was, and that
    a refresh that succeeds replaces it in one piece, does not hold: when
    the temperature line cannot be read the refresh fails with the new
    level already written; and a refresh that succeeds passes through a
    record with the new level and the old temperature. *)
Lemma refresh_failure_keeps_level :
  _update_android_status ex_garbled ex_pixel = (set_battery_level 50 ex_pixel, Some ValueError)
  ∧ fst (_update_android_status ex_garbled ex_pixel) ≠ ex_pixel
  ∧ snd (_update_android_status ex_status ex_pixel) = None
  ∧ refresh_trace update_android_line (status_lines ex_status) ex_pixel
    = [ex_pixel; set_battery_level 50 ex_pixel;
       set_temperature 25 (set_battery_level 50 ex_pixel)].
Proof.
  split_and!.
  - by vm_compute.
  - intros H. apply (f_equal battery_level) in H. by vm_compute in H.
  - by vm_compute.
  - by vm_compute.
Qed.

(** C5 (amended).  When the status command itself fails, the record is
    left as it was.  When the command answers, the lines are applied to
    the record in place, one after the other: the record after the refresh
    is the last state of this trace; a line that cannot be read ends the
    refresh with the fields assigned by the lines before it kept; and no
    refresh, failed or not, assigns any field other than the battery level
    and the temperature (the iOS refresh only the level). *)
Theorem status_refresh_in_place p (d : Device) :
  (∀ e, _update_status p (Raised e) d = (d, Some (exn_of e)))
  ∧ (∀ out, static (fst (_update_status p out d)) = static d)
  ∧ (∀ out, temperature (fst (_update_status IOS out d)) = temperature d)
  ∧ (∀ stdout,
       last (refresh_trace (status_line p) (split nl stdout) d)
       = Some (fst (_update_status p (Completed stdout) d)))
  ∧ (∀ stdout l1 bad l2 e,
       split nl stdout = l1 ++ bad :: l2 →
       snd (update_lines (status_line p) l1 d) = None →
       status_line p bad (fst (update_lines (status_line p) l1 d)) = Raise e →
       _update_status p (Completed stdout) d
       = (fst (update_lines (status_line p) l1 d), Some e)).
Proof.
  split_and!.
  - by destruct p.
  - intros out. apply _update_status_static.
  - intros out. apply update_ios_temperature.
  - intros stdout. rewrite refresh_trace_last. by destruct p.
  - intros stdout l1 bad l2 e Hsplit Hl1 Hbad.
    replace (_update_status p (Completed stdout) d)
      with (update_lines (status_line p) (split nl stdout) d) by (by destruct p).
    rewrite Hsplit. by apply update_lines_app_raise.
Qed.

Lemma status_refresh_in_place_witness :
  _update_status Android ex_garbled ex_pixel
  = (set_battery_level 50 ex_pixel, Some ValueError).
Proof.
  destruct (status_refresh_in_place Android ex_pixel) as (_ & _ & _ & _ & H).
  apply (H _ ["  level: 50"] "  temperature: n/a" ["  scale: 100"] ValueError);
    by vm_compute.
Defined.

End RegistryProps.

(** ** The worker pool *)

Module SchedulerProps.
Import Py Orchestrator RegistryProps.

Section Scheduler.

Variable float_of_str : string → PyResult float.

Local Abbreviation run_platform_test := (run_platform_test float_of_str).
Local Abbreviation step_thread := (step_thread float_of_str).
Local Abbreviation complete := (complete float_of_str).
Local Abbreviation sched_step := (sched_step float_of_str).
Local Abbreviation run_schedule := (run_schedule float_of_str).

(** *** One step of one execution *)

(** What the local variables of an execution hold, given the platform [pl]
    of its device: the outcome of the test is the one the platform runner
    gives, a refresh in progress writes to the execution's own device, and
    the result is built from that outcome under the device's key. *)
Definition cont_ok (pl : string) (t : Thread) (k : Cont) : Prop :=
  match k with
  | KPre => True
  | KPost _ o => o = run_platform_test pl (env t)
  end.

Definition built (pl : string) (t : Thread) (r : TestResult) : Prop :=
  ∃ drain final temp,
    r = build_result (env t) (test t) (run_platform_test pl (env t))
          drain final temp (dev t).

Definition thread_ok (pl : string) (t : Thread) : Prop :=
  match pc t with
  | Queued | ReadInitial | RunTest _ => True
  | CallRefresh k => cont_ok pl t k
  | InRefresh k _ target _ => target = dev t ∧ cont_ok pl t k
  | ReadDrain _ o | ReadFinal _ o | ReadTemp _ _ o | ReadId _ _ _ o =>
      o = run_platform_test pl (env t)
  | Append r | Done r => built pl t r
  end.

Lemma _update_status_lines p stdout d :
  _update_status p (Completed stdout) d = update_lines (status_line p) (split nl stdout) d.
Proof. by destruct p. Qed.

Lemma weight_after_refresh (t : Thread) (k : Cont) :
  weight (with_pc t (after_refresh k)) = weight_after (env t) k.
Proof. by destruct k. Qed.

Lemma complete_after_refresh (t : Thread) (k : Cont) d :
  complete (with_pc t (after_refresh k)) d = complete_after float_of_str t k d.
Proof. by destruct k. Qed.

(** The step of a running execution: it reads and writes its own device
    only, keeps the fields no refresh assigns, moves strictly towards its
    end, and appends exactly when it returns. *)
Lemma step_thread_spec t devs rs c devs' rs' d :
  registry_wf devs →
  Dict.get (dev t) devs = Some d →
  thread_ok (platform d) t →
  step_thread t devs rs = Some (c, devs', rs') →
  ∃ d',
    Dict.get (dev t) devs' = Some d'
    ∧ static d' = static d
    ∧ (∀ k, k ≠ dev t → Dict.get k devs' = Dict.get k devs)
    ∧ Dict.keys devs' = Dict.keys devs
    ∧ thread_ok (platform d) (with_pc t c)
    ∧ complete (with_pc t c) d' = complete t d
    ∧ (weight (with_pc t c) < weight t)%nat
    ∧ returned t = None
    ∧ rs' = rs ++ match c with Done r => [r] | _ => [] end.
Proof.
  intros [Hnd Hid] Hd Hok Hstep.
  assert (Hidd : id d = dev t) by eauto.
  destruct t as [k tst e c0]; simpl in *.
  unfold Orchestrator.step_thread, thread_ok, Orchestrator.complete, weight, returned in *;
    simpl in *.
  destruct c0 as [|kk|kk p target lines| |i|i o|dr o|dr fin o|dr fin tmp o|r|r];
    simpl in *; try done.
  - (* CallRefresh *)
    rewrite Hd in Hstep. simpl in Hstep. rewrite Hidd, Hd in Hstep.
    unfold refreshed.
    destruct (plat_of (platform d)) as [p|] eqn:Hp.
    + destruct (refresh_command kk e) as [stdout|err] eqn:Hc.
      * injection Hstep as <- <- <-. exists d. simpl. rewrite app_nil_r.
        split_and!; try done.
        -- by rewrite _update_status_lines.
        -- unfold status_lines. lia.
      * injection Hstep as <- <- <-. exists d.
        destruct kk, p; simpl in *; rewrite app_nil_r; split_and!; try done; lia.
    + injection Hstep as <- <- <-. exists d.
      destruct kk; simpl in *; rewrite app_nil_r; split_and!; try done; lia.
  - (* InRefresh *)
    destruct Hok as [-> Hk].
    destruct lines as [|line rest].
    + injection Hstep as <- <- <-. exists d.
      destruct kk; simpl in *; rewrite app_nil_r; split_and!; try done; lia.
    + rewrite Hd in Hstep. simpl in Hstep.
      destruct (status_line p line d) as [d1|err] eqn:Hl.
      * injection Hstep as <- <- <-. exists d1. simpl. rewrite app_nil_r.
        split_and!; try done.
        -- apply dict_get_set_eq.
        -- by eapply status_line_static.
        -- intros k' Hk'. by apply dict_get_set_ne.
        -- apply dict_keys_set_present. eauto.
        -- rewrite Hl. by destruct kk.
        -- lia.
      * injection Hstep as <- <- <-. exists d.
        destruct kk; simpl in *; rewrite app_nil_r, ?Hl; split_and!; try done; lia.
  - (* ReadInitial *)
    rewrite Hd in Hstep. injection Hstep as <- <- <-. exists d. simpl. rewrite app_nil_r.
    split_and!; try done. lia.
  - (* RunTest *)
    rewrite Hd in Hstep. injection Hstep as <- <- <-. exists d. simpl. rewrite app_nil_r.
    split_and!; try done. lia.
  - (* ReadDrain *)
    rewrite Hd in Hstep. injection Hstep as <- <- <-. exists d. simpl. rewrite app_nil_r.
    split_and!; try done. lia.
  - (* ReadFinal *)
    rewrite Hd in Hstep. injection Hstep as <- <- <-. exists d. simpl. rewrite app_nil_r.
    split_and!; try done. lia.
  - (* ReadTemp *)
    rewrite Hd in Hstep. injection Hstep as <- <- <-. exists d. simpl. rewrite app_nil_r.
    split_and!; try done. lia.
  - (* ReadId *)
    rewrite Hd in Hstep. injection Hstep as <- <- <-. exists d. simpl. rewrite app_nil_r.
    split_and!; try done.
    + unfold built. simpl. rewrite Hidd, Hok. eauto.
    + lia.
  - (* Append *)
    injection Hstep as <- <- <-. exists d. simpl.
    split_and!; try done. lia.
Qed.

(** *** Lists of executions *)

Lemma omap_insert_returned (l : list Thread) i t t' :
  l !! i = Some t → returned t = None →
  omap returned (<[i := t']> l) ≡ₚ omap returned l ++ option_list (returned t').
Proof.
  intros Hi Hn.
  rewrite insert_take_drop by (by eapply lookup_lt_Some).
  rewrite <- (take_drop_middle l i t Hi) at 3.
  rewrite !omap_app. simpl. rewrite Hn.
  destruct (returned t') as [r|]; simpl.
  - rewrite <- Permutation_middle. apply Permutation_cons_append.
  - by rewrite app_nil_r.
Qed.

Lemma sum_weight_insert (l : list Thread) i t t' :
  l !! i = Some t → (weight t' < weight t)%nat →
  (sum_list_with weight (<[i := t']> l) < sum_list_with weight l)%nat.
Proof.
  intros Hi Hw.
  rewrite insert_take_drop by (by eapply lookup_lt_Some).
  rewrite <- (take_drop_middle l i t Hi) at 3.
  rewrite !sum_list_with_app. simpl. lia.
Qed.

(** What identifies an execution: its device, its test and what it gets
    from outside.  No step changes it. *)
Definition ident (t : Thread) : string * TestSpec * ExecEnv := (dev t, test t, env t).

Lemma map_ident_insert (l : list Thread) i t c :
  l !! i = Some t → map ident (<[i := with_pc t c]> l) = map ident l.
Proof.
  intros Hi. apply list_eq. intros j.
  rewrite !list_lookup_fmap.
  destruct (decide (i = j)) as [->|Hne].
  - rewrite list_lookup_insert_eq by (by eapply lookup_lt_Some). by rewrite Hi.
  - by rewrite list_lookup_insert_ne.
Qed.

(** *** The invariant of a run *)

Definition platform_of (devs : dict Device) (k : string) : string :=
  match Dict.get k devs with
  | Some d => platform d
  | None => EmptyString
  end.

(** [inv devs0 s]: the registry of [s] has the keys of [devs0] and the same
    fields that no refresh assigns; every execution holds a device of the
    registry and its local variables are as [thread_ok] says; the results
    are those of the executions that have returned. *)
Record inv (devs0 : dict Device) (s : State) : Prop := {
  inv_wf : registry_wf (devices s);
  inv_keys : Dict.keys (devices s) = Dict.keys devs0;
  inv_static : ∀ k, static <$> Dict.get k (devices s) = static <$> Dict.get k devs0;
  inv_threads :
    Forall (λ t, dev t ∈ Dict.keys devs0 ∧ thread_ok (platform_of devs0 (dev t)) t)
      (threads s);
  inv_results : results s ≡ₚ omap returned (threads s)
}.

Lemma inv_get devs0 s t :
  inv devs0 s → dev t ∈ Dict.keys devs0 →
  ∃ d, Dict.get (dev t) (devices s) = Some d ∧ platform d = platform_of devs0 (dev t).
Proof.
  intros I Hin. rewrite <- (inv_keys _ _ I) in Hin.
  apply dict_keys_get in Hin as [d Hd]. exists d. split; [done|].
  pose proof (inv_static _ _ I (dev t)) as Hs. rewrite Hd in Hs.
  unfold platform_of. destruct (Dict.get (dev t) devs0) as [d0|]; [|done].
  simpl in Hs. by injection Hs as _ -> _ _ _ _.
Qed.

Lemma sched_step_running mw i s t :
  threads s !! i = Some t → is_queued t = false →
  sched_step mw i s =
  ('(c, devices', results') ← step_thread t (devices s) (results s);
   Some {| devices := devices'; results := results';
           threads := <[i := with_pc t c]> (threads s) |}).
Proof.
  intros Hi Hq. unfold Orchestrator.sched_step. rewrite Hi. simpl.
  unfold is_queued in Hq. by destruct (pc t).
Qed.

Lemma sched_step_queued mw i s t :
  threads s !! i = Some t → is_queued t = true →
  sched_step mw i s =
  if forallb (λ t', negb (is_queued t')) (take i (threads s))
     && (Z.of_nat (busy (threads s)) <? mw)
  then Some {| devices := devices s; results := results s;
               threads := <[i := with_pc t (CallRefresh KPre)]> (threads s) |}
  else None.
Proof.
  intros Hi Hq. unfold Orchestrator.sched_step. rewrite Hi. simpl.
  unfold is_queued in Hq. by destruct (pc t).
Qed.

Lemma registry_wf_step devs devs' k d d' :
  registry_wf devs →
  Dict.get k devs = Some d → Dict.get k devs' = Some d' → static d' = static d →
  (∀ k', k' ≠ k → Dict.get k' devs' = Dict.get k' devs) →
  Dict.keys devs' = Dict.keys devs →
  registry_wf devs'.
Proof.
  intros [Hnd Hid] Hd Hd' Hs Hframe Hkeys. split; [by rewrite Hkeys|].
  intros k1 d1 Hk1. destruct (decide (k1 = k)) as [->|Hne].
  - rewrite Hd' in Hk1. injection Hk1 as <-.
    transitivity (id d); [by injection Hs | by apply Hid].
  - rewrite Hframe in Hk1 by done. by apply Hid.
Qed.

Lemma sched_step_inv devs0 mw i s s' :
  inv devs0 s → sched_step mw i s = Some s' →
  inv devs0 s'
  ∧ map ident (threads s') = map ident (threads s)
  ∧ (total_weight s' < total_weight s)%nat.
Proof.
  intros I Hstep.
  destruct (threads s !! i) as [t|] eqn:Hi;
    [|by unfold Orchestrator.sched_step in Hstep; rewrite Hi in Hstep].
  pose proof (inv_threads _ _ I) as Hts.
  pose proof (proj1 (Forall_lookup _ _) Hts i t Hi) as [Hin Hok].
  destruct (inv_get devs0 s t I Hin) as (d & Hd & Hpl).
  destruct (is_queued t) eqn:Hq.
  - (* a queued execution is picked *)
    rewrite (sched_step_queued _ _ _ _ Hi Hq) in Hstep.
    destruct (_ && _); [|done]. injection Hstep as <-.
    assert (Hpc : pc t = Queued) by (unfold is_queued in Hq; by destruct (pc t)).
    split_and!.
    + split; simpl; try apply I.
      * apply Forall_insert; [done|]. split; [done|]. by unfold thread_ok.
      * rewrite omap_insert_returned with (t := t); [|done|by unfold returned; rewrite Hpc].
        simpl. rewrite app_nil_r. apply I.
    + by apply map_ident_insert.
    + unfold total_weight. simpl. apply sum_weight_insert with (t := t); [done|].
      unfold weight. rewrite Hpc. simpl. lia.
  - (* a running execution makes a step *)
    rewrite (sched_step_running _ _ _ _ Hi Hq) in Hstep.
    destruct (step_thread t (devices s) (results s)) as [[[c devs'] rs']|] eqn:Hst;
      simpl in Hstep; [|done]. injection Hstep as <-.
    rewrite <- Hpl in Hok.
    destruct (step_thread_spec t _ _ _ _ _ d (inv_wf _ _ I) Hd Hok Hst)
      as (d' & Hd' & Hs' & Hframe & Hkeys & Hok' & _ & Hw & Hret & Hrs).
    split_and!.
    + split; simpl.
      * eapply registry_wf_step; [apply I|exact Hd|exact Hd'|exact Hs'|exact Hframe|exact Hkeys].
      * rewrite Hkeys. apply I.
      * intros k1. destruct (decide (k1 = dev t)) as [->|Hne].
        -- rewrite Hd', <- (inv_static _ _ I), Hd. simpl. by rewrite Hs'.
        -- rewrite Hframe by done. apply I.
      * apply Forall_insert; [done|]. split; [done|]. simpl. by rewrite <- Hpl.
      * rewrite omap_insert_returned with (t := t); [|done|done].
        rewrite Hrs, (inv_results _ _ I). by destruct c.
    + by apply map_ident_insert.
    + unfold total_weight. simpl. by apply sum_weight_insert with (t := t).
Qed.

Lemma run_schedule_inv devs0 mw sched s s' :
  inv devs0 s → run_schedule mw sched s = Some s' →
  inv devs0 s'
  ∧ map ident (threads s') = map ident (threads s)
  ∧ (length sched + total_weight s' ≤ total_weight s)%nat.
Proof.
  revert s. induction sched as [|i sched IH]; intros s I; simpl.
  - intros [= <-]. split_and!; [done|done|lia].
  - destruct (sched_step mw i s) as [s1|] eqn:H1; simpl; [|done].
    intros H. destruct (sched_step_inv _ _ _ _ _ I H1) as (I1 & Hid1 & Hw1).
    destruct (IH _ I1 H) as (I' & Hid' & Hw').
    split_and!; [done|congruence|lia].
Qed.

(** *** The submitted pairs *)

(** The key of a result, and the key an execution will give its result. *)
Definition result_key (r : TestResult) : string * string := (device_id r, test_name r).
Definition thread_key (t : Thread) : string * string := (dev t, spec_name (test t)).
Definition pair_key (p : TestSpec * string) : string * string := (p.2, spec_name p.1).

Lemma submissions_cons tst suite (devs : dict Device) :
  submissions (tst :: suite) devs =
  map (λ k, (tst, k)) (Dict.keys devs) ++ submissions suite devs.
Proof.
  unfold submissions. simpl. f_equal.
Qed.

Lemma submissions_nil (devs : dict Device) : submissions [] devs = [].
Proof. done. Qed.

Lemma submissions_length suite (devs : dict Device) :
  length (submissions suite devs) = (length devs * length suite)%nat.
Proof.
  induction suite as [|tst suite IH].
  - simpl. lia.
  - rewrite submissions_cons, length_app, length_map, IH.
    unfold Dict.keys. rewrite length_map. simpl. lia.
Qed.

Lemma submissions_elem suite (devs : dict Device) tst k :
  (tst, k) ∈ submissions suite devs ↔ tst ∈ suite ∧ k ∈ Dict.keys devs.
Proof.
  induction suite as [|tst' suite IH].
  - rewrite submissions_nil. split; [by intros ?%elem_of_nil|].
    by intros [?%elem_of_nil _].
  - rewrite submissions_cons, elem_of_app, list_elem_of_fmap, IH, elem_of_cons.
    split.
    + intros [(k' & [= -> ->] & Hk)|[? ?]]; auto.
    + intros [[->|?] ?]; [left; eauto|right; auto].
Qed.

(** Every pair is submitted once: with distinct test names and distinct
    device keys, no two submissions have the same key. *)
Lemma submissions_NoDup suite (devs : dict Device) :
  NoDup (map spec_name suite) → NoDup (Dict.keys devs) →
  NoDup (map pair_key (submissions suite devs)).
Proof.
  intros Hs Hk. induction suite as [|tst suite IH].
  - rewrite submissions_nil. constructor.
  - simpl in Hs. apply NoDup_cons in Hs as [Hn Hs].
    rewrite submissions_cons, map_app. apply NoDup_app. split_and!.
    + rewrite map_map. simpl. by apply (NoDup_fmap_2 (λ k, (k, spec_name tst))).
    + intros [k n]. rewrite map_map. simpl.
      intros (k1 & [= -> ->] & _)%list_elem_of_fmap.
      intros ([tst2 k2] & [= -> Hn2] & Hin)%list_elem_of_fmap.
      apply submissions_elem in Hin as [Hin _].
      apply Hn. rewrite Hn2. apply list_elem_of_fmap. eauto.
    + by apply IH.
Qed.

Lemma submitted_thread_keys world suite (devs : dict Device) :
  map thread_key (threads (submitted world suite devs))
  = map pair_key (submissions suite devs).
Proof.
  unfold submitted. simpl. apply list_eq. intros i.
  rewrite !list_lookup_fmap, list_lookup_imap.
  by destruct (submissions suite devs !! i) as [[tst k]|].
Qed.

Lemma submitted_inv world suite (devs : dict Device) :
  registry_wf devs → inv devs (submitted world suite devs).
Proof.
  intros Hwf. split; simpl; try done.
  - apply Forall_lookup. intros i t. rewrite list_lookup_imap.
    destruct (submissions suite devs !! i) as [[tst k]|] eqn:E; simpl; [|done].
    intros [= <-]. simpl. split; [|done].
    apply list_elem_of_lookup_2 in E. by apply submissions_elem in E as [_ ?].
  - assert (H : ∀ (l : list (TestSpec * string)) (f : nat → TestSpec * string → Thread),
      (∀ i p, pc (f i p) = Queued) → omap returned (imap f l) = []).
    { induction l as [|p l IH]; intros f Hf; simpl; [done|].
      unfold returned at 1. rewrite Hf. apply IH. intros i q. apply Hf. }
    rewrite H; [done|]. by intros i [tst k].
Qed.

(** *** Progress: a run that is not over can go on *)

Lemma step_thread_progress t devs rs d :
  registry_wf devs → Dict.get (dev t) devs = Some d → thread_ok (platform d) t →
  is_queued t = false → is_done t = false →
  is_Some (step_thread t devs rs).
Proof.
  intros [Hnd Hid] Hd Hok Hq Hdone.
  assert (Hidd : id d = dev t) by eauto.
  unfold Orchestrator.step_thread, thread_ok, is_queued, is_done in *.
  destruct (pc t) as [|kk|kk p target lines| |i|i o|dr o|dr fin o|dr fin tmp o|r|r];
    try done; rewrite ?Hd; simpl; eauto.
  - rewrite Hidd, Hd. destruct (plat_of _); [|by eauto].
    by destruct (refresh_command _ _); eauto.
  - destruct Hok as [-> _]. destruct lines; [by eauto|].
    rewrite Hd. simpl. by destruct (status_line _ _ _); eauto.
Qed.

Lemma forallb_take {A : Type} (f : A → bool) (l : list A) i :
  (∀ j y, l !! j = Some y → (j < i)%nat → f y = true) →
  forallb f (take i l) = true.
Proof.
  revert i. induction l as [|x l IH]; intros i H; [by destruct i|].
  destruct i as [|i]; simpl; [done|].
  rewrite (H 0%nat x) by (done || lia). simpl.
  apply IH. intros j y Hj Hlt. apply (H (S j)); [done|lia].
Qed.

Lemma busy_none (l : list Thread) :
  Forall (λ t, is_running t ≠ true) l → busy l = 0%nat.
Proof.
  unfold busy. induction 1 as [|t l Ht _ IH]; simpl; [done|].
  by destruct (is_running t).
Qed.

Lemma progress devs0 mw s :
  inv devs0 s → 1 ≤ mw → ¬ finished s →
  ∃ i s', sched_step mw i s = Some s'.
Proof.
  intros I Hmw Hnf.
  destruct (list_find (λ t, is_running t = true) (threads s)) as [[i t]|] eqn:Hfind.
  - (* some execution is running: it makes its next step *)
    apply list_find_Some in Hfind as (Hi & Hrun & _).
    pose proof (proj1 (Forall_lookup _ _) (inv_threads _ _ I) i t Hi) as [Hin Hok].
    destruct (inv_get devs0 s t I Hin) as (d & Hd & Hpl).
    unfold is_running in Hrun. apply negb_true_iff, orb_false_iff in Hrun as [Hq Hdn].
    rewrite <- Hpl in Hok.
    destruct (step_thread_progress t (devices s) (results s) d (inv_wf _ _ I) Hd Hok Hq Hdn)
      as [[[c devs'] rs'] Hst].
    exists i. rewrite (sched_step_running _ _ _ _ Hi Hq), Hst. simpl. eauto.
  - (* no execution is running: the oldest queued one is picked *)
    apply list_find_None in Hfind.
    apply not_Forall_Exists in Hnf; [|intros t; apply _].
    apply Exists_exists in Hnf as (t0 & Hin0 & Hnd0). simpl in Hnd0.
    assert (Hq0 : is_queued t0 = true).
    { pose proof (proj1 (Forall_forall _ _) Hfind t0 Hin0) as Hr. simpl in Hr.
      unfold is_running in Hr. destruct (is_queued t0), (is_done t0); done. }
    destruct (list_find (λ t, is_queued t = true) (threads s)) as [[i t]|] eqn:Hq.
    + apply list_find_Some in Hq as (Hi & Hqt & Hmin).
      exists i. rewrite (sched_step_queued _ _ _ _ Hi Hqt).
      rewrite forallb_take, busy_none; [| done |].
      * replace (Z.of_nat 0 <? mw) with true by (symmetry; apply Z.ltb_lt; lia).
        simpl. eauto.
      * intros j y Hj Hlt. specialize (Hmin j y Hj Hlt).
        by destruct (is_queued y).
    + apply list_find_None in Hq.
      by pose proof (proj1 (Forall_forall _ _) Hq t0 Hin0).
Qed.

(** Every run can be carried on to its end. *)
Lemma run_completes devs0 mw s :
  inv devs0 s → 1 ≤ mw →
  ∃ sched s', run_schedule mw sched s = Some s' ∧ finished s'.
Proof.
  intros I Hmw.
  remember (total_weight s) as n eqn:Hn.
  revert s I Hn. induction (lt_wf n) as [n _ IH]. intros s I ->.
  destruct (decide (finished s)) as [Hf|Hnf].
  - exists [], s. by split.
  - destruct (progress devs0 mw s I Hmw Hnf) as (i & s1 & H1).
    destruct (sched_step_inv _ _ _ _ _ I H1) as (I1 & _ & Hw).
    destruct (IH _ Hw s1 I1 eq_refl) as (sched & s' & Hrun & Hfin).
    exists (i :: sched), s'. split; [|done]. simpl. by rewrite H1.
Qed.

(** *** The results of a run that is over *)

Lemma build_result_key e tst o drain final temp k :
  result_key (build_result e tst o drain final temp k) = (k, spec_name tst).
Proof. by destruct o as [[? ?] ?]. Qed.

Lemma finished_result_keys devs0 (l : list Thread) :
  Forall (λ t, dev t ∈ Dict.keys devs0 ∧ thread_ok (platform_of devs0 (dev t)) t) l →
  Forall (λ t, is_done t = true) l →
  map result_key (omap returned l) = map thread_key l.
Proof.
  induction 1 as [|t l [_ Hok] _ IH]; intros Hd; [done|].
  apply Forall_cons in Hd as [Hdt Hd]. simpl.
  unfold thread_ok, is_done in *. unfold returned at 1.
  destruct (pc t); try done. simpl. f_equal; [|by apply IH].
  destruct Hok as (drain & final & temp & ->). by rewrite build_result_key.
Qed.

Lemma map_thread_key_ident (l l' : list Thread) :
  map ident l = map ident l' → map thread_key l = map thread_key l'.
Proof.
  intros H. apply (f_equal (map (λ x : string * TestSpec * ExecEnv, (x.1.1, spec_name x.1.2)))) in H.
  by rewrite !map_map in H.
Qed.

(** In a run that is over, the results are those of the submitted pairs,
    each pair once. *)
Lemma finished_results world mw suite (devs : dict Device) sched s :
  registry_wf devs →
  run_schedule mw sched (submitted world suite devs) = Some s →
  finished s →
  map result_key (results s) ≡ₚ map pair_key (submissions suite devs).
Proof.
  intros Hwf Hrun Hfin.
  destruct (run_schedule_inv devs mw sched _ s (submitted_inv world suite devs Hwf) Hrun)
    as (I & Hid & _).
  rewrite (inv_results _ _ I).
  rewrite (finished_result_keys devs _ (inv_threads _ _ I) Hfin).
  by rewrite (map_thread_key_ident _ _ Hid), submitted_thread_keys.
Qed.

(** *** The number of results of a run *)

(** C1.  For a registry of N devices with distinct keys, a suite of M tests
    with distinct names and a pool of at least one worker,
    [run_parallel_tests] submits every (test, device) pair exactly once;
    every run of the submitted executions can be carried on to its end and
    none goes on for ever; at every moment the results are those of the
    executions that have returned, one each; and when the run is over there
    are exactly N×M results, no two of them with the same
    (device_id, test_name) key. *)
Theorem parallel_run_results world mw suite (devs : dict Device) :
  registry_wf devs → NoDup (map spec_name suite) → 1 ≤ mw →
  ∃ s0,
    run_parallel_tests world mw suite devs = Ok s0
    ∧ map thread_key (threads s0) = map pair_key (submissions suite devs)
    ∧ NoDup (map pair_key (submissions suite devs))
    ∧ length (submissions suite devs) = (length devs * length suite)%nat
    ∧ (∃ sched s, run_schedule mw sched s0 = Some s ∧ finished s)
    ∧ ∀ sched s, run_schedule mw sched s0 = Some s →
        (length sched ≤ total_weight s0)%nat
        ∧ results s ≡ₚ omap returned (threads s)
        ∧ (¬ finished s → ∃ i s', sched_step mw i s = Some s')
        ∧ (finished s →
             length (results s) = (length devs * length suite)%nat
             ∧ NoDup (map result_key (results s))
             ∧ map result_key (results s) ≡ₚ map pair_key (submissions suite devs)).
Proof.
  intros Hwf Hsuite Hmw.
  pose proof (submitted_inv world suite devs Hwf) as I0.
  pose proof (submissions_NoDup suite devs Hsuite (proj1 Hwf)) as Hnd.
  exists (submitted world suite devs). split_and!.
  - unfold run_parallel_tests. destruct (mw <=? 0) eqn:E; [lia|done].
  - apply submitted_thread_keys.
  - done.
  - apply submissions_length.
  - by apply (run_completes devs).
  - intros sched s Hrun.
    destruct (run_schedule_inv devs mw sched _ s I0 Hrun) as (I & Hid & Hw).
    split_and!.
    + lia.
    + apply I.
    + intros Hnf. by apply (progress devs).
    + intros Hfin.
      pose proof (finished_results world mw suite devs sched s Hwf Hrun Hfin) as Hperm.
      split_and!; [| by rewrite Hperm | done].
      apply Permutation_length in Hperm.
      rewrite !length_map in Hperm. rewrite Hperm. apply submissions_length.
Qed.

(** *** Timeouts *)

(** The test-run command of the platform [pl] ran into its timeout: on
    Android the instrumented test (the log was cleared before), on iOS the
    [xcodebuild] run. *)
Definition test_times_out (pl : string) (e : ExecEnv) : Prop :=
  if String.eqb pl "android"
  then (∃ out, logcat_clear e = Completed out) ∧ instrument e = Raised TimedOut
  else xcodebuild e = Raised TimedOut.

Lemma run_platform_test_timeout pl e :
  test_times_out pl e →
  run_platform_test pl e = (false, "Test timed out", Dict.empty).
Proof.
  unfold test_times_out, Orchestrator.run_platform_test.
  destruct (String.eqb pl "android").
  - intros [[out Hc] Hi]. unfold _run_android_test. by rewrite Hc, Hi.
  - intros Hx. unfold _run_ios_test. by rewrite Hx.
Qed.

Lemma returned_in_results devs0 s i t r :
  inv devs0 s → threads s !! i = Some t → returned t = Some r → r ∈ results s.
Proof.
  intros I Hi Hr. rewrite (inv_results _ _ I).
  apply list_elem_of_omap. exists t. split; [|done].
  by eapply list_elem_of_lookup_2.
Qed.

Lemma returned_built devs0 s i t r :
  inv devs0 s → threads s !! i = Some t → returned t = Some r →
  built (platform_of devs0 (dev t)) t r.
Proof.
  intros I Hi Hr.
  pose proof (proj1 (Forall_lookup _ _) (inv_threads _ _ I) i t Hi) as [_ Hok].
  unfold thread_ok, returned in *. destruct (pc t); try done. by injection Hr as <-.
Qed.

Lemma finished_returned s i t :
  finished s → threads s !! i = Some t → ∃ r, returned t = Some r.
Proof.
  intros Hf Hi. pose proof (proj1 (Forall_lookup _ _) Hf i t Hi) as Hd.
  unfold is_done, returned in *. destruct (pc t); try done. eauto.
Qed.

(** C2.  Take any state a run of the submitted executions can reach, and in
    it an execution whose test-run command exceeds the test's timeout.  The
    run can be carried on to its end, where the execution has returned a
    result (nothing is raised out of the pool); and whenever the execution
    has returned, its result is in the result list with [success = false],
    with the output [Test timed out], and with the metrics the runner held
    when the timeout arrived (none) extended by the three battery entries. *)
Theorem timed_out_result world mw suite (devs : dict Device) sched s i t :
  registry_wf devs → 1 ≤ mw →
  run_schedule mw sched (submitted world suite devs) = Some s →
  threads s !! i = Some t →
  test_times_out (platform_of devs (dev t)) (env t) →
  (∃ sched' s', run_schedule mw sched' s = Some s' ∧ finished s')
  ∧ (finished s → ∃ r, returned t = Some r)
  ∧ ∀ r, returned t = Some r →
      r ∈ results s
      ∧ success r = false
      ∧ output r = "Test timed out"
      ∧ ∃ drain final temp,
          metrics r = [("battery_drain", VInt drain); ("final_battery", VInt final);
                       ("temperature", VFloat temp)].
Proof.
  intros Hwf Hmw Hrun Hi Hto.
  destruct (run_schedule_inv devs mw sched _ s (submitted_inv world suite devs Hwf) Hrun)
    as (I & _ & _).
  split_and!.
  - by apply (run_completes devs).
  - intros Hf. by eapply finished_returned.
  - intros r Hr. split; [by eapply returned_in_results|].
    destruct (returned_built devs s i t r I Hi Hr) as (drain & final & temp & ->).
    rewrite (run_platform_test_timeout _ _ Hto). simpl. eauto 10.
Qed.

(** *** The battery drain of an execution *)






Lemma build_result_metrics e tst o drain final temp k :
  Dict.get "battery_drain" (metrics (build_result e tst o drain final temp k))
    = Some (VInt drain)
  ∧ Dict.get "final_battery" (metrics (build_result e tst o drain final temp k))
    = Some (VInt final).
Proof.
  destruct o as [[ok out] ms]. simpl. split.
  - rewrite !dict_get_set_ne by done. apply dict_get_set_eq.
  - rewrite dict_get_set_ne by done. apply dict_get_set_eq.
Qed.


(** In every run, whatever moves in between, the metrics of a returned
    result hold the two battery entries. *)
Lemma battery_entries_present world mw suite (devs : dict Device) sched s i t r :
  registry_wf devs →
  run_schedule mw sched (submitted world suite devs) = Some s →
  threads s !! i = Some t → returned t = Some r →
  ∃ drain final,
    Dict.get "battery_drain" (metrics r) = Some (VInt drain)
    ∧ Dict.get "final_battery" (metrics r) = Some (VInt final).
Proof.
  intros Hwf Hrun Hi Hr.
  destruct (run_schedule_inv devs mw sched _ s (submitted_inv world suite devs Hwf) Hrun)
    as (I & _ & _).
  destruct (returned_built devs s i t r I Hi Hr) as (drain & final & temp & ->).
  exists drain, final. apply build_result_metrics.
Qed.

End Scheduler.

(** *** A run on two devices *)

(** [float(value)] for plain decimal literals: an instance of the parser
    the model takes as given, for the examples. *)
Definition decimal_float (v : string) : PyResult float :=
  match split "." (strip v) with
  | [a; b] =>
      if forallb (λ c, bool_decide (is_Some (digit_of c))) (list_ascii_of_string b)
      then n ← int_of_str (a +:+ b); int_truediv n (10 ^ Z.of_nat (String.length b))
      else Raise ValueError
  | _ => Raise ValueError
  end.

(** One Android device and one iOS device answer the discovery. *)
Definition ex_adapters : Adapters :=
  {| adb_devices :=
       Completed ("List of devices attached" +:+ nl +:+
                  "emulator-5554 device product:sdk_gphone model:Pixel_7" +:+ nl);
     adb_model := λ _, Completed ("Pixel 7" +:+ nl);
     adb_release := λ _, Completed ("14" +:+ nl);
     idevice_id := Completed ("00008030-001A" +:+ nl);
     ideviceinfo := λ _,
       Completed ("DeviceName: iPhone" +:+ nl +:+ "ProductVersion: 17.0" +:+ nl) |}.

Definition ex_devs : dict Device := Eval vm_compute in discover_devices ex_adapters.

(** Every execution sees the battery at 85 before and at 83 after; the
    instrumented Android test runs into its timeout. *)
Definition ex_env : ExecEnv :=
  {| clock_start := 100;
     clock_iso := "2024-01-01T00:00:00";
     pre_status := Completed ("  level: 85" +:+ nl +:+ "  temperature: 250");
     logcat_clear := Completed EmptyString;
     instrument := Raised TimedOut;
     logcat_dump := Completed EmptyString;
     xcodebuild := Completed "** TEST SUCCEEDED **";
     post_status := Completed ("  level: 83" +:+ nl +:+ "  temperature: 265");
     clock_end := 130.5 |}.

Definition ex_submitted : State := submitted (λ _, ex_env) _load_test_suite ex_devs.

(** The first execution (on the Android device) runs to its end while the
    second (on the iOS device) moves in between. *)
Definition ex_sched : list nat :=
  Eval vm_compute in ([0; 1; 0; 1; 1; 0] ++ replicate 13 0)%nat.

Definition ex_final : State :=
  Eval vm_compute in default ex_submitted (run_schedule decimal_float 4 ex_sched ex_submitted).

Definition ex_thread : Thread :=
  Eval vm_compute in default (Build_Thread EmptyString (Build_TestSpec EmptyString 0 EmptyString) ex_env Queued)
    (threads ex_final !! 0%nat).

Definition ex_result : TestResult :=
  Eval vm_compute in complete decimal_float ex_thread
    (new_Device EmptyString EmptyString EmptyString EmptyString EmptyString).

Lemma ex_devs_wf : registry_wf ex_devs.
Proof. apply (discover_devices_wf ex_adapters). Qed.

Lemma ex_suite_NoDup : NoDup (map spec_name _load_test_suite).
Proof. apply (bool_decide_unpack _). by vm_compute. Qed.

Lemma parallel_run_results_witness :
  ∃ sched s,
    run_schedule decimal_float 4 sched ex_submitted = Some s
    ∧ finished s
    ∧ length (results s) = 10%nat.
Proof.
  destruct (parallel_run_results decimal_float (λ _, ex_env) 4 _load_test_suite ex_devs
              ex_devs_wf ex_suite_NoDup ltac:(lia))
    as (s0 & H0 & _ & _ & _ & (sched & s & Hrun & Hfin) & Hall).
  injection H0 as <-.
  exists sched, s. split_and!; [done|done|].
  by apply (Hall sched s Hrun).
Defined.

Lemma timed_out_result_witness :
  ex_result ∈ results ex_final
  ∧ success ex_result = false
  ∧ output ex_result = "Test timed out".
Proof.
  destruct (timed_out_result decimal_float (λ _, ex_env) 4 _load_test_suite ex_devs
              ex_sched ex_final 0 ex_thread ex_devs_wf ltac:(lia))
    as (_ & _ & H).
  - by vm_compute.
  - by vm_compute.
  - split; [by exists EmptyString|done].
  - destruct (H ex_result) as (Hin & Hs & Ho & _); [by vm_compute|done].
Defined.


End SchedulerProps.

(** ** The sampler *)

Module MonitorProps.
Import Py PerformanceMonitor.

Definition all_exited (s : Monitor) : Prop := Forall (λ c, c = Exited) (loops s).

(** What holds of a monitor whose caller keeps to the life cycle: only the
    thread [monitor_thread] names may still be running; outside
    [stop_monitoring], a monitor that is not monitoring has no running
    thread; inside [start_monitoring] the flag is set and no thread is
    running yet; inside [stop_monitoring] the flag is cleared. *)
Record sound (s : Monitor) : Prop := {
  sound_others : ∀ tid c, loops s !! tid = Some c → monitor_thread s ≠ Some tid → c = Exited;
  sound_idle : caller s ≠ InStop → monitoring s = false → all_exited s;
  sound_start : caller s = InStart → monitoring s = true ∧ all_exited s;
  sound_stop : caller s = InStop → monitoring s = false;
  sound_thread : ∀ tid, monitor_thread s = Some tid → is_Some (loops s !! tid)
}.

Lemma sound_new : sound new_monitor.
Proof. split; simpl; try done. intros _ _. constructor. Qed.

Lemma loop_step_running tid o s s' :
  loop_step tid o s = Some s' →
  ∃ c, loops s !! tid = Some c ∧ c ≠ Exited.
Proof.
  unfold loop_step. destruct (loops s !! tid) as [c|]; simpl; [|done].
  intros H. exists c. split; [done|]. intros ->. done.
Qed.

Lemma all_exited_no_loop tid o s : all_exited s → loop_step tid o s = None.
Proof.
  intros Hall. destruct (loop_step tid o s) as [s'|] eqn:E; [|done].
  apply loop_step_running in E as (c & Hc & Hne).
  by pose proof (proj1 (Forall_lookup _ _) Hall tid c Hc).
Qed.

(** A loop step changes the stepping thread only, and neither the flag,
    nor the thread the monitor names, nor where the caller stands. *)
Lemma loop_step_frame tid o s s' :
  loop_step tid o s = Some s' →
  monitoring s' = monitoring s ∧ monitor_thread s' = monitor_thread s
  ∧ caller s' = caller s
  ∧ ∃ c', loops s' = <[tid := c']> (loops s).
Proof.
  unfold loop_step. destruct (loops s !! tid) as [c|]; simpl; [|done].
  destruct c as [| |[m|]| |]; try destruct o; intros [= <-]; simpl; eauto 10.
Qed.

Lemma sound_step e s s' :
  sound s → step e s = Some s' →
  (e = CallStart → monitoring s = false) →
  sound s'.
Proof.
  intros [Ho Hi Hs Hp Hth] Hstep Hlife.
  destruct e; simpl in Hstep.
  - (* CallStart *)
    destruct (caller s) eqn:Hc; try done. injection Hstep as <-.
    split; simpl; try done.
    intros _. split; [done|]. apply Hi; [done|by apply Hlife].
  - (* SpawnThread *)
    destruct (caller s) eqn:Hc; try done. injection Hstep as <-.
    destruct (Hs eq_refl) as [Hm Hall].
    split; simpl; try done.
    + intros tid c Hl Hne.
      destruct (decide (tid = length (loops s))) as [->|Hlen]; [done|].
      rewrite lookup_app_l in Hl.
      * by apply (proj1 (Forall_lookup _ _) Hall tid c).
      * apply lookup_lt_Some in Hl. rewrite length_app in Hl. simpl in Hl. lia.
    + intros _ Hf. congruence.
    + intros tid [= <-]. rewrite lookup_app_r by done.
      rewrite Nat.sub_diag. by eexists.
  - (* CallStop *)
    destruct (caller s) eqn:Hc; try done. injection Hstep as <-.
    split; simpl; try done.
  - (* StopReturns *)
    destruct (caller s) eqn:Hc; try done.
    destruct (joinable s) eqn:Hj; [|done]. injection Hstep as <-.
    split; simpl; try done.
    intros _ _. apply Forall_lookup. intros tid c Hl. simpl in Hl.
    destruct (decide (monitor_thread s = Some tid)) as [Hmt|Hne]; [|by eapply Ho].
    unfold joinable in Hj. rewrite Hmt, Hl in Hj. by destruct c.
  - (* CallGet *)
    destruct (caller s) eqn:Hc; try done. injection Hstep as <-.
    split; simpl; try done.
    intros _ Hm. by apply Hi.
  - (* GetOne *)
    destruct (caller s) eqn:Hc; try done.
    destruct (metrics_queue s); [done|]. injection Hstep as <-.
    split; simpl; try done.
    intros _ Hm. by apply Hi.
  - (* GetReturns *)
    destruct (caller s) eqn:Hc; try done.
    destruct (metrics_queue s); [|done]. injection Hstep as <-.
    split; simpl; try done.
    intros _ Hm. by apply Hi.
  - (* Loop *)
    assert (Hl : loop_step tid o s = Some s') by (by destruct (caller s)).
    clear Hstep.
    destruct (loop_step_running _ _ _ _ Hl) as (c & Hc & Hne).
    destruct (loop_step_frame _ _ _ _ Hl) as (Hm & Ht & Hcl & c' & Hls).
    assert (Hmt : monitor_thread s = Some tid).
    { destruct (decide (monitor_thread s = Some tid)); [done|]. by destruct Hne; eapply Ho. }
    assert (Hrun : ¬ all_exited s).
    { intros Hall. by pose proof (proj1 (Forall_lookup _ _) Hall tid c Hc). }
    split.
    + intros tid' c1. rewrite Hls, Ht. intros Hl' Hne'.
      rewrite list_lookup_insert_ne in Hl' by congruence. by eapply Ho.
    + rewrite Hcl, Hm. intros H1 H2. destruct Hrun. by apply Hi.
    + rewrite Hcl. intros H1. destruct Hrun. by apply Hs.
    + rewrite Hcl, Hm. apply Hp.
    + intros tid'. rewrite Ht, Hls. intros Hmt'.
      apply lookup_lt_is_Some. rewrite length_insert.
      apply lookup_lt_is_Some. by apply Hth.
Qed.

Lemma run_app tr1 tr2 s :
  run (tr1 ++ tr2) s = (s1 ← run tr1 s; run tr2 s1).
Proof.
  revert s. induction tr1 as [|e tr1 IH]; intros s; simpl; [done|].
  destruct (step e s); simpl; [apply IH|done].
Qed.

Lemma lifecycle_app tr1 tr2 s s1 :
  run tr1 s = Some s1 →
  lifecycle (tr1 ++ tr2) s = lifecycle tr1 s && lifecycle tr2 s1.
Proof.
  revert s. induction tr1 as [|e tr1 IH]; intros s; simpl.
  - by intros [= ->].
  - destruct (step e s) as [s0|]; simpl; [|done].
    intros H. rewrite (IH _ H). by rewrite andb_assoc.
Qed.

Lemma sound_run tr s s' :
  sound s → run tr s = Some s' → lifecycle tr s = true → sound s'.
Proof.
  revert s. induction tr as [|e tr IH]; intros s Hs; simpl.
  - by intros [= <-].
  - destruct (step e s) as [s1|] eqn:E; simpl; [|done].
    intros Hrun [He Hl]%andb_true_iff.
    apply (IH s1); [|done|done].
    apply (sound_step e s); [done|done|].
    intros ->. by apply negb_true_iff.
Qed.

(** The state of a monitor at rest: not monitoring, no thread running, the
    caller not about to start one. *)
Definition at_rest (s : Monitor) : Prop :=
  monitoring s = false ∧ all_exited s ∧ caller s ≠ InStart.

(** From a monitor at rest, an event that is not a new start cannot be a
    loop step, leaves the monitor at rest, and takes at most samples out
    of the queue. *)
Lemma at_rest_step e s s' :
  at_rest s → step e s = Some s' → is_start e = false →
  (∀ tid o, e ≠ Loop tid o)
  ∧ at_rest s'
  ∧ ∃ taken, metrics_queue s = taken ++ metrics_queue s'.
Proof.
  intros (Hm & Hall & Hc) Hstep He.
  destruct e; simpl in Hstep; try done.
  - by destruct (caller s).
  - destruct (caller s) eqn:E; try done. injection Hstep as <-.
    split_and!; [done|by split|by exists []].
  - destruct (caller s) eqn:E; try done.
    destruct (joinable s); [|done]. injection Hstep as <-.
    split_and!; [done|by split|by exists []].
  - destruct (caller s) eqn:E; try done. injection Hstep as <-.
    split_and!; [done|by split|by exists []].
  - destruct (caller s) eqn:E; try done.
    destruct (metrics_queue s) as [|m q] eqn:Q; [done|]. injection Hstep as <-.
    split_and!; [done|by split|by exists [m]].
  - destruct (caller s) eqn:E; try done.
    destruct (metrics_queue s) as [|m q] eqn:Q; [|done]. injection Hstep as <-.
    split_and!; [done|by split|by exists []].
  - assert (Hl : loop_step tid o s = Some s') by (by destruct (caller s)).
    by rewrite (all_exited_no_loop tid o s Hall) in Hl.
Qed.

Lemma at_rest_run tr s s' :
  at_rest s → run tr s = Some s' → forallb (λ e, negb (is_start e)) tr = true →
  (∀ tid o, Loop tid o ∉ tr)
  ∧ at_rest s'
  ∧ ∃ taken, metrics_queue s = taken ++ metrics_queue s'.
Proof.
  revert s. induction tr as [|e tr IH]; intros s Hs; simpl.
  - intros [= <-] _. split_and!; [|done|by exists []].
    intros tid o. apply not_elem_of_nil.
  - destruct (step e s) as [s1|] eqn:E; simpl; [|done].
    intros Hrun [He Htr]%andb_true_iff. apply negb_true_iff in He.
    destruct (at_rest_step e s s1 Hs E He) as (Hne & Hs1 & (t1 & Ht1)).
    destruct (IH s1 Hs1 Hrun Htr) as (Hnl & Hs' & (t2 & Ht2)).
    split_and!; [|done|].
    + intros tid o [Heq|Hin]%elem_of_cons; [by eapply Hne|by eapply Hnl].
    + exists (t1 ++ t2). by rewrite Ht1, Ht2, app_assoc.
Qed.

(** C4.  Let the caller keep to the life cycle (start only a monitor that
    is not monitoring), and let [stop_monitoring] have returned.  Then, as
    long as the monitor is not started again, no loop thread makes a step
    any more, so nothing is put into the queue: every loop thread has
    ended, and the queue at any later moment is the queue at the return of
    [stop_monitoring] less what [get_metrics] has taken from its front. *)
Theorem sampler_quiet_after_stop tr1 s tr2 s' :
  run (tr1 ++ [StopReturns]) new_monitor = Some s →
  lifecycle (tr1 ++ [StopReturns]) new_monitor = true →
  run tr2 s = Some s' →
  forallb (λ e, negb (is_start e)) tr2 = true →
  (∀ tid o, Loop tid o ∉ tr2)
  ∧ all_exited s'
  ∧ ∃ taken, metrics_queue s = taken ++ metrics_queue s'.
Proof.
  intros Hrun Hlife Hrun2 Hquiet.
  assert (Hrest : at_rest s).
  { rewrite run_app in Hrun.
    destruct (run tr1 new_monitor) as [s1|] eqn:E1; simpl in Hrun; [|done].
    rewrite (lifecycle_app _ _ _ _ E1) in Hlife.
    apply andb_true_iff in Hlife as [Hl1 _].
    pose proof (sound_run tr1 _ s1 sound_new E1 Hl1) as S1.
    assert (E2 : step StopReturns s1 = Some s).
    { simpl. destruct (caller s1); try done. by destruct (joinable s1). }
    pose proof (sound_step _ _ _ S1 E2 ltac:(done)) as S2.
    simpl in E2. destruct (caller s1) eqn:Hc; try done.
    destruct (joinable s1); [|done]. injection E2 as <-.
    pose proof (sound_stop _ S1 Hc) as Hm.
    split_and!; simpl; [done| |done].
    by apply (sound_idle _ S2). }
  destruct (at_rest_run tr2 s s' Hrest Hrun2 Hquiet) as (H1 & (_ & H2 & _) & H3).
  by split_and!.
Qed.

(** *** [stop_monitoring] returns *)

Lemma step_loop tid o s : step (Loop tid o) s = loop_step tid o s.
Proof. simpl. by destruct (caller s). Qed.

(** Where a loop step leads. *)
Definition next_pc (flag : bool) (o : PyResult (option PerformanceMetrics)) (c : LoopPC)
  : LoopPC :=
  match c with
  | AtWhile => if flag then AtCollect else Exited
  | AtCollect => match o with Ok m => AtPut m | Raise _ => Exited end
  | AtPut _ => AtSleep
  | AtSleep => AtWhile
  | Exited => Exited
  end.

Lemma loop_step_next tid o s c :
  loops s !! tid = Some c → c ≠ Exited →
  ∃ s', step (Loop tid o) s = Some s'
        ∧ loops s' !! tid = Some (next_pc (monitoring s) o c)
        ∧ monitoring s' = monitoring s
        ∧ monitor_thread s' = monitor_thread s
        ∧ caller s' = caller s.
Proof.
  intros Hc Hne. rewrite step_loop. unfold loop_step. rewrite Hc. simpl.
  assert (Hlt : (tid < length (loops s))%nat) by (by eapply lookup_lt_Some).
  destruct c as [| |[m|]| |]; try done; try destruct o;
    eexists; (split; [reflexivity|]); simpl;
    by rewrite list_lookup_insert_eq.
Qed.

(** The steps a loop thread has before it once the flag is cleared, when
    [collect_metrics] returns. *)
Definition steps_left (c : LoopPC) : nat :=
  match c with
  | AtCollect => 4
  | AtPut _ => 3
  | AtSleep => 2
  | AtWhile => 1
  | Exited => 0
  end.

Lemma loop_exits tid s c :
  loops s !! tid = Some c → monitoring s = false →
  ∃ s',
    run (replicate (steps_left c) (Loop tid (Ok None))) s = Some s'
    ∧ loops s' !! tid = Some Exited
    ∧ monitor_thread s' = monitor_thread s
    ∧ caller s' = caller s.
Proof.
  intros Hc Hm.
  assert (Hstep : ∀ s c, loops s !! tid = Some c → monitoring s = false → c ≠ Exited →
            ∃ s', step (Loop tid (Ok None)) s = Some s'
                  ∧ loops s' !! tid = Some (next_pc false (Ok None) c)
                  ∧ monitoring s' = false
                  ∧ monitor_thread s' = monitor_thread s
                  ∧ caller s' = caller s).
  { intros s0 c0 H0 Hm0 Hne.
    destruct (loop_step_next tid (Ok None) s0 c0 H0 Hne) as (s1 & ? & ? & ? & ? & ?).
    exists s1. rewrite <- Hm0. split_and!; congruence. }
  destruct c as [| |m| |]; cbn [steps_left replicate run].
  - destruct (Hstep s _ Hc Hm ltac:(done)) as (s1 & -> & H1 & M1 & T1 & C1).
    exists s1. by split_and!.
  - destruct (Hstep s _ Hc Hm ltac:(done)) as (s1 & -> & H1 & M1 & T1 & C1).
    cbn [mbind option_bind].
    destruct (Hstep s1 _ H1 M1 ltac:(done)) as (s2 & -> & H2 & M2 & T2 & C2).
    cbn [mbind option_bind].
    destruct (Hstep s2 _ H2 M2 ltac:(done)) as (s3 & -> & H3 & M3 & T3 & C3).
    cbn [mbind option_bind].
    destruct (Hstep s3 _ H3 M3 ltac:(done)) as (s4 & -> & H4 & M4 & T4 & C4).
    exists s4. split_and!; [done|done|congruence|congruence].
  - destruct (Hstep s _ Hc Hm ltac:(done)) as (s1 & -> & H1 & M1 & T1 & C1).
    cbn [mbind option_bind].
    destruct (Hstep s1 _ H1 M1 ltac:(done)) as (s2 & -> & H2 & M2 & T2 & C2).
    cbn [mbind option_bind].
    destruct (Hstep s2 _ H2 M2 ltac:(done)) as (s3 & -> & H3 & M3 & T3 & C3).
    exists s3. split_and!; [done|done|congruence|congruence].
  - destruct (Hstep s _ Hc Hm ltac:(done)) as (s1 & -> & H1 & M1 & T1 & C1).
    cbn [mbind option_bind].
    destruct (Hstep s1 _ H1 M1 ltac:(done)) as (s2 & -> & H2 & M2 & T2 & C2).
    exists s2. split_and!; [done|done|congruence|congruence].
  - exists s. by split_and!.
Qed.

(** Once [stop_monitoring] has cleared the flag, the thread it waits for
    ends within four steps of its own (provided [collect_metrics]
    returns), and [stop_monitoring] returns. *)
Lemma stop_monitoring_returns s :
  sound s → caller s = InStop →
  ∃ tr s', run (tr ++ [StopReturns]) s = Some s'
           ∧ (length tr ≤ 4)%nat
           ∧ caller s' = Idle.
Proof.
  intros S Hc. pose proof (sound_stop _ S Hc) as Hm.
  destruct (monitor_thread s) as [tid|] eqn:Ht.
  - destruct (sound_thread _ S tid Ht) as [c Hl].
    destruct (loop_exits tid s c Hl Hm) as (s1 & Hrun & Hex & Ht1 & Hc1).
    exists (replicate (steps_left c) (Loop tid (Ok None))), (set_caller Idle s1).
    split_and!; [|rewrite length_replicate; destruct c; simpl; lia|done].
    rewrite run_app, Hrun. simpl. rewrite Hc1, Hc.
    unfold joinable. by rewrite Ht1, Ht, Hex.
  - exists [], (set_caller Idle s). split_and!; [|simpl; lia|done].
    simpl. rewrite Hc. unfold joinable. by rewrite Ht.
Qed.

(** A sample, and a run through one life cycle: the loop puts one sample,
    the caller stops the monitor, and reads the queue afterwards. *)
Definition ex_sample : PerformanceMetrics :=
  {| timestamp := "2024-01-01T00:00:01"; device_id := "emulator-5554";
     platform := "android"; cpu_usage := 12.5; memory_usage := 256;
     memory_available := 2048; network_rx_bytes := 0; network_tx_bytes := 0;
     battery_level := 85; battery_temperature := 25; fps := None;
     frame_drops := 0 |}.

Definition ex_cycle : list event :=
  [CallStart; SpawnThread;
   Loop 0 (Ok None); Loop 0 (Ok (Some ex_sample)); Loop 0 (Ok None);
   CallStop;
   Loop 0 (Ok None); Loop 0 (Ok None)].

Definition ex_reads : list event :=
  [CallGet; GetOne; GetReturns; CallStop; StopReturns; CallGet; GetReturns].

Lemma sampler_quiet_after_stop_witness :
  ∃ s s',
    run (ex_cycle ++ [StopReturns]) new_monitor = Some s
    ∧ run ex_reads s = Some s'
    ∧ metrics_queue s = [ex_sample]
    ∧ ∃ taken, metrics_queue s = taken ++ metrics_queue s'.
Proof.
  eexists _, _. split_and!; [by vm_compute|by vm_compute|by vm_compute|].
  eapply (sampler_quiet_after_stop ex_cycle _ ex_reads _); by vm_compute.
Defined.

(** The life cycle is needed: when [start_monitoring] is called twice in a
    row, [stop_monitoring] joins the second thread only, and the first one
    still puts a sample after [stop_monitoring] has returned. *)
Lemma double_start_late_sample :
  ∃ s s',
    run ([CallStart; SpawnThread; Loop 0 (Ok None);
          CallStart; SpawnThread;
          CallStop; Loop 1 (Ok None)] ++ [StopReturns]) new_monitor = Some s
    ∧ metrics_queue s = []
    ∧ run [Loop 0 (Ok (Some ex_sample)); Loop 0 (Ok None)] s = Some s'
    ∧ metrics_queue s' = [ex_sample].
Proof. eexists _, _. split_and!; by vm_compute. Qed.

End MonitorProps.

(** ** The analyzer *)

Module AnalyzerProps.
Import Py PerformanceMonitor.

(** Instances of the [statistics] functions, for the examples.  On [int]s
    the mean is the library's (the exact quotient, an [int] when it is
    one); on [float]s the three functions compute in binary64 throughout,
    where the library rounds once from an exact value. *)
Definition float_of_nat (n : nat) : float := PrimFloat.of_uint63 (Uint63.of_Z (Z.of_nat n)).

Definition plain_mean (xs : list float) : PyResult float :=
  match xs with
  | [] => Raise StatisticsError
  | _ => Ok (fold_left PrimFloat.add xs 0 / float_of_nat (length xs))%float
  end.

Definition plain_mean_int (ns : list Z) : PyResult num :=
  match ns with
  | [] => Raise StatisticsError
  | _ =>
      let total := sum_ints ns in
      let n := Z.of_nat (length ns) in
      if total mod n =? 0 then Ok (Int (total / n))
      else x ← int_truediv total n; Ok (Float x)
  end.

Fixpoint insert_sorted (x : float) (xs : list float) : list float :=
  match xs with
  | [] => [x]
  | y :: ys => if (x <=? y)%float then x :: xs else y :: insert_sorted x ys
  end.

Definition plain_median (xs : list float) : PyResult float :=
  let sorted := fold_right insert_sorted [] xs in
  let n := length xs in
  match xs with
  | [] => Raise StatisticsError
  | _ =>
      if Nat.even n
      then Ok ((nth (n / 2 - 1) sorted 0 + nth (n / 2) sorted 0) / 2)%float
      else Ok (nth (n / 2) sorted 0%float)
  end.

Definition plain_stdev (xs : list float) : PyResult float :=
  match xs with
  | [] | [_] => Raise StatisticsError
  | _ =>
      let m := (fold_left PrimFloat.add xs 0 / float_of_nat (length xs))%float in
      let ss := fold_left (λ acc x, acc + (x - m) * (x - m))%float xs 0%float in
      Ok (PrimFloat.sqrt (ss / float_of_nat (length xs - 1)))
  end.

Lemma plain_mean_defined xs : xs ≠ [] → ∃ x, plain_mean xs = Ok x.
Proof. destruct xs; [done|]. simpl. eauto. Qed.

Lemma plain_median_defined xs : xs ≠ [] → ∃ x, plain_median xs = Ok x.
Proof.
  destruct xs as [|x xs]; [done|]. intros _. unfold plain_median.
  destruct (Nat.even _); eauto.
Qed.

Section Analyzer.

Variable statistics_mean : list float → PyResult float.
Variable statistics_mean_int : list Z → PyResult num.
Variable statistics_median : list float → PyResult float.
Variable statistics_stdev : list float → PyResult float.

Local Abbreviation _analyze_metric :=
  (_analyze_metric statistics_mean statistics_median statistics_stdev).
Local Abbreviation device_report :=
  (device_report statistics_mean statistics_mean_int statistics_median statistics_stdev).
Local Abbreviation report_entry :=
  (report_entry statistics_mean statistics_mean_int statistics_median statistics_stdev).
Local Abbreviation generate_report :=
  (generate_report statistics_mean statistics_mean_int statistics_median statistics_stdev).

(** What the library documents: the mean and the median of data that are
    not empty are defined. *)
Hypothesis mean_defined : ∀ xs, xs ≠ [] → ∃ x, statistics_mean xs = Ok x.
Hypothesis median_defined : ∀ xs, xs ≠ [] → ∃ x, statistics_median xs = Ok x.

Lemma py_min_defined (xs : list float) : xs ≠ [] → ∃ x, py_min xs = Ok x.
Proof. destruct xs; [done|]. simpl. eauto. Qed.

Lemma py_max_defined (xs : list float) : xs ≠ [] → ∃ x, py_max xs = Ok x.
Proof. destruct xs; [done|]. simpl. eauto. Qed.

(** The statistics other than the standard deviation, as [_analyze_metric]
    reports them for [values]. *)
Definition reports (st : MetricStats) (values : list float) : Prop :=
  py_min values = Ok (stat_min st)
  ∧ py_max values = Ok (stat_max st)
  ∧ statistics_mean values = Ok (stat_avg st)
  ∧ statistics_median values = Ok (stat_median st).

Lemma _analyze_metric_nonempty metrics (field : PerformanceMetrics → float) sd :
  metrics ≠ [] →
  (if 1 <? Z.of_nat (length (map field metrics))
   then x ← statistics_stdev (map field metrics); Ok (Float x)
   else Ok (Int 0)) = Ok sd →
  ∃ st, _analyze_metric metrics field = Ok st
        ∧ stat_stdev st = sd ∧ reports st (map field metrics).
Proof using mean_defined median_defined.
  intros Hne Hsd.
  assert (Hv : map field metrics ≠ []) by (by destruct metrics).
  destruct (py_min_defined _ Hv) as [lo Hlo].
  destruct (py_max_defined _ Hv) as [hi Hhi].
  destruct (mean_defined _ Hv) as [avg Havg].
  destruct (median_defined _ Hv) as [med Hmed].
  unfold PerformanceMonitor._analyze_metric.
  rewrite Hlo, Hhi, Havg, Hmed. simpl. rewrite Hsd. simpl.
  eexists. split; [done|]. by split.
Qed.

Lemma foldl_report_raise (l : dict (list PerformanceMetrics)) e :
  foldl (λ acc item, devices ← acc; report_entry devices item) (Raise e) l = Raise e.
Proof. induction l as [|x l IH]; simpl; [done|apply IH]. Qed.

Lemma foldl_report_cons (l : dict (list PerformanceMetrics)) acc item :
  foldl (λ acc item, devices ← acc; report_entry devices item) (Ok acc) (item :: l)
  = foldl (λ acc item, devices ← acc; report_entry devices item) (report_entry acc item) l.
Proof. done. Qed.

Lemma report_entry_empty devices id :
  report_entry devices (id, []) = Ok devices.
Proof. done. Qed.

Lemma report_entry_nonempty devices id first rest devices' :
  report_entry devices (id, first :: rest) = Ok devices' →
  ∃ r, device_report first (List.last (first :: rest) first) (first :: rest) = Ok r
       ∧ devices' = Dict.set id r devices.
Proof.
  unfold PerformanceMonitor.report_entry.
  intros (r & Hr & [= <-])%bind_Ok. eauto.
Qed.

Lemma report_entry_keys devices item devices' k :
  report_entry devices item = Ok devices' → k ≠ item.1 →
  Dict.get k devices' = Dict.get k devices.
Proof.
  destruct item as [id [|first rest]]; simpl.
  - by intros [= <-].
  - intros (r & _ & ->)%report_entry_nonempty Hne. by apply dict_get_set_ne.
Qed.

Lemma foldl_report_other (l : dict (list PerformanceMetrics)) acc rep k :
  foldl (λ acc item, devices ← acc; report_entry devices item) (Ok acc) l = Ok rep →
  k ∉ Dict.keys l → Dict.get k rep = Dict.get k acc.
Proof.
  revert acc. induction l as [|item l IH]; intros acc; simpl.
  - by intros [= <-].
  - intros H Hk. apply not_elem_of_cons in Hk as [Hk1 Hk2].
    destruct (report_entry acc item) as [acc'|e] eqn:E.
    + rewrite (IH acc' H Hk2). by eapply report_entry_keys.
    + by rewrite foldl_report_raise in H.
Qed.

(** The entry of a device whose series is not empty is the report of that
    series. *)
Lemma generate_report_entry (history : dict (list PerformanceMetrics)) rep id first rest :
  NoDup (Dict.keys history) →
  Dict.get id history = Some (first :: rest) →
  generate_report history = Ok rep →
  ∃ r, Dict.get id rep = Some r
       ∧ device_report first (List.last (first :: rest) first) (first :: rest) = Ok r.
Proof.
  unfold PerformanceMonitor.generate_report. generalize (@Dict.empty DeviceReport).
  induction history as [|[k ms] l IH]; intros acc Hnd Hget Hrep; [done|].
  apply NoDup_cons in Hnd as [Hk Hnd]. simpl in Hget.
  rewrite foldl_report_cons in Hrep.
  destruct (report_entry acc (k, ms)) as [acc'|e] eqn:E;
    [|by rewrite foldl_report_raise in Hrep].
  destruct (String.eqb id k) eqn:Eq.
  - apply String.eqb_eq in Eq. subst k. injection Hget as ->.
    apply report_entry_nonempty in E as (r & Hr & ->).
    exists r. split; [|done].
    rewrite (foldl_report_other l _ rep id Hrep Hk). apply dict_get_set_eq.
  - by apply (IH acc').
Qed.

(** A device whose series is empty has no entry. *)
Lemma generate_report_skips (history : dict (list PerformanceMetrics)) rep id :
  NoDup (Dict.keys history) →
  Dict.get id history = Some [] →
  generate_report history = Ok rep →
  Dict.get id rep = None.
Proof.
  unfold PerformanceMonitor.generate_report.
  assert (Hgen : ∀ acc : dict DeviceReport, Dict.get id acc = None →
    NoDup (Dict.keys history) → Dict.get id history = Some [] →
    foldl (λ acc item, devices ← acc; report_entry devices item) (Ok acc) history = Ok rep →
    Dict.get id rep = None); [|by apply Hgen].
  induction history as [|[k ms] l IH]; intros acc Hacc Hnd Hget Hrep;
    [by injection Hrep as <-|].
  apply NoDup_cons in Hnd as [Hk Hnd]. simpl in Hget.
  rewrite foldl_report_cons in Hrep.
  destruct (report_entry acc (k, ms)) as [acc'|e] eqn:E;
    [|by rewrite foldl_report_raise in Hrep].
  destruct (String.eqb id k) eqn:Eq.
  - apply String.eqb_eq in Eq. subst k. injection Hget as ->.
    rewrite report_entry_empty in E. injection E as <-.
    by rewrite (foldl_report_other l _ rep id Hrep Hk).
  - apply (IH acc'); try done.
    apply String.eqb_neq in Eq.
    by rewrite (report_entry_keys acc (k, ms) acc' id E).
Qed.

(** C6 (amended).  For a series of at least two samples, the standard
    deviation [_analyze_metric] reports is the one [statistics.stdev] gives
    for the values; for a series of one sample it is 0 and the library is
    not asked; in both cases the minimum, the maximum, the mean and the
    median are reported.  A series of no sample is not analysed: on its own
    [_analyze_metric] raises ([min] of an empty list), and
    [generate_report] passes such a device over without raising, so that
    the report has no entry, and no standard deviation, for it. *)
Theorem analyze_metric_stdev metrics (field : PerformanceMetrics → float) :
  (2 ≤ Z.of_nat (length metrics) → ∀ x,
     statistics_stdev (map field metrics) = Ok x →
     ∃ st, _analyze_metric metrics field = Ok st
           ∧ stat_stdev st = Float x ∧ reports st (map field metrics))
  ∧ (length metrics = 1%nat →
     ∃ st, _analyze_metric metrics field = Ok st
           ∧ stat_stdev st = Int 0 ∧ reports st (map field metrics))
  ∧ (metrics = [] → _analyze_metric metrics field = Raise ValueError)
  ∧ (∀ devices id, report_entry devices (id, []) = Ok devices)
  ∧ (∀ (history : dict (list PerformanceMetrics)) rep id,
       NoDup (Dict.keys history) → Dict.get id history = Some [] →
       generate_report history = Ok rep → Dict.get id rep = None).
Proof using mean_defined median_defined.
  split_and!.
  - intros Hlen x Hx. apply _analyze_metric_nonempty.
    + destruct metrics; [simpl in Hlen; lia|done].
    + rewrite length_map, Hx. simpl.
      destruct (1 <? Z.of_nat (length metrics)) eqn:E; [done|lia].
  - intros Hlen. apply _analyze_metric_nonempty.
    + by destruct metrics.
    + by rewrite length_map, Hlen.
  - by intros ->.
  - done.
  - apply generate_report_skips.
Qed.

Ltac invert_binds H :=
  repeat (let x := fresh "x" in
          let Hx := fresh "Hx" in
          apply bind_Ok in H as (x & Hx & H)).

(** C7.  In the report of any history (a dictionary), the battery entry of
    a device whose series is not empty has as drain rate the level of the
    first sample minus the level of the last one, divided by the number of
    samples (converted to a float); no time stamp enters. *)
Theorem battery_drain_rate (history : dict (list PerformanceMetrics)) rep id first rest :
  NoDup (Dict.keys history) →
  Dict.get id history = Some (first :: rest) →
  generate_report history = Ok rep →
  ∃ r g,
    Dict.get id rep = Some r
    ∧ float_of_int (Z.of_nat (length (first :: rest))) = Ok g
    ∧ drain_rate (rep_battery r)
      = ((battery_level first - battery_level (List.last rest first)) / g)%float
    ∧ start_level (rep_battery r) = battery_level first
    ∧ end_level (rep_battery r) = battery_level (List.last rest first)
    ∧ rep_samples r = Z.of_nat (length (first :: rest)).
Proof.
  intros Hnd Hget Hrep.
  destruct (generate_report_entry history rep id first rest Hnd Hget Hrep) as (r & Hr & Hdev).
  replace (List.last (first :: rest) first) with (List.last rest first) in Hdev
    by (by destruct rest).
  unfold PerformanceMonitor.device_report in Hdev.
  invert_binds Hdev. injection Hdev as <-. simpl.
  match goal with
  | H : num_div (Float _) _ = Ok _ |- _ =>
      unfold num_div in H; apply bind_Ok in H as (g & Hg & Hdiv)
  end.
  unfold float_truediv in Hdiv. destruct (PrimFloat.is_zero g); [done|].
  injection Hdiv as <-.
  eexists _, g. by split_and!.
Qed.

End Analyzer.

(** *** Three samples of one device *)

Definition ex_sample (t : string) (level : float) : PerformanceMetrics :=
  {| timestamp := t; device_id := "emulator-5554"; platform := "android";
     cpu_usage := 12.5; memory_usage := 256; memory_available := 2048;
     network_rx_bytes := 2048; network_tx_bytes := 1024;
     battery_level := level; battery_temperature := 25; fps := None;
     frame_drops := 0 |}.

Definition ex_series : list PerformanceMetrics :=
  [ex_sample "2024-01-01T00:00:01" 90; ex_sample "2024-01-01T00:00:02" 88;
   ex_sample "2024-01-01T00:00:09" 85].

Definition ex_history : dict (list PerformanceMetrics) :=
  add_metrics "00008030-001A" []
    (add_metrics "emulator-5554" ex_series Dict.empty).

Definition ex_report : dict DeviceReport :=
  Eval vm_compute in
    match generate_report plain_mean plain_mean_int plain_median plain_stdev ex_history with
    | Ok rep => rep
    | Raise _ => []
    end.

(** The claim that a series of no sample yields the standard deviation 0
    does not hold: such a series yields no statistics at all.  Analysed on
    its own it makes [_analyze_metric] raise, and in [generate_report] the
    device is passed over. *)
Lemma empty_series_has_no_stdev :
  _analyze_metric plain_mean plain_median plain_stdev [] cpu_usage = Raise ValueError
  ∧ Dict.get "00008030-001A" ex_history = Some []
  ∧ generate_report plain_mean plain_mean_int plain_median plain_stdev ex_history
    = Ok ex_report
  ∧ Dict.get "00008030-001A" ex_report = None.
Proof. split_and!; by vm_compute. Qed.

Lemma analyze_metric_stdev_witness :
  (∃ st, _analyze_metric plain_mean plain_median plain_stdev ex_series cpu_usage = Ok st
         ∧ stat_stdev st = Float 0)
  ∧ (∃ st, _analyze_metric plain_mean plain_median plain_stdev (take 1 ex_series) cpu_usage
           = Ok st
           ∧ stat_stdev st = Int 0).
Proof.
  destruct (analyze_metric_stdev plain_mean plain_mean_int plain_median plain_stdev
              plain_mean_defined plain_median_defined ex_series cpu_usage)
    as (H2 & _).
  destruct (analyze_metric_stdev plain_mean plain_mean_int plain_median plain_stdev
              plain_mean_defined plain_median_defined (take 1 ex_series) cpu_usage)
    as (_ & H1 & _).
  split.
  - destruct (H2 ltac:(simpl; lia) 0%float ltac:(by vm_compute)) as (st & Hst & Hsd & _).
    eauto.
  - destruct (H1 eq_refl) as (st & Hst & Hsd & _). eauto.
Defined.

Lemma battery_drain_rate_witness :
  ∃ r, Dict.get "emulator-5554" ex_report = Some r
       ∧ drain_rate (rep_battery r) = ((90 - 85) / 3)%float.
Proof.
  destruct (battery_drain_rate plain_mean plain_mean_int plain_median plain_stdev
              ex_history ex_report "emulator-5554"
              (ex_sample "2024-01-01T00:00:01" 90)
              [ex_sample "2024-01-01T00:00:02" 88; ex_sample "2024-01-01T00:00:09" 85])
    as (r & g & Hr & Hg & Hd & _).
  - apply (bool_decide_unpack _). by vm_compute.
  - by vm_compute.
  - by vm_compute.
  - exists r. split; [done|]. rewrite Hd.
    vm_compute in Hg. injection Hg as <-. done.
Defined.

End AnalyzerProps.

(** ** The reports *)

Module ReportProps.
Import Py Orchestrator.

(** *** Counting results *)

Lemma filter_length_eqb {A : Type} (f : A → bool) (P : A → Prop) `{∀ x, Decision (P x)}
    (l : list A) :
  (∀ x, f x = true ↔ P x) →
  length (List.filter f l) = length (filter P l).
Proof.
  intros Hf. induction l as [|x l IH]; [done|]. simpl.
  rewrite filter_cons. destruct (f x) eqn:E.
  - rewrite decide_True by (by apply Hf). simpl. by rewrite IH.
  - rewrite decide_False; [done|]. intros HP. apply Hf in HP. congruence.
Qed.

Lemma filter_filter_and {A : Type} (f g : A → bool) (l : list A) :
  List.filter g (List.filter f l) = List.filter (λ x, f x && g x) l.
Proof.
  induction l as [|x l IH]; [done|]. simpl.
  destruct (f x); simpl; [|done]. destruct (g x); by rewrite IH.
Qed.

Lemma filter_map_comm {A B : Type} (f : B → bool) (g : A → B) (l : list A) :
  List.filter f (map g l) = map g (List.filter (λ x, f (g x)) l).
Proof.
  induction l as [|x l IH]; [done|]. simpl.
  destruct (f (g x)); simpl; by rewrite IH.
Qed.

(** The results that share a test name, and those among them that passed,
    counted over the whole result list. *)
Definition total_of (results : list TestResult) (name : string) : Z :=
  Z.of_nat (length (filter (λ r, test_name r = name) results)).

Definition passed_of (results : list TestResult) (name : string) : Z :=
  Z.of_nat (length (filter (λ r, test_name r = name ∧ success r = true) results)).

Lemma len_results_of_test results name :
  len (results_of_test results name) = total_of results name.
Proof.
  unfold len, results_of_test, total_of. f_equal.
  apply filter_length_eqb. intros r. apply String.eqb_eq.
Qed.

Lemma count_passed_results_of_test results name :
  count_passed (results_of_test results name) = passed_of results name.
Proof.
  unfold count_passed, results_of_test, passed_of. f_equal.
  rewrite filter_filter_and. apply filter_length_eqb.
  intros r. rewrite andb_true_iff. by rewrite String.eqb_eq.
Qed.

Lemma total_of_positive results name :
  name ∈ map test_name results → 1 ≤ total_of results name.
Proof.
  intros (r & Hname & Hin)%list_elem_of_fmap. unfold total_of.
  assert (r ∈ filter (λ r0, test_name r0 = name) results) as Hr
    by (by apply list_elem_of_filter).
  destruct (filter _ results); [by apply elem_of_nil in Hr|]. simpl. lia.
Qed.

Lemma passed_le_total results name :
  0 ≤ passed_of results name ≤ total_of results name.
Proof.
  unfold passed_of, total_of. split; [lia|].
  apply inj_le. induction results as [|r results IH]; [done|].
  rewrite !filter_cons.
  destruct (decide (test_name r = name ∧ success r = true)) as [[? ?]|Hn].
  - rewrite decide_True by done. simpl. lia.
  - destruct (decide (test_name r = name)); simpl; lia.
Qed.

(** *** The structure of the human-readable report *)

Lemma string_app_assoc (s1 s2 s3 : string) :
  (s1 +:+ s2) +:+ s3 = s1 +:+ (s2 +:+ s3).
Proof. induction s1 as [|c s1 IH]; [done|]. exact (f_equal (String c) IH). Qed.

Lemma app_fourth (a b c t rest : string) :
  a +:+ b +:+ c +:+ t +:+ rest = (a +:+ b +:+ c) +:+ t +:+ rest.
Proof. by rewrite !string_app_assoc. Qed.

Lemma markdown_report_structure set_order now results (devs : dict Device) text :
  generate_markdown_report set_order now results devs = Ok text →
  ∃ rows blocks before after,
    device_summary results devs = Ok rows
    ∧ mapM (test_block results) (set_order (map test_name results)) = Ok blocks
    ∧ text = before +:+ total_tests_line results +:+ after.
Proof.
  unfold generate_markdown_report.
  intros (rows & Hrows & H)%bind_Ok. apply bind_Ok in H as (blocks & Hblocks & H).
  injection H as <-. exists rows, blocks.
  eexists _, _. split_and!; [done|done|]. apply app_fourth.
Qed.

Lemma test_block_rate results name lines :
  test_block results name = Ok lines →
  ∃ rate, pass_rate_line (results_of_test results name) = Ok rate
          ∧ lines !! 1%nat = Some rate.
Proof.
  unfold test_block. intros (rate & Hrate & H)%bind_Ok.
  apply bind_Ok in H as (avg & _ & H). apply bind_Ok in H as (ms & _ & H).
  injection H as <-. eauto.
Qed.

(** *** The pass rate of a test *)

(** The pass-rate line for [passed] results out of [total]. *)
Definition rate_text (passed total : Z) : PyResult string :=
  q ← int_truediv passed total;
  Ok ("- **Pass Rate**: " +:+ str_of_int passed +:+ "/" +:+ str_of_int total
      +:+ " (" +:+ format_f 1 (q * 100)%float +:+ "%)" +:+ nl).

(** C8.  For a test name with at least one result, the pass-rate line of
    its summary block shows [passed/total], where both are counted over all
    the results with that name, followed by the quotient as a percentage
    with one decimal; the line is the second one of the block, in every
    report that is produced; and for three results of which two passed it
    reads [2/3 (66.7%)]. *)
Theorem pass_rate_rendering results name :
  name ∈ map test_name results →
  1 ≤ total_of results name
  ∧ 0 ≤ passed_of results name ≤ total_of results name
  ∧ pass_rate_line (results_of_test results name)
    = rate_text (passed_of results name) (total_of results name)
  ∧ (∀ lines, test_block results name = Ok lines →
       ∃ rate, rate_text (passed_of results name) (total_of results name) = Ok rate
               ∧ lines !! 1%nat = Some rate)
  ∧ (∀ set_order now (devs : dict Device) text,
       generate_markdown_report set_order now results devs = Ok text →
       ∃ blocks,
         mapM (test_block results) (set_order (map test_name results)) = Ok blocks
         ∧ length blocks = length (set_order (map test_name results)))
  ∧ (total_of results name = 3 → passed_of results name = 2 →
     pass_rate_line (results_of_test results name)
     = Ok ("- **Pass Rate**: 2/3 (66.7%)" +:+ nl)).
Proof.
  intros Hin.
  assert (Hline : pass_rate_line (results_of_test results name)
                  = rate_text (passed_of results name) (total_of results name)).
  { unfold pass_rate_line, rate_text.
    by rewrite count_passed_results_of_test, len_results_of_test. }
  split_and!.
  - by apply total_of_positive.
  - apply passed_le_total.
  - apply passed_le_total.
  - done.
  - intros lines Hl. rewrite <- Hline. by apply test_block_rate.
  - intros set_order now devs text Hrep.
    apply markdown_report_structure in Hrep as (rows & blocks & _ & _ & _ & Hb & _).
    exists blocks. split; [done|]. by apply mapM_Ok_length in Hb.
  - intros Ht Hp. rewrite Hline, Ht, Hp. by vm_compute.
Qed.

(** *** The two reports side by side *)

Lemma json_results_report now results (devs : dict Device) :
  json_results (generate_json_report now results devs) = map asdict_TestResult results.
Proof. done. Qed.

Lemma json_passed_asdict r : json_passed (asdict_TestResult r) = success r.
Proof. reflexivity. Qed.

Lemma json_device_results now results (devs : dict Device) device :
  List.filter (json_is_device (id device))
    (json_results (generate_json_report now results devs))
  = map asdict_TestResult (results_of_device results device).
Proof. rewrite json_results_report. apply filter_map_comm. Qed.

Lemma json_device_total_report now results (devs : dict Device) device :
  json_device_total (generate_json_report now results devs) (id device)
  = len (results_of_device results device).
Proof.
  unfold json_device_total. rewrite json_device_results.
  unfold len. by rewrite length_map.
Qed.

Lemma json_device_passed_report now results (devs : dict Device) device :
  json_device_passed (generate_json_report now results devs) (id device)
  = count_passed (results_of_device results device).
Proof.
  unfold json_device_passed. rewrite json_device_results, filter_map_comm.
  unfold len, count_passed. by rewrite length_map.
Qed.

(** The status column for a device with [passed] results out of [total]. *)
Definition status_text (passed total : Z) : PyResult string :=
  if total =? 0 then Ok "No tests"
  else q ← int_truediv passed total; Ok (format_f 0 (q * 100)%float +:+ "% pass").

Lemma device_status_counts results device :
  device_status results device
  = status_text (count_passed (results_of_device results device))
      (len (results_of_device results device)).
Proof.
  unfold device_status, status_text.
  by destruct (results_of_device results device).
Qed.

(** Two result lists for one device: one passed of two, and two passed of
    four. *)
Definition ex_phone : Device :=
  {| id := "emulator-5554"; platform := "android"; name := "Pixel 7";
     os_version := "Android 14"; ble_version := "5.0+"; status := "idle";
     battery_level := 83; temperature := 26.5 |}.

Definition ex_registry : dict Device := [("emulator-5554", ex_phone)].

Definition ex_outcome (name : string) (ok : bool) : TestResult :=
  {| device_id := "emulator-5554"; test_name := name; success := ok;
     duration := 1.5; timestamp := "2024-01-01T00:00:00";
     output := if ok then "OK (1 test)" else "FAILURES!!!";
     metrics := [("battery_drain", VInt 2); ("final_battery", VInt 83);
                 ("temperature", VFloat 26.5)] |}.

Definition ex_half : list TestResult :=
  [ex_outcome "BLEDiscoveryTest" true; ex_outcome "ConsensusTest" false].

Definition ex_half_of_four : list TestResult :=
  [ex_outcome "BLEDiscoveryTest" true; ex_outcome "ConsensusTest" false;
   ex_outcome "MeshFormationTest" true; ex_outcome "BatteryDrainTest" false].

(** The claim that the device summary shows the pass count of each device
    does not hold: it shows a percentage without decimals, which is the
    same for one pass out of two and for two out of four, while the pass
    counts of the two structured reports differ. *)
Lemma device_summary_hides_pass_count :
  device_summary ex_half ex_registry = device_summary ex_half_of_four ex_registry
  ∧ (rows ← device_summary ex_half ex_registry; Ok (map col_status rows))
    = Ok ["50% pass"]
  ∧ json_device_passed (generate_json_report "now" ex_half ex_registry)
      "emulator-5554" = 1
  ∧ json_device_passed (generate_json_report "now" ex_half_of_four ex_registry)
      "emulator-5554" = 2.
Proof. split_and!; by vm_compute. Qed.

(** C9 (amended).  The two reports of one model state the same number of
    tests; for every device the status shown in the device summary of the
    human-readable report is the pass percentage, without decimals, of the
    pass count and the result count read off the results list of the
    structured report ([No tests] when there are none); and the pass marks
    listed for the device in the detailed section are those of its entries
    in that list, one by one. *)
Theorem reports_agree now_json results (devs : dict Device) :
  let report := generate_json_report now_json results devs in
  json_total_tests report = Some (JInt (len results))
  ∧ total_tests_line results
    = "**Total Tests Run**: " +:+ str_of_int (len results) +:+ nl +:+ nl
  ∧ (∀ device,
       device_status results device
       = status_text (json_device_passed report (id device))
           (json_device_total report (id device)))
  ∧ (∀ device,
       map pass_mark (results_of_device results device)
       = map (λ entry, if json_passed entry then "✅" else "❌")
           (List.filter (json_is_device (id device)) (json_results report)))
  ∧ (∀ set_order now text,
       generate_markdown_report set_order now results devs = Ok text →
       ∃ rows before after,
         device_summary results devs = Ok rows
         ∧ text = before +:+ total_tests_line results +:+ after
         ∧ length rows = length devs
         ∧ ∀ i row, rows !! i = Some row →
             ∃ device, Dict.values devs !! i = Some device
                       ∧ status_text (json_device_passed report (id device))
                           (json_device_total report (id device))
                         = Ok (col_status row)).
Proof.
  intros report.
  assert (Hstatus : ∀ device,
            device_status results device
            = status_text (json_device_passed report (id device))
                (json_device_total report (id device))).
  { intros device. unfold report.
    rewrite json_device_passed_report, json_device_total_report.
    apply device_status_counts. }
  split_and!.
  - done.
  - done.
  - done.
  - intros device. unfold report. rewrite json_device_results, map_map.
    apply map_ext. intros r. by rewrite json_passed_asdict.
  - intros set_order now text Hrep.
    apply markdown_report_structure in Hrep as (rows & blocks & b & a & Hrows & _ & Ht).
    exists rows, b, a. split_and!; [done|done| |].
    + apply mapM_Ok_length in Hrows. rewrite Hrows. unfold Dict.values.
      by rewrite length_map.
    + intros i row Hi.
      destruct (mapM_Ok_lookup _ _ _ _ _ Hrows Hi) as (device & Hd & Hrow).
      exists device. split; [done|]. rewrite <- Hstatus.
      unfold summary_row in Hrow. apply bind_Ok in Hrow as (st & Hst & Hrow).
      injection Hrow as <-. done.
Qed.

Lemma reports_agree_witness :
  status_text
    (json_device_passed (generate_json_report "now" ex_half ex_registry) "emulator-5554")
    (json_device_total (generate_json_report "now" ex_half ex_registry) "emulator-5554")
  = Ok "50% pass".
Proof.
  destruct (reports_agree "now" ex_half ex_registry) as (_ & _ & Hs & _).
  transitivity (device_status ex_half ex_phone);
    [symmetry; apply (Hs ex_phone)|by vm_compute].
Defined.

(** *** The battery columns *)

(** C10.  In every device summary that is produced, the [Battery Start]
    and the [Battery End] column of each row are equal: both show the
    battery level the device record holds when the report is generated. *)
Theorem battery_columns_equal results (devs : dict Device) rows :
  device_summary results devs = Ok rows →
  length rows = length devs
  ∧ ∀ i row, rows !! i = Some row →
      col_battery_start row = col_battery_end row
      ∧ ∃ device, Dict.values devs !! i = Some device
                  ∧ col_battery_start row = str_of_int (battery_level device) +:+ "%"
                  ∧ col_battery_end row = str_of_int (battery_level device) +:+ "%".
Proof.
  intros Hrows. split.
  - apply mapM_Ok_length in Hrows. rewrite Hrows. unfold Dict.values.
    by rewrite length_map.
  - intros i row Hi.
    destruct (mapM_Ok_lookup _ _ _ _ _ Hrows Hi) as (device & Hd & Hrow).
    unfold summary_row in Hrow. apply bind_Ok in Hrow as (st & Hst & Hrow).
    injection Hrow as <-. simpl. split; [done|]. by exists device.
Qed.

Definition ex_rows : list SummaryRow :=
  Eval vm_compute in
    match device_summary ex_half ex_registry with
    | Ok rows => rows
    | Raise _ => []
    end.

Lemma battery_columns_equal_witness :
  ∃ row, ex_rows !! 0%nat = Some row
         ∧ col_battery_start row = "83%" ∧ col_battery_end row = "83%".
Proof.
  destruct (battery_columns_equal ex_half ex_registry ex_rows) as [_ H];
    [by vm_compute|].
  eexists. split; [by vm_compute|].
  destruct (H 0%nat _ eq_refl) as (_ & device & Hd & Hs & He).
  vm_compute in Hd. injection Hd as <-. by split.
Defined.

Definition ex_two_of_three : list TestResult :=
  [ex_outcome "ConsensusTest" true; ex_outcome "BLEDiscoveryTest" true;
   ex_outcome "ConsensusTest" false; ex_outcome "ConsensusTest" true].

Lemma pass_rate_rendering_witness :
  pass_rate_line (results_of_test ex_two_of_three "ConsensusTest")
  = Ok ("- **Pass Rate**: 2/3 (66.7%)" +:+ nl).
Proof.
  destruct (pass_rate_rendering ex_two_of_three "ConsensusTest") as (_ & _ & _ & _ & _ & H).
  - apply (bool_decide_unpack _). by vm_compute.
  - apply H; by vm_compute.
Defined.

End ReportProps.

(** ** Loops that assign entries of a dictionary *)

Module AssignProps.

Lemma fold_left_ext {A B : Type} (f g : A → B → A) (l : list B) (a : A) :
  (∀ a b, f a b = g a b) → fold_left f l a = fold_left g l a.
Proof.
  intros H. revert a. induction l as [|b l IH]; intros a; simpl; [done|].
  by rewrite H, IH.
Qed.

Section Assign.
Context {A V : Type}.

(** A loop whose rounds assign at most one entry each: [entry x] is the
    key and the value round [x] assigns, if it assigns one. *)
Variable entry : A → option (string * V).

Definition assign (d : dict V) (x : A) : dict V :=
  match entry x with
  | Some (k, v) => Dict.set k v d
  | None => d
  end.

Lemma assign_get d x k :
  Dict.get k (assign d x) =
  match Dict.get k (assign Dict.empty x) with
  | Some v => Some v
  | None => Dict.get k d
  end.
Proof.
  unfold assign. destruct (entry x) as [[k0 v0]|]; [|done].
  rewrite dict_get_set. simpl. rewrite (String.eqb_sym k k0).
  by destruct (String.eqb k0 k).
Qed.

(** The entries the loop assigns win over those present before; every
    other entry is kept. *)
Lemma fold_assign_get l d k :
  Dict.get k (fold_left assign l d) =
  match Dict.get k (fold_left assign l Dict.empty) with
  | Some v => Some v
  | None => Dict.get k d
  end.
Proof.
  revert d. induction l as [|x l IH]; intros d; [done|]. simpl.
  rewrite IH, (IH (assign Dict.empty x)), (assign_get d).
  by destruct (Dict.get k (fold_left assign l Dict.empty)).
Qed.

(** The keys present before keep their places; new keys come after. *)
Lemma fold_assign_keys l d :
  ∃ extra, Dict.keys (fold_left assign l d) = Dict.keys d ++ extra.
Proof.
  revert d. induction l as [|x l IH]; intros d; simpl.
  - exists []. by rewrite app_nil_r.
  - destruct (IH (assign d x)) as [extra ->].
    unfold assign. destruct (entry x) as [[k v]|]; [|by eauto].
    destruct (Dict.get k d) eqn:E.
    + rewrite dict_keys_set_present by done. eauto.
    + rewrite dict_keys_set_new by done. rewrite <- app_assoc. eauto.
Qed.

(** What holds of every value assigned, and of every value present
    before, holds of every value afterwards. *)
Lemma fold_assign_Forall (P : string → V → Prop) l d :
  (∀ x k v, entry x = Some (k, v) → P k v) →
  (∀ k v, Dict.get k d = Some v → P k v) →
  ∀ k v, Dict.get k (fold_left assign l d) = Some v → P k v.
Proof.
  intros Hentry. revert d. induction l as [|x l IH]; intros d Hd; [done|]. simpl.
  apply IH. intros k v. unfold assign.
  destruct (entry x) as [[k0 v0]|] eqn:E; [|by auto].
  rewrite dict_get_set. destruct (String.eqb k0 k) eqn:Ek; [|by auto].
  apply String.eqb_eq in Ek. subst k0. intros [= <-]. by eapply Hentry.
Qed.

End Assign.

End AssignProps.

(** ** Device discovery and the registry *)

Module DiscoveryProps.
Import Py Orchestrator RegistryProps AssignProps.

(** *** The two discovery loops as such loops *)

(** The record [_discover_android_devices] creates for a device. *)
Definition android_device (a : Adapters) (device_id : string) : Device :=
  let props := _get_android_properties a device_id in
  new_Device device_id "android"
    (get_default "model" "Unknown" props)
    (get_default "version" "Unknown" props)
    (get_default "ble_version" "Unknown" props).

Definition android_entry (a : Adapters) (line : string) : option (string * Device) :=
  if contains "device product:" line then
    match words line with
    | device_id :: _ => Some (device_id, android_device a device_id)
    | [] => None
    end
  else None.

(** The record [_discover_ios_devices] creates for a device. *)
Definition ios_device (a : Adapters) (device_id : string) : Device :=
  let info := _get_ios_info a device_id in
  new_Device device_id "ios"
    (get_default "DeviceName" "Unknown" info)
    ("iOS " +:+ get_default "ProductVersion" "Unknown" info)
    "5.0+".

Definition ios_entry (a : Adapters) (device_id : string) : option (string * Device) :=
  if String.eqb device_id EmptyString then None
  else Some (device_id, ios_device a device_id).

Lemma discover_android_line_assign a devs line :
  discover_android_line a devs line = assign (android_entry a) devs line.
Proof.
  unfold discover_android_line, assign, android_entry.
  destruct (contains _ line); [|done]. by destruct (words line).
Qed.

Lemma discover_ios_line_assign a devs line :
  discover_ios_line a devs line = assign (ios_entry a) devs line.
Proof.
  unfold discover_ios_line, assign, ios_entry.
  by destruct (String.eqb line EmptyString).
Qed.

(** The lines the two discovery commands gave ([[]] when the command
    raised). *)
Definition android_lines (a : Adapters) : list string :=
  match adb_devices a with
  | Completed stdout => split nl stdout
  | Raised _ => []
  end.

Definition ios_lines (a : Adapters) : list string :=
  match idevice_id a with
  | Completed stdout => split nl (strip stdout)
  | Raised _ => []
  end.

Lemma _discover_android_devices_fold a devs :
  _discover_android_devices a devs
  = fold_left (assign (android_entry a)) (android_lines a) devs.
Proof.
  unfold _discover_android_devices, android_lines.
  destruct (adb_devices a); [|done].
  apply fold_left_ext. apply discover_android_line_assign.
Qed.

Lemma _discover_ios_devices_fold a devs :
  _discover_ios_devices a devs
  = fold_left (assign (ios_entry a)) (ios_lines a) devs.
Proof.
  unfold _discover_ios_devices, ios_lines.
  destruct (idevice_id a); [|done].
  apply fold_left_ext. apply discover_ios_line_assign.
Qed.

(** *** The records of a discovery *)

(** What the property queries of an Android device leave in its record:
    when the model query raises, the release is not asked for and all three
    fields stay [Unknown]; when the release query raises, the version and
    the Bluetooth version stay [Unknown]. *)
Definition android_record (a : Adapters) (d : Device) : Prop :=
  match adb_model a (id d) with
  | Completed model =>
      name d = strip model
      ∧ match adb_release a (id d) with
        | Completed release =>
            os_version d = "Android " +:+ strip release ∧ ble_version d = "5.0+"
        | Raised _ => os_version d = "Unknown" ∧ ble_version d = "Unknown"
        end
  | Raised _ =>
      name d = "Unknown" ∧ os_version d = "Unknown" ∧ ble_version d = "Unknown"
  end.

Definition ios_record (a : Adapters) (d : Device) : Prop :=
  ble_version d = "5.0+"
  ∧ match ideviceinfo a (id d) with
    | Completed stdout =>
        let info := fold_left ios_info_line (split nl stdout) Dict.empty in
        name d = get_default "DeviceName" "Unknown" info
        ∧ os_version d = "iOS " +:+ get_default "ProductVersion" "Unknown" info
    | Raised _ => name d = "Unknown" ∧ os_version d = "iOS Unknown"
    end.

(** A record as discovery leaves it: under its own identifier, idle, with
    the battery level and the temperature of the data class. *)
Definition discovered (a : Adapters) (k : string) (d : Device) : Prop :=
  id d = k ∧ status d = "idle" ∧ battery_level d = -1 ∧ temperature d = 0%float
  ∧ ((platform d = "android" ∧ android_record a d)
     ∨ (platform d = "ios" ∧ ios_record a d)).

Lemma android_device_discovered a k : discovered a k (android_device a k).
Proof.
  unfold discovered, android_device, android_record, _get_android_properties. simpl.
  split_and!; try done. left. split; [done|].
  destruct (adb_model a k) as [model|e]; [|done].
  destruct (adb_release a k) as [release|e]; done.
Qed.

Lemma ios_device_discovered a k : discovered a k (ios_device a k).
Proof.
  unfold discovered, ios_device, ios_record, _get_ios_info. simpl.
  split_and!; try done. right. split; [done|]. split; [done|].
  by destruct (ideviceinfo a k).
Qed.

Lemma discover_devices_discovered a k d :
  Dict.get k (discover_devices a) = Some d → discovered a k d.
Proof.
  unfold discover_devices.
  rewrite _discover_ios_devices_fold, _discover_android_devices_fold.
  revert k d. apply fold_assign_Forall.
  - intros line k d. unfold ios_entry.
    destruct (String.eqb line EmptyString); [done|].
    intros [= <- <-]. apply ios_device_discovered.
  - apply fold_assign_Forall; [|done].
    intros line k d. unfold android_entry.
    destruct (contains _ line); [|done]. destruct (words line); [done|].
    intros [= <- <-]. apply android_device_discovered.
Qed.

(** X1.  Every record of a discovery is stored under its own identifier,
    is idle, and carries the battery level -1 and the temperature 0.0 until
    a refresh assigns them.  Its platform is [android] or [ios].  An
    Android record has the model and the release the two property queries
    gave; when the model query raises the release is not asked for and
    name, version and Bluetooth version are all [Unknown]; when only the
    release query raises, the version and the Bluetooth version are
    [Unknown].  An iOS record has the device name and the product version
    of the information query, [Unknown] and [iOS Unknown] when the query
    raises or does not give them. *)
Theorem discovery_records a k d :
  Dict.get k (discover_devices a) = Some d →
  id d = k ∧ status d = "idle" ∧ battery_level d = -1 ∧ temperature d = 0%float
  ∧ ((platform d = "android"
      ∧ match adb_model a k with
        | Completed model =>
            name d = strip model
            ∧ match adb_release a k with
              | Completed release =>
                  os_version d = "Android " +:+ strip release ∧ ble_version d = "5.0+"
              | Raised _ => os_version d = "Unknown" ∧ ble_version d = "Unknown"
              end
        | Raised _ =>
            name d = "Unknown" ∧ os_version d = "Unknown" ∧ ble_version d = "Unknown"
        end)
     ∨ (platform d = "ios" ∧ ble_version d = "5.0+"
        ∧ name d = get_default "DeviceName" "Unknown" (_get_ios_info a k)
        ∧ os_version d = "iOS " +:+ get_default "ProductVersion" "Unknown" (_get_ios_info a k)
        ∧ ∀ e, ideviceinfo a k = Raised e →
            name d = "Unknown" ∧ os_version d = "iOS Unknown")).
Proof.
  intros (Hid & Hst & Hb & Ht & Hrec)%discover_devices_discovered.
  split_and!; try done.
  destruct Hrec as [[Hp Ha]|[Hp [Hble Hi]]]; [left|right].
  - split; [done|]. unfold android_record in Ha. by rewrite Hid in Ha.
  - split; [done|]. split; [done|]. rewrite Hid in Hi.
    unfold _get_ios_info. destruct (ideviceinfo a k) as [stdout|e0].
    + simpl in Hi. destruct Hi as [Hn Ho]. by split_and!.
    + destruct Hi as [Hn Ho]. split_and!; try done.
Qed.

(** X2.  Discovery merges what the two platforms give and never fails as a
    whole.  The identifiers found on Android keep their places in the
    registry and the iOS ones come after them.  An Android record is kept
    as it is unless the iOS query lists the same identifier, in which case
    the iOS record replaces it.  When [adb devices] raises, the registry
    holds the iOS devices alone; when [idevice_id] raises, the Android
    devices alone. *)
Theorem discovery_merges a :
  (∃ extra, Dict.keys (discover_devices a)
            = Dict.keys (_discover_android_devices a Dict.empty) ++ extra)
  ∧ (∀ k, Dict.get k (discover_devices a) =
          match Dict.get k (_discover_ios_devices a Dict.empty) with
          | Some d => Some d
          | None => Dict.get k (_discover_android_devices a Dict.empty)
          end)
  ∧ (∀ e, adb_devices a = Raised e →
       discover_devices a = _discover_ios_devices a Dict.empty)
  ∧ (∀ e, idevice_id a = Raised e →
       discover_devices a = _discover_android_devices a Dict.empty)
  ∧ (∀ e1 e2, adb_devices a = Raised e1 → idevice_id a = Raised e2 →
       discover_devices a = Dict.empty).
Proof.
  split_and!.
  - unfold discover_devices. rewrite _discover_ios_devices_fold.
    apply fold_assign_keys.
  - intros k. unfold discover_devices.
    rewrite !_discover_ios_devices_fold. apply fold_assign_get.
  - intros e He. unfold discover_devices, _discover_android_devices. by rewrite He.
  - intros e He. unfold discover_devices, _discover_ios_devices. by rewrite He.
  - intros e1 e2 H1 H2.
    unfold discover_devices, _discover_ios_devices, _discover_android_devices.
    by rewrite H1, H2.
Qed.

(** *** A refresh and the rest of the registry *)

(** X3.  A status refresh of one device keeps the identifiers of the
    registry and their order, leaves every other device as it is, and
    keeps every device under its own identifier.  It does nothing at all
    for an identifier the registry does not hold, and nothing for a device
    whose platform is neither [android] nor [ios]. *)
Theorem update_device_status_frame out device_id (devs : dict Device) :
  Dict.keys (update_device_status out device_id devs) = Dict.keys devs
  ∧ (∀ k, k ≠ device_id →
       Dict.get k (update_device_status out device_id devs) = Dict.get k devs)
  ∧ (Dict.get device_id devs = None →
       update_device_status out device_id devs = devs)
  ∧ (∀ d, Dict.get device_id devs = Some d → plat_of (platform d) = None →
       update_device_status out device_id devs = devs)
  ∧ (registry_wf devs → registry_wf (update_device_status out device_id devs)).
Proof.
  split_and!.
  - unfold update_device_status.
    destruct (Dict.get device_id devs) as [d|] eqn:E; [|done].
    destruct (plat_of (platform d)); [|done].
    apply dict_keys_set_present. by rewrite E.
  - intros k Hne. rewrite update_device_status_get.
    destruct (String.eqb device_id k) eqn:E; [|done].
    apply String.eqb_eq in E. congruence.
  - intros E. unfold update_device_status. by rewrite E.
  - intros d E Hp. unfold update_device_status. by rewrite E, Hp.
  - intros Hwf. unfold update_device_status.
    destruct (Dict.get device_id devs) as [d|] eqn:E; [|done].
    destruct (plat_of (platform d)) as [p|]; [|done].
    apply registry_wf_set; [done|].
    pose proof (_update_status_static p out d) as Hs.
    transitivity (id d); [by injection Hs|]. by apply (proj2 Hwf).
Qed.

(** A device answers the model query, but not the release query. *)
Definition ex_adapters_partial : Adapters :=
  {| adb_devices := Completed ("emulator-5554 device product:sdk_gphone" +:+ nl);
     adb_model := λ _, Completed ("Pixel 7" +:+ nl);
     adb_release := λ _, Raised TimedOut;
     idevice_id := Raised (Failed "idevice_id: not found");
     ideviceinfo := λ _, Raised (Failed "ideviceinfo: not found") |}.

Lemma discovery_records_witness :
  ∃ d, Dict.get "emulator-5554" (discover_devices ex_adapters_partial) = Some d
       ∧ name d = "Pixel 7" ∧ os_version d = "Unknown" ∧ ble_version d = "Unknown"
       ∧ battery_level d = -1.
Proof.
  exists (new_Device "emulator-5554" "android" "Pixel 7" "Unknown" "Unknown").
  destruct (discovery_records ex_adapters_partial "emulator-5554"
              (new_Device "emulator-5554" "android" "Pixel 7" "Unknown" "Unknown"))
    as (_ & _ & Hb & _); [done|].
  by split_and!.
Defined.

End DiscoveryProps.

(** ** The worker pool and its results *)

Module PoolProps.
Import Py Orchestrator RegistryProps SchedulerProps.

Section Pool.

Variable float_of_str : string → PyResult float.

Local Abbreviation run_platform_test := (run_platform_test float_of_str).
Local Abbreviation step_thread := (step_thread float_of_str).
Local Abbreviation sched_step := (sched_step float_of_str).
Local Abbreviation run_schedule := (run_schedule float_of_str).
Local Abbreviation inv := (inv float_of_str).
Local Abbreviation built := (built float_of_str).

(** *** The worker bound and the order of starts *)

Definition running_flag (t : Thread) : nat := if is_running t then 1%nat else 0%nat.

Lemma busy_insert (l : list Thread) i t t' :
  l !! i = Some t →
  (busy (<[i := t']> l) + running_flag t = busy l + running_flag t')%nat.
Proof.
  intros Hi. unfold busy, running_flag.
  rewrite insert_take_drop by (by eapply lookup_lt_Some).
  pose proof (take_drop_middle l i t Hi) as Hl.
  rewrite <- Hl at 3.
  rewrite !List.filter_app, !length_app. simpl.
  destruct (is_running t), (is_running t'); simpl; lia.
Qed.

(** A step of a running execution leaves it running or returned. *)
Lemma step_thread_started t devs rs c devs' rs' :
  step_thread t devs rs = Some (c, devs', rs') →
  is_running t = true ∧ is_queued (with_pc t c) = false.
Proof.
  destruct t as [k0 tst e c0].
  unfold Orchestrator.step_thread, is_running, is_queued, is_done. simpl.
  destruct c0 as [|k|k p target lines| |i|i o|dr o|dr fin o|dr fin tmp o|r|r];
    simpl; try done; intros H; split; try done;
    repeat (first [ case_match
                  | match goal with
                    | H : context [mbind _ ?m] |- _ => destruct m eqn:?
                    end ];
            simplify_eq/=; try done);
    try (by destruct k).
Qed.

(** The executions that have been started are the first ones submitted. *)
Definition started_first (l : list Thread) : Prop :=
  ∀ i j ti tj, (i < j)%nat → l !! i = Some ti → l !! j = Some tj →
    is_queued ti = true → is_queued tj = true.

Definition pool_ok (mw : Z) (s : State) : Prop :=
  Z.of_nat (busy (threads s)) ≤ mw ∧ started_first (threads s).

Lemma started_first_insert (l : list Thread) i t t' :
  started_first l → l !! i = Some t → is_queued t' = false →
  (∀ j tj, (j < i)%nat → l !! j = Some tj → is_queued tj = false) →
  started_first (<[i := t']> l).
Proof.
  intros Hl Hi Hq' Hbefore i0 j ti tj Hlt Hi0 Hj Hqi.
  destruct (decide (i0 = i)) as [->|Hne0].
  - rewrite list_lookup_insert_eq in Hi0 by (by eapply lookup_lt_Some).
    injection Hi0 as <-. congruence.
  - rewrite list_lookup_insert_ne in Hi0 by done.
    destruct (decide (j = i)) as [->|Hnej].
    + rewrite (Hbefore i0 ti Hlt Hi0) in Hqi. done.
    + rewrite list_lookup_insert_ne in Hj by done. by eapply Hl.
Qed.

Lemma sched_step_pool mw i s s' :
  sched_step mw i s = Some s' → pool_ok mw s → pool_ok mw s'.
Proof.
  intros Hstep [Hb Hf].
  destruct (threads s !! i) as [t|] eqn:Hi;
    [|by unfold Orchestrator.sched_step in Hstep; rewrite Hi in Hstep].
  destruct (is_queued t) eqn:Hq.
  - rewrite (sched_step_queued _ _ _ _ _ Hi Hq) in Hstep.
    destruct (forallb _ _) eqn:Hall; simpl in Hstep; [|done].
    destruct (_ <? mw) eqn:Hlt; [|done]. injection Hstep as <-.
    apply Z.ltb_lt in Hlt. split; simpl.
    + pose proof (busy_insert (threads s) i t (with_pc t (CallRefresh KPre)) Hi) as H.
      unfold running_flag, is_running in H. rewrite Hq in H. simpl in H. lia.
    + apply started_first_insert with (t := t); [done|done|done|].
      intros j tj Hj Htj.
      assert (Hin : tj ∈ take i (threads s)) by (apply elem_of_take; eauto).
      rewrite forallb_forall in Hall. apply list_elem_of_In, Hall in Hin.
      by apply negb_true_iff in Hin.
  - rewrite (sched_step_running _ _ _ _ _ Hi Hq) in Hstep.
    destruct (step_thread t (devices s) (results s)) as [[[c devs'] rs']|] eqn:Hst;
      simpl in Hstep; [|done]. injection Hstep as <-.
    destruct (step_thread_started _ _ _ _ _ _ Hst) as [Hrun Hq'].
    split; simpl.
    + pose proof (busy_insert (threads s) i t (with_pc t c) Hi) as H.
      unfold running_flag in H. rewrite Hrun in H.
      destruct (is_running (with_pc t c)); lia.
    + apply started_first_insert with (t := t); [done|done|done|].
      intros j tj Hj Htj. destruct (is_queued tj) eqn:E; [|done].
      by rewrite (Hf j i tj t Hj Htj Hi E) in Hq.
Qed.

Lemma submitted_pool world mw suite (devs : dict Device) :
  0 ≤ mw → pool_ok mw (submitted world suite devs).
Proof.
  intros Hmw.
  assert (Hall : Forall (λ t, is_queued t = true) (threads (submitted world suite devs))).
  { apply Forall_lookup. intros i t. simpl. rewrite list_lookup_imap.
    destruct (submissions suite devs !! i) as [[tst k]|]; simpl; [|done].
    by intros [= <-]. }
  split.
  - rewrite busy_none; [lia|].
    eapply Forall_impl; [exact Hall|]. intros t Ht. unfold is_running. by rewrite Ht.
  - intros i j ti tj _ _ Hj _. by eapply (proj1 (Forall_lookup _ _) Hall).
Qed.

(** The bound of the pool: a run never has more executions in progress than the pool has
    workers, and the executions are started in the order in which they
    were submitted: whenever an execution is still queued, so is every
    execution submitted after it. *)
Lemma pool_bound world mw suite (devs : dict Device) s0 sched s :
  run_parallel_tests world mw suite devs = Ok s0 →
  run_schedule mw sched s0 = Some s →
  Z.of_nat (busy (threads s)) ≤ mw
  ∧ ∀ i j ti tj, (i < j)%nat → threads s !! i = Some ti → threads s !! j = Some tj →
      is_queued ti = true → is_queued tj = true.
Proof.
  unfold run_parallel_tests. destruct (mw <=? 0) eqn:Hmw; [done|]. intros [= <-].
  apply Z.leb_gt in Hmw.
  assert (H0 : pool_ok mw (submitted world suite devs)) by (apply submitted_pool; lia).
  revert H0. generalize (submitted world suite devs).
  induction sched as [|i sched IH]; intros s1 H1; simpl.
  - by intros [= <-].
  - destruct (sched_step mw i s1) as [s2|] eqn:E; simpl; [|done].
    apply IH. by eapply sched_step_pool.
Qed.

(** *** The result list *)

Lemma sched_step_results mw i s s' :
  sched_step mw i s = Some s' →
  results s' = results s ∨ ∃ r, results s' = results s ++ [r].
Proof.
  unfold Orchestrator.sched_step.
  destruct (threads s !! i) as [t|]; simpl; [|done].
  destruct (pc t) eqn:Hpc; simpl;
    try (destruct (_ && _); [|done]; intros [= <-]; by left);
    unfold Orchestrator.step_thread; rewrite Hpc; simpl; try done;
    intros H;
    repeat (first [ case_match
                  | match goal with
                    | H : context [mbind _ ?m] |- _ => destruct m eqn:?
                    end ];
            simplify_eq/=; try done);
    try (injection H as <-; simpl); eauto.
Qed.

(** X4.  The result list only grows, and only at its end: along every run
    the results present at any moment are still there later, unchanged and
    in the same places, and a single step appends at most one result. *)
Theorem results_append_only mw sched s s' :
  run_schedule mw sched s = Some s' →
  results s `prefix_of` results s'
  ∧ (length (results s') ≤ length (results s) + length sched)%nat.
Proof.
  revert s. induction sched as [|i sched IH]; intros s; simpl.
  - intros [= <-]. split; [done|lia].
  - destruct (sched_step mw i s) as [s1|] eqn:E; simpl; [|done].
    intros H. destruct (IH s1 H) as [Hp Hl].
    destruct (sched_step_results _ _ _ _ E) as [Hr|[r Hr]]; rewrite Hr in *.
    + split; [done|lia].
    + split.
      * etrans; [|exact Hp]. by apply prefix_app_r.
      * rewrite length_app in Hl. simpl in Hl. lia.
Qed.

(** *** The registry during a run *)

(** X5.  A run neither adds nor removes nor reorders devices, and it
    assigns no field of a device other than the battery level and the
    temperature: at every moment of every run each device is under its own
    identifier and has the platform, name, versions and status it had when
    the run began (the status stays what discovery made it). *)
Theorem registry_stable world mw suite (devs : dict Device) sched s :
  registry_wf devs →
  run_schedule mw sched (submitted world suite devs) = Some s →
  Dict.keys (devices s) = Dict.keys devs
  ∧ ∀ k d, Dict.get k (devices s) = Some d →
      ∃ d0, Dict.get k devs = Some d0
            ∧ id d = k ∧ platform d = platform d0 ∧ name d = name d0
            ∧ os_version d = os_version d0 ∧ ble_version d = ble_version d0
            ∧ status d = status d0.
Proof.
  intros Hwf Hrun.
  destruct (run_schedule_inv float_of_str devs mw sched _ s
              (submitted_inv float_of_str world suite devs Hwf) Hrun) as (I & _ & _).
  split; [apply I|].
  intros k d Hd. pose proof (inv_static _ _ _ I k) as Hs. rewrite Hd in Hs.
  destruct (Dict.get k devs) as [d0|]; [|done]. simpl in Hs.
  injection Hs as H1 H2 H3 H4 H5 H6.
  exists d0. split_and!; try done. by apply (proj2 (inv_wf _ _ _ I)).
Qed.

(** *** The verdict of an execution *)

(** The test-run command of the platform [pl] passed with output [out]: on
    Android the log was cleared, the instrumented run returned [out]
    without the marker [FAILURES!!!], and the log was read afterwards; on
    iOS [xcodebuild] returned [out] with the marker [TEST SUCCEEDED]. *)
Definition test_passes (pl : string) (e : ExecEnv) (out : string) : Prop :=
  if String.eqb pl "android"
  then (∃ c, logcat_clear e = Completed c) ∧ instrument e = Completed out
       ∧ (∃ log, logcat_dump e = Completed log) ∧ contains "FAILURES!!!" out = false
  else xcodebuild e = Completed out ∧ contains "TEST SUCCEEDED" out = true.

(** A command of the platform run raised [err], the commands before it
    having returned. *)
Definition command_raises (pl : string) (e : ExecEnv) (err : RunError) : Prop :=
  if String.eqb pl "android"
  then logcat_clear e = Raised err
       ∨ ((∃ c, logcat_clear e = Completed c) ∧ instrument e = Raised err)
       ∨ ((∃ c, logcat_clear e = Completed c) ∧ (∃ out, instrument e = Completed out)
          ∧ logcat_dump e = Raised err)
  else xcodebuild e = Raised err.

(** The output of a result whose command raised. *)
Definition error_text (err : RunError) : string :=
  match err with
  | TimedOut => "Test timed out"
  | Failed msg => msg
  end.

Lemma run_platform_test_verdict pl e :
  ((run_platform_test pl e).1.1 = true ↔ ∃ out, test_passes pl e out)
  ∧ ∀ out, test_passes pl e out → (run_platform_test pl e).1.2 = out.
Proof.
  unfold Orchestrator.run_platform_test, test_passes.
  destruct (String.eqb pl "android").
  - unfold _run_android_test.
    destruct (logcat_clear e) as [c|[|m1]]; simpl;
      [|split; [split; [done|by intros (? & [? ?] & _)]|by intros ? ([? ?] & _)]..].
    destruct (instrument e) as [out|[|m2]]; simpl;
      [|split; [split; [done|by intros (? & _ & ? & _)]|by intros ? (_ & ? & _)]..].
    destruct (logcat_dump e) as [log|[|m3]]; simpl;
      [|split; [split; [done|by intros (? & _ & _ & [? ?] & _)]
               |by intros ? (_ & _ & [? ?] & _)]..].
    split.
    + split.
      * intros H%negb_true_iff. exists out. split_and!; eauto.
      * intros (out' & _ & [= <-] & _ & ->). done.
    + by intros out' (_ & [= <-] & _).
  - unfold _run_ios_test.
    destruct (xcodebuild e) as [out|[|m]]; simpl;
      [|split; [split; [done|by intros (? & ? & _)]|by intros ? [? _]]..].
    split.
    + split; [by eauto|]. by intros (out' & [= <-] & ->).
    + by intros out' [[= <-] _].
Qed.

Lemma run_platform_test_raises pl e err :
  command_raises pl e err →
  run_platform_test pl e = (false, error_text err, Dict.empty).
Proof.
  unfold Orchestrator.run_platform_test, command_raises.
  destruct (String.eqb pl "android").
  - unfold _run_android_test.
    intros [->|[[[c ->] ->]|([c ->] & [out ->] & ->)]]; by destruct err.
  - unfold _run_ios_test. intros ->. by destruct err.
Qed.

(** X6.  In every run, whatever the interleaving, the result an execution
    returns names the execution's own device and test, carries the time
    stamp taken at its start and as duration the difference of its two
    clock readings, and is a pass exactly when the platform's test-run
    command passed: on Android when the log was cleared, the instrumented
    run returned without the marker [FAILURES!!!] (an empty output passes)
    and the log was read afterwards; on iOS when [xcodebuild] returned with
    the marker [TEST SUCCEEDED].  The output of a pass is the output of
    that command. *)
Theorem result_verdict world mw suite (devs : dict Device) sched s i t r :
  registry_wf devs →
  run_schedule mw sched (submitted world suite devs) = Some s →
  threads s !! i = Some t → returned t = Some r →
  device_id r = dev t
  ∧ test_name r = spec_name (test t)
  ∧ timestamp r = clock_iso (env t)
  ∧ duration r = (clock_end (env t) - clock_start (env t))%float
  ∧ (success r = true ↔ ∃ out, test_passes (platform_of devs (dev t)) (env t) out)
  ∧ ∀ out, test_passes (platform_of devs (dev t)) (env t) out → output r = out.
Proof.
  intros Hwf Hrun Hi Hr.
  destruct (run_schedule_inv float_of_str devs mw sched _ s
              (submitted_inv float_of_str world suite devs Hwf) Hrun) as (I & _ & _).
  destruct (returned_built float_of_str devs s i t r I Hi Hr) as (drain & final & temp & ->).
  pose proof (run_platform_test_verdict (platform_of devs (dev t)) (env t)) as [Hv Ho].
  destruct (run_platform_test (platform_of devs (dev t)) (env t)) as [[ok out] ms].
  simpl in *. by split_and!.
Qed.

(** X7.  In every run, when a command of an execution's platform run
    raises, the execution still returns a result: a failure whose output is
    [Test timed out] for a timeout and the text of the error otherwise, and
    whose metrics are the three battery entries alone.  This holds for each
    of the three Android commands: an instrumented run that passed is
    reported as failed, without its output, when reading the log afterwards
    raises. *)
Theorem failed_command_result world mw suite (devs : dict Device) sched s i t r err :
  registry_wf devs →
  run_schedule mw sched (submitted world suite devs) = Some s →
  threads s !! i = Some t → returned t = Some r →
  command_raises (platform_of devs (dev t)) (env t) err →
  r ∈ results s
  ∧ success r = false
  ∧ output r = error_text err
  ∧ ∃ drain final temp,
      metrics r = [("battery_drain", VInt drain); ("final_battery", VInt final);
                   ("temperature", VFloat temp)].
Proof.
  intros Hwf Hrun Hi Hr Herr.
  destruct (run_schedule_inv float_of_str devs mw sched _ s
              (submitted_inv float_of_str world suite devs Hwf) Hrun) as (I & _ & _).
  split; [by eapply returned_in_results|].
  destruct (returned_built float_of_str devs s i t r I Hi Hr) as (drain & final & temp & ->).
  rewrite (run_platform_test_raises _ _ _ Herr). simpl. eauto 10.
Qed.

(** *** The temperature of an iOS device *)

Lemma update_ios_line_temperature line d d' :
  update_ios_line line d = Ok d' → temperature d' = temperature d.
Proof.
  unfold update_ios_line. destruct (contains _ line); [|by intros [= <-]].
  py_destruct; try done. by intros [= <-].
Qed.

Lemma build_result_temperature e tst o drain final temp k :
  Dict.get "temperature" (metrics (build_result e tst o drain final temp k))
  = Some (VFloat temp).
Proof. destruct o as [[ok out] ms]. simpl. apply dict_get_set_eq. Qed.

(** What an execution on an iOS device holds: a refresh in progress is the
    iOS one, and a temperature read from the record is 0.0. *)
Definition cold_thread (pl : string) (t : Thread) : Prop :=
  pl = "ios" →
  match pc t with
  | InRefresh _ p _ _ => p = IOS
  | ReadId _ _ temp _ => temp = 0%float
  | Append r | Done r => Dict.get "temperature" (metrics r) = Some (VFloat 0)
  | _ => True
  end.

Definition cold (devs0 : dict Device) (s : State) : Prop :=
  (∀ k d, Dict.get k (devices s) = Some d → platform d = "ios" → temperature d = 0%float)
  ∧ Forall (λ t, cold_thread (platform_of devs0 (dev t)) t) (threads s).

Lemma sched_step_cold devs0 mw i s s' :
  inv devs0 s → cold devs0 s → sched_step mw i s = Some s' → cold devs0 s'.
Proof.
  intros I [Hdev Hths] Hstep.
  destruct (threads s !! i) as [t|] eqn:Hi;
    [|by unfold Orchestrator.sched_step in Hstep; rewrite Hi in Hstep].
  pose proof (proj1 (Forall_lookup _ _) (inv_threads _ _ _ I) i t Hi) as [Hin Hok].
  pose proof (proj1 (Forall_lookup _ _) Hths i t Hi) as Hcold.
  destruct (inv_get float_of_str devs0 s t I Hin) as (d & Hd & Hpl).
  assert (Hidd : id d = dev t) by (by apply (proj2 (inv_wf _ _ _ I))).
  destruct (is_queued t) eqn:Hq.
  - rewrite (sched_step_queued _ _ _ _ _ Hi Hq) in Hstep.
    destruct (_ && _); [|done]. injection Hstep as <-.
    split; simpl; [done|]. apply Forall_insert; [done|]. by intros _.
  - rewrite (sched_step_running _ _ _ _ _ Hi Hq) in Hstep.
    destruct (step_thread t (devices s) (results s)) as [[[c devs'] rs']|] eqn:Hst;
      simpl in Hstep; [|done]. injection Hstep as <-.
    cbv beta in Hcold. rewrite <- Hpl in Hcold.
    assert (Hgoal :
      (∀ k d', Dict.get k devs' = Some d' → platform d' = "ios" → temperature d' = 0%float)
      ∧ cold_thread (platform d) (with_pc t c)).
    { destruct t as [k tst e c0]; simpl in *.
      unfold Orchestrator.step_thread, cold_thread, thread_ok in *; simpl in *.
      destruct c0 as [|kk|kk p target lines| |i0|i0 o|dr o|dr fin o|dr fin tmp o|r|r];
        simpl in *; try done.
      - (* CallRefresh *)
        rewrite Hd in Hst. simpl in Hst. rewrite Hidd, Hd in Hst.
        destruct (plat_of (platform d)) as [p|] eqn:Hp.
        + destruct (refresh_command kk e) as [stdout|err].
          * injection Hst as <- <- <-. split; [done|]. simpl.
            intros Hios. rewrite Hios in Hp. by injection Hp as <-.
          * injection Hst as <- <- <-. split; [done|]. by destruct kk.
        + injection Hst as <- <- <-. split; [done|]. by destruct kk.
      - (* InRefresh *)
        destruct Hok as [-> _]. destruct lines as [|line rest].
        + injection Hst as <- <- <-. split; [done|]. by destruct kk.
        + rewrite Hd in Hst. simpl in Hst.
          destruct (status_line p line d) as [d1|err] eqn:Hl.
          * injection Hst as <- <- <-. split; [|done].
            intros k' d' Hk' Hios. rewrite dict_get_set in Hk'.
            destruct (String.eqb k k') eqn:Ek; [|by eauto].
            injection Hk' as <-.
            pose proof (status_line_static _ _ _ _ Hl) as Hs.
            assert (Hpd : platform d = "ios") by (injection Hs as _ <- _ _ _ _; done).
            rewrite (Hcold Hpd) in Hl. simpl in Hl.
            rewrite (update_ios_line_temperature _ _ _ Hl). by eapply Hdev.
          * injection Hst as <- <- <-. split; [done|]. by destruct kk.
      - rewrite Hd in Hst. by injection Hst as <- <- <-.
      - rewrite Hd in Hst. by injection Hst as <- <- <-.
      - rewrite Hd in Hst. by injection Hst as <- <- <-.
      - rewrite Hd in Hst. by injection Hst as <- <- <-.
      - (* ReadTemp *)
        rewrite Hd in Hst. injection Hst as <- <- <-. split; [done|]. simpl.
        intros Hios. by eapply Hdev.
      - (* ReadId *)
        rewrite Hd in Hst. injection Hst as <- <- <-. split; [done|]. simpl.
        intros Hios. rewrite build_result_temperature. by rewrite (Hcold Hios).
      - (* Append *)
        by injection Hst as <- <- <-. }
    destruct Hgoal as [Hdev' Hcold'].
    split; simpl; [done|]. apply Forall_insert; [done|]. simpl. by rewrite <- Hpl.
Qed.

Lemma run_schedule_cold devs0 mw sched s s' :
  inv devs0 s → cold devs0 s → run_schedule mw sched s = Some s' → cold devs0 s'.
Proof.
  revert s. induction sched as [|i sched IH]; intros s I Hc; simpl.
  - by intros [= <-].
  - destruct (sched_step mw i s) as [s1|] eqn:E; simpl; [|done].
    apply IH.
    + by destruct (sched_step_inv float_of_str _ _ _ _ _ I E).
    + by eapply sched_step_cold.
Qed.

(** X8.  The iOS status query reads the battery level only, so the
    temperature of an iOS device stays the 0.0 discovery gave it: in every
    run that starts from a discovered registry, whatever the commands
    answer and whatever the interleaving, the [temperature] entry of every
    result of an iOS device is 0.0. *)
Theorem ios_result_temperature a world mw suite sched s i t r :
  run_schedule mw sched (submitted world suite (discover_devices a)) = Some s →
  threads s !! i = Some t → returned t = Some r →
  platform_of (discover_devices a) (dev t) = "ios" →
  Dict.get "temperature" (metrics r) = Some (VFloat 0).
Proof.
  intros Hrun Hi Hr Hios.
  pose proof (submitted_inv float_of_str world suite _ (discover_devices_wf a)) as I0.
  assert (C0 : cold (discover_devices a) (submitted world suite (discover_devices a))).
  { split; simpl.
    - intros k d Hd _.
      by destruct (DiscoveryProps.discover_devices_discovered a k d Hd) as (_ & _ & _ & ? & _).
    - apply Forall_lookup. intros j tj. rewrite list_lookup_imap.
      destruct (submissions suite (discover_devices a) !! j) as [[tst k]|]; simpl; [|done].
      by intros [= <-] _. }
  destruct (run_schedule_cold _ _ _ _ _ I0 C0 Hrun) as [_ Hths].
  pose proof (proj1 (Forall_lookup _ _) Hths i t Hi Hios) as Hc.
  unfold returned in Hr. destruct (pc t); try done. by injection Hr as <-.
Qed.

End Pool.

(** *** The run on two devices, continued *)

Lemma pool_bound_witness : Z.of_nat (busy (threads ex_final)) ≤ 4.
Proof.
  destruct (pool_bound decimal_float (λ _, ex_env) 4 _load_test_suite ex_devs
              ex_submitted ex_sched ex_final) as [H _]; [done|done|exact H].
Defined.

Lemma results_append_only_witness :
  results ex_submitted `prefix_of` results ex_final
  ∧ (length (results ex_final) ≤ 19)%nat.
Proof.
  apply (results_append_only decimal_float 4 ex_sched ex_submitted ex_final). done.
Defined.

Lemma registry_stable_witness :
  Dict.keys (devices ex_final) = ["emulator-5554"; "00008030-001A"].
Proof.
  destruct (registry_stable decimal_float (λ _, ex_env) 4 _load_test_suite ex_devs
              ex_sched ex_final ex_devs_wf) as [H _]; [done|exact H].
Defined.

(** The second execution (on the iOS device) runs to its end once the
    first has been started. *)
Definition ex_ios_sched : list nat := Eval vm_compute in (0 :: replicate 16 1)%nat.

Definition ex_ios_final : State :=
  Eval vm_compute in
    default ex_submitted (run_schedule decimal_float 4 ex_ios_sched ex_submitted).

Definition ex_ios_thread : Thread :=
  Eval vm_compute in default ex_thread (threads ex_ios_final !! 1%nat).

Definition ex_ios_result : TestResult :=
  Eval vm_compute in
    complete decimal_float ex_ios_thread
      (new_Device EmptyString EmptyString EmptyString EmptyString EmptyString).

Lemma result_verdict_witness :
  device_id ex_ios_result = "00008030-001A"
  ∧ success ex_ios_result = true
  ∧ output ex_ios_result = "** TEST SUCCEEDED **".
Proof.
  destruct (result_verdict decimal_float (λ _, ex_env) 4 _load_test_suite ex_devs
              ex_ios_sched ex_ios_final 1 ex_ios_thread ex_ios_result ex_devs_wf)
    as (Hid & _ & _ & _ & Hok & Hout); [done|done|done|].
  assert (Hp : test_passes (platform_of ex_devs (dev ex_ios_thread)) (env ex_ios_thread)
                 "** TEST SUCCEEDED **") by (by vm_compute).
  split_and!; [exact Hid|apply Hok; eauto|by apply Hout].
Defined.

Lemma ios_result_temperature_witness :
  Dict.get "temperature" (metrics ex_ios_result) = Some (VFloat 0).
Proof.
  apply (ios_result_temperature decimal_float ex_adapters (λ _, ex_env) 4 _load_test_suite
           ex_ios_sched ex_ios_final 1 ex_ios_thread ex_ios_result); done.
Defined.

(** The instrumented test passes, but the log cannot be read afterwards. *)
Definition ex_env_offline : ExecEnv :=
  {| clock_start := 100;
     clock_iso := "2024-01-01T00:00:00";
     pre_status := Completed ("  level: 85" +:+ nl +:+ "  temperature: 250");
     logcat_clear := Completed EmptyString;
     instrument := Completed "OK (1 test)";
     logcat_dump := Raised (Failed "error: device offline");
     xcodebuild := Completed "** TEST SUCCEEDED **";
     post_status := Completed ("  level: 83" +:+ nl +:+ "  temperature: 265");
     clock_end := 130.5 |}.

Definition ex_offline_final : State :=
  Eval vm_compute in
    default ex_submitted
      (run_schedule decimal_float 4 ex_sched
         (submitted (λ _, ex_env_offline) _load_test_suite ex_devs)).

Definition ex_offline_thread : Thread :=
  Eval vm_compute in default ex_thread (threads ex_offline_final !! 0%nat).

Definition ex_offline_result : TestResult :=
  Eval vm_compute in
    complete decimal_float ex_offline_thread
      (new_Device EmptyString EmptyString EmptyString EmptyString EmptyString).

Lemma failed_command_result_witness :
  ex_offline_result ∈ results ex_offline_final
  ∧ success ex_offline_result = false
  ∧ output ex_offline_result = "error: device offline".
Proof.
  destruct (failed_command_result decimal_float (λ _, ex_env_offline) 4 _load_test_suite
              ex_devs ex_sched ex_offline_final 0 ex_offline_thread ex_offline_result
              (Failed "error: device offline") ex_devs_wf)
    as (Hin & Hs & Ho & _); [done|done|done| |by split_and!].
  right. right. split_and!; [by exists EmptyString|by exists "OK (1 test)"|done].
Defined.

End PoolProps.

(** ** The metric parsers and the report lines *)

Module ParserProps.
Import Py Orchestrator AssignProps.

(** *** Lines *)

Lemma append_cons c (s t : string) : String c s +:+ t = String c (s +:+ t).
Proof. reflexivity. Qed.

Lemma prefix_nl c (s : string) :
  String.prefix nl (String c s) = if ascii_dec "010"%char c then true else false.
Proof. unfold nl. cbn [String.prefix]. destruct (ascii_dec _ c); [|done]. by destruct s. Qed.

Lemma split_go_nl_cons acc c (s : string) :
  split_go nl 0 acc (String c s) =
  if ascii_dec "010"%char c
  then string_of_list_ascii (rev acc) :: split_go nl 0 [] s
  else split_go nl 0 (c :: acc) s.
Proof.
  change (split_go nl 0 acc (String c s))
    with (if String.prefix nl (String c s)
          then string_of_list_ascii (rev acc) :: split_go nl 0 [] s
          else split_go nl 0 (c :: acc) s).
  rewrite prefix_nl. by destruct (ascii_dec _ c).
Qed.

Lemma split_go_nl_app acc (a b : string) :
  split_go nl 0 acc (a +:+ nl +:+ b) = split_go nl 0 acc a ++ split_go nl 0 [] b.
Proof.
  revert acc. induction a as [|c a IH]; intros acc.
  - change (EmptyString +:+ nl +:+ b) with (String "010"%char b).
    by rewrite split_go_nl_cons.
  - rewrite append_cons, !split_go_nl_cons.
    destruct (ascii_dec _ c); by rewrite IH.
Qed.

(** The lines of two texts joined by a line break are the lines of the
    first followed by those of the second. *)
Lemma split_nl_app (a b : string) :
  split nl (a +:+ nl +:+ b) = split nl a ++ split nl b.
Proof. apply split_go_nl_app. Qed.

Section Parsers.

Variable float_of_str : string → PyResult float.

Local Abbreviation metric_value := (metric_value float_of_str).
Local Abbreviation android_metric_line := (android_metric_line float_of_str).
Local Abbreviation _parse_android_metrics := (_parse_android_metrics float_of_str).
Local Abbreviation ios_metric_line := (ios_metric_line float_of_str).
Local Abbreviation _parse_ios_metrics := (_parse_ios_metrics float_of_str).

(** The entry a log line assigns, if it assigns one. *)
Definition android_metric_entry (line : string) : option (string * value) :=
  if contains "METRIC:" line then
    let attempt : PyResult (option (string * value)) :=
      field ← index (split "METRIC:" line) 1;
      match split "=" (strip field) with
      | [k; v] => x ← metric_value (strip v); Ok (Some (strip k, x))
      | _ => Ok None
      end in
    match attempt with
    | Ok r => r
    | Raise _ => None
    end
  else None.

Definition ios_metric_entry (line : string) : option (string * value) :=
  if contains "measured" (lower line) then
    let attempt : PyResult (option (string * value)) :=
      if contains "average:" line then
        match split "average:" line with
        | _ :: after :: _ =>
            v ← index (words after) 0;
            x ← float_of_str v;
            Ok (Some ("average", VFloat x))
        | _ => Ok None
        end
      else Ok None in
    match attempt with
    | Ok r => r
    | Raise _ => None
    end
  else None.

Lemma android_metric_line_assign metrics line :
  android_metric_line metrics line = assign android_metric_entry metrics line.
Proof.
  unfold Orchestrator.android_metric_line, assign, android_metric_entry.
  destruct (contains _ line); [|done].
  destruct (index _ 1) as [field|e]; simpl; [|done].
  destruct (split "=" (strip field)) as [|k [|v [|? ?]]]; try done.
  by destruct (metric_value (strip v)).
Qed.

Lemma ios_metric_line_assign metrics line :
  ios_metric_line metrics line = assign ios_metric_entry metrics line.
Proof.
  unfold Orchestrator.ios_metric_line, assign, ios_metric_entry.
  destruct (contains _ (lower line)); [|done].
  destruct (contains _ line); [|done].
  destruct (split "average:" line) as [|? [|after ?]]; try done.
  destruct (index _ 0) as [v|e]; simpl; [|done].
  by destruct (float_of_str v).
Qed.

(** X9.  Both metric parsers read their text line by line, and a later
    line wins over an earlier one: the metrics of two texts joined by a
    line break are those of the second text, together with those of the
    first under every key the second does not assign; and the keys of the
    first keep their places.  A line that cannot be read changes
    nothing. *)
Theorem metric_parsers_merge (a b : string) :
  (∀ k, Dict.get k (_parse_android_metrics (a +:+ nl +:+ b)) =
        match Dict.get k (_parse_android_metrics b) with
        | Some v => Some v
        | None => Dict.get k (_parse_android_metrics a)
        end)
  ∧ (∃ extra, Dict.keys (_parse_android_metrics (a +:+ nl +:+ b))
              = Dict.keys (_parse_android_metrics a) ++ extra)
  ∧ (∀ k, Dict.get k (_parse_ios_metrics (a +:+ nl +:+ b)) =
          match Dict.get k (_parse_ios_metrics b) with
          | Some v => Some v
          | None => Dict.get k (_parse_ios_metrics a)
          end).
Proof.
  unfold Orchestrator._parse_android_metrics, Orchestrator._parse_ios_metrics.
  rewrite split_nl_app, !fold_left_app.
  rewrite !(fold_left_ext android_metric_line _ _ _ android_metric_line_assign).
  rewrite !(fold_left_ext ios_metric_line _ _ _ ios_metric_line_assign).
  split_and!.
  - intros k. apply fold_assign_get.
  - apply fold_assign_keys.
  - intros k. apply fold_assign_get.
Qed.

(** X10.  Whatever the output of the test run, the metrics read from an iOS
    run are empty or hold the single key [average] with a [float]: no
    other key is ever set, and no value of another type. *)
Theorem ios_metrics_shape (out : string) :
  _parse_ios_metrics out = Dict.empty
  ∨ ∃ x, _parse_ios_metrics out = [("average", VFloat x)].
Proof.
  unfold Orchestrator._parse_ios_metrics.
  assert (H : ∀ lines (m : dict value),
            (m = Dict.empty ∨ ∃ x, m = [("average", VFloat x)]) →
            fold_left ios_metric_line lines m = Dict.empty
            ∨ ∃ x, fold_left ios_metric_line lines m = [("average", VFloat x)]);
    [|apply H; by left].
  induction lines as [|line lines IH]; intros m Hm; [done|]. simpl.
  apply IH. rewrite ios_metric_line_assign. unfold assign, ios_metric_entry.
  destruct (contains _ (lower line)); [|done].
  destruct (contains _ line); [|done].
  destruct (split "average:" line) as [|? [|after ?]]; try done.
  destruct (index _ 0) as [v|e]; simpl; [|done].
  destruct (float_of_str v) as [x|e]; simpl; [|done].
  right. exists x. by destruct Hm as [->|[y ->]].
Qed.

End Parsers.

(** *** The quoted error lines *)


End ParserProps.

(** ** Metrics of mixed types in the test summary *)

Module MetricSummaryProps.
Import Py Orchestrator.

Lemma mapM_raise {A B : Type} (f : A → PyResult B) (l : list A) x e :
  x ∈ l → f x = Raise e → ∃ e', mapM f l = Raise e'.
Proof.
  intros Hin Hx. induction l as [|a l IH]; [by apply elem_of_nil in Hin|]. simpl.
  destruct (f a) as [b|e0] eqn:Ea; simpl; [|by eauto].
  apply elem_of_cons in Hin as [->|Hin]; [congruence|].
  destruct (IH Hin) as [e' ->]. simpl. eauto.
Qed.

Lemma foldl_sum_raise (vs : list value) e :
  foldl (λ acc v, a ← acc; value_add a v) (Raise e) vs = Raise e.
Proof. induction vs as [|v vs IH]; simpl; [done|apply IH]. Qed.

(** A sum over values among which there is a string raises. *)
Lemma sum_with_str_raises (vs : list value) acc s :
  VStr s ∈ vs →
  ∃ e, foldl (λ acc v, a ← acc; value_add a v) (Ok acc) vs = Raise e.
Proof.
  revert acc. induction vs as [|v vs IH]; intros acc Hin;
    [by apply elem_of_nil in Hin|]. simpl.
  apply elem_of_cons in Hin as [<-|Hin].
  - exists TypeError. replace (value_add acc (VStr s)) with (@Raise value TypeError)
      by (by destruct acc). apply foldl_sum_raise.
  - destruct (value_add acc v) as [acc'|e] eqn:E.
    + by apply IH.
    + exists e. apply foldl_sum_raise.
Qed.

(** When the numbers are all [int]s, the exception is the [TypeError] of
    adding a string to an [int]. *)
Lemma sum_ints_with_str (vs : list value) n s :
  Forall (λ v, ∀ x, v ≠ VFloat x) vs → VStr s ∈ vs →
  foldl (λ acc v, a ← acc; value_add a v) (Ok (VInt n)) vs = Raise TypeError.
Proof.
  revert n. induction vs as [|v vs IH]; intros n Hnf Hin;
    [by apply elem_of_nil in Hin|]. simpl.
  apply Forall_cons in Hnf as [Hv Hnf].
  destruct v as [m|x|s'].
  - simpl. apply IH; [done|]. by apply elem_of_cons in Hin as [?|?].
  - by destruct (Hv x).
  - simpl. apply foldl_sum_raise.
Qed.

(** X12.  The metric summary of a test adds up the values of a key over the
    results of the test whenever the value in the first result is a
    number.  When another result of the test holds a string under that key
    (the log parser stores what it cannot read as a number as a string),
    the sum raises: the line of the metric cannot be produced, and with it
    the whole human-readable report.  When the numbers under the key are
    all [int]s the exception of the line is [TypeError]. *)
Theorem mixed_metric_breaks_report set_order now results (devs : dict Device)
    name first rest key v r s :
  name ∈ set_order (map test_name results) →
  results_of_test results name = first :: rest →
  Dict.get key (metrics first) = Some v → is_number v = true →
  r ∈ rest → Dict.get key (metrics r) = Some (VStr s) →
  (∃ e, metric_line (first :: rest) key = Raise e)
  ∧ (∃ e, test_block results name = Raise e)
  ∧ (∃ e, generate_markdown_report set_order now results devs = Raise e)
  ∧ ((∀ r' x, r' ∈ first :: rest → Dict.get key (metrics r') ≠ Some (VFloat x)) →
     metric_line (first :: rest) key = Raise TypeError).
Proof.
  intros Hname Hres Hfirst Hnum Hr Hstr.
  assert (Hvalues : omap (λ r0, Dict.get key (metrics r0)) (first :: rest)
                    = v :: omap (λ r0, Dict.get key (metrics r0)) rest)
    by (simpl; by rewrite Hfirst).
  assert (Hin : VStr s ∈ v :: omap (λ r0, Dict.get key (metrics r0)) rest).
  { apply list_elem_of_further, list_elem_of_omap. eauto. }
  assert (Hline : ∃ e, metric_line (first :: rest) key = Raise e).
  { unfold metric_line. rewrite Hvalues, Hnum.
    destruct (sum_with_str_raises _ (VInt 0) s Hin) as [e He].
    exists e. unfold sum_values. by rewrite He. }
  assert (Hblock : ∃ e, test_block results name = Raise e).
  { unfold test_block. rewrite Hres.
    destruct (pass_rate_line _) as [rate|e]; simpl; [|by eauto].
    destruct (average_duration_line _) as [avg|e]; simpl; [|by eauto].
    destruct (metrics first) as [|kv ms] eqn:Hm; [done|].
    destruct Hline as [e He].
    destruct (mapM_raise (metric_line (first :: rest)) (Dict.keys (kv :: ms)) key e)
      as [e' ->]; [|done|by simpl; eauto].
    by eapply dict_get_Some_keys. }
  split_and!; [done|done| |].
  - unfold generate_markdown_report.
    destruct (device_summary results devs) as [rows|e]; simpl; [|by eauto].
    destruct Hblock as [e He].
    destruct (mapM_raise (test_block results) _ name e Hname He) as [e' ->].
    simpl. eauto.
  - intros Hnf. unfold metric_line. rewrite Hvalues, Hnum.
    unfold sum_values. rewrite sum_ints_with_str with (s := s); [done| |done].
    rewrite <- Hvalues. apply Forall_forall. intros v' Hv' x ->.
    apply list_elem_of_omap in Hv' as (r' & Hr' & Hget). by eapply Hnf.
Qed.

(** Two results of one test: on the first device the log gave the latency
    as a number, on the second as a text. *)
Definition ex_latency (dev : string) (v : value) : TestResult :=
  {| device_id := dev; test_name := "BLEDiscoveryTest"; success := true;
     duration := 1.5; timestamp := "2024-01-01T00:00:00"; output := "OK (1 test)";
     metrics := [("latency", v)] |}.

Definition ex_mixed : list TestResult :=
  [ex_latency "emulator-5554" (VInt 12); ex_latency "emulator-5556" (VStr "n/a")].

Lemma mixed_metric_breaks_report_witness :
  generate_markdown_report remove_dups "2024-01-01 00:00:00" ex_mixed Dict.empty
  = Raise TypeError.
Proof.
  destruct (mixed_metric_breaks_report remove_dups "2024-01-01 00:00:00" ex_mixed Dict.empty
              "BLEDiscoveryTest" (ex_latency "emulator-5554" (VInt 12))
              [ex_latency "emulator-5556" (VStr "n/a")]
              "latency" (VInt 12) (ex_latency "emulator-5556" (VStr "n/a")) "n/a")
    as (_ & _ & [e He] & _).
  - apply (bool_decide_unpack _). by vm_compute.
  - done.
  - done.
  - done.
  - apply list_elem_of_here.
  - done.
  - rewrite He. revert He. by vm_compute.
Defined.

End MetricSummaryProps.

(** ** The queue of a sampler *)

Module QueueProps.
Import Py PerformanceMonitor MonitorProps.

(** The sample an event puts into the queue, and the list a
    [get_metrics] call returns when the event is its return. *)
Definition step_put (e : event) (s : Monitor) : list PerformanceMetrics :=
  match e with
  | Loop tid _ =>
      match loops s !! tid with
      | Some (AtPut (Some m)) => [m]
      | _ => []
      end
  | _ => []
  end.

Definition step_return (e : event) (s : Monitor) : list (list PerformanceMetrics) :=
  match e, caller s with
  | GetReturns, InGet acc => [acc]
  | _, _ => []
  end.

(** The samples a run puts, in the order in which they are put, and the
    lists its [get_metrics] calls return, in the order of the calls. *)
Fixpoint puts (tr : list event) (s : Monitor) : list PerformanceMetrics :=
  match tr with
  | [] => []
  | e :: rest =>
      match step e s with
      | Some s' => step_put e s ++ puts rest s'
      | None => []
      end
  end.

Fixpoint returns (tr : list event) (s : Monitor) : list (list PerformanceMetrics) :=
  match tr with
  | [] => []
  | e :: rest =>
      match step e s with
      | Some s' => step_return e s ++ returns rest s'
      | None => []
      end
  end.

(** What a [get_metrics] call in progress has taken so far. *)
Definition pending (s : Monitor) : list PerformanceMetrics :=
  match caller s with
  | InGet acc => acc
  | _ => []
  end.

Lemma step_conserves e s s' :
  step e s = Some s' →
  pending s ++ metrics_queue s ++ step_put e s
  = concat (step_return e s) ++ pending s' ++ metrics_queue s'.
Proof.
  unfold pending, step_return. destruct e; simpl.
  - destruct (caller s); try done. intros [= <-]. simpl. by rewrite app_nil_r.
  - destruct (caller s); try done. intros [= <-]. simpl. by rewrite app_nil_r.
  - destruct (caller s); try done. intros [= <-]. simpl. by rewrite app_nil_r.
  - destruct (caller s) eqn:Hc; try done.
    destruct (joinable s); [|done]. intros [= <-]. simpl. by rewrite app_nil_r.
  - destruct (caller s); try done. intros [= <-]. simpl. by rewrite app_nil_r.
  - destruct (caller s) as [| | |acc]; try done.
    destruct (metrics_queue s) as [|m q]; [done|]. intros [= <-]. simpl.
    by rewrite app_nil_r, <- app_assoc.
  - destruct (caller s) as [| | |acc]; try done.
    destruct (metrics_queue s) as [|m q] eqn:Q; [|done]. intros [= <-]. simpl.
    by rewrite Q, !app_nil_r.
  - intros Hl.
    assert (Hl' : loop_step tid o s = Some s') by (by destruct (caller s)).
    clear Hl. unfold loop_step in Hl'.
    destruct (loops s !! tid) as [c|]; simpl in Hl'; [|done].
    replace (match caller s with
             | Idle => [] | InStart => [] | InStop => [] | InGet _ => []
             end) with (@nil (list PerformanceMetrics)) by (by destruct (caller s)).
    destruct c as [| |[m|]| |]; try destruct o; simplify_eq/=;
      rewrite ?app_nil_r; done.
Qed.

Lemma run_conserves tr s s' :
  run tr s = Some s' →
  pending s ++ metrics_queue s ++ puts tr s
  = concat (returns tr s) ++ pending s' ++ metrics_queue s'.
Proof.
  revert s. induction tr as [|e tr IH]; intros s; simpl.
  - intros [= <-]. by rewrite app_nil_r.
  - destruct (step e s) as [s1|] eqn:E; simpl; [|done].
    intros Hrun. rewrite concat_app, <- app_assoc, <- (IH s1 Hrun).
    rewrite !app_assoc. f_equal. rewrite <- !app_assoc.
    by apply step_conserves.
Qed.

(** X13.  The queue of a sampler loses no sample, returns none twice and
    keeps their order, whatever the loop threads and the caller do and
    however their steps interleave: at every moment of a run, the samples
    put so far are, in the order in which they were put, those the
    [get_metrics] calls have returned (call after call), then those a call
    in progress has already taken, then those still in the queue.  In
    particular, at the return of a [get_metrics] call everything put so
    far has been returned. *)
Theorem queue_conservation tr s' :
  run tr new_monitor = Some s' →
  puts tr new_monitor = concat (returns tr new_monitor) ++ pending s' ++ metrics_queue s'
  ∧ (∀ tr0, tr = tr0 ++ [GetReturns] →
       puts tr new_monitor = concat (returns tr new_monitor)).
Proof.
  intros Hrun. pose proof (run_conserves tr new_monitor s' Hrun) as H. simpl in H.
  split; [done|].
  intros tr0 ->. rewrite H.
  rewrite run_app in Hrun.
  destruct (run tr0 new_monitor) as [s1|]; simpl in Hrun; [|done].
  destruct (caller s1) as [| | |acc] eqn:Hc; simpl in Hrun; rewrite ?Hc in Hrun; try done.
  destruct (metrics_queue s1) eqn:Q; [|done]. injection Hrun as <-.
  unfold pending. simpl. by rewrite Q, !app_nil_r.
Qed.

(** A run through one life cycle with two samples, read in two calls. *)
Definition ex_second : PerformanceMetrics :=
  {| timestamp := "2024-01-01T00:00:02"; device_id := "emulator-5554";
     platform := "android"; cpu_usage := 14; memory_usage := 256;
     memory_available := 2048; network_rx_bytes := 512; network_tx_bytes := 128;
     battery_level := 85; battery_temperature := 25; fps := None;
     frame_drops := 0 |}.

Definition ex_two_reads : list event :=
  [CallStart; SpawnThread;
   Loop 0 (Ok None); Loop 0 (Ok (Some ex_sample)); Loop 0 (Ok None);
   CallGet; Loop 0 (Ok None); GetOne;
   Loop 0 (Ok None); Loop 0 (Ok (Some ex_second)); Loop 0 (Ok None);
   GetOne; GetReturns].

Lemma queue_conservation_witness :
  returns ex_two_reads new_monitor = [[ex_sample; ex_second]]
  ∧ puts ex_two_reads new_monitor = concat (returns ex_two_reads new_monitor).
Proof.
  split; [by vm_compute|].
  destruct (queue_conservation ex_two_reads (set_caller Idle
              {| metrics_queue := []; monitoring := true; monitor_thread := Some 0%nat;
                 loops := [AtSleep]; caller := Idle |})) as [_ H]; [by vm_compute|].
  by apply (H (removelast ex_two_reads)).
Defined.

(** *** The end of a sampling cycle *)

(** X14.  [stop_monitoring] always comes back, for a caller that keeps to
    the life cycle: once it has cleared the flag, the thread it waits for
    needs at most four more steps of its own to leave the loop (the round
    in progress is finished, provided [collect_metrics] returns), after
    which the join is over; no other thread is waited for.  When no thread
    was ever started the call returns at once.  At its return the monitor
    is not monitoring and no loop thread is left. *)
Theorem stop_monitoring_terminates tr s :
  run tr new_monitor = Some s → lifecycle tr new_monitor = true →
  caller s = InStop →
  ∃ tr' s',
    run (tr' ++ [StopReturns]) s = Some s'
    ∧ (length tr' ≤ 4)%nat
    ∧ (monitor_thread s = None → tr' = [])
    ∧ (∀ e, e ∈ tr' → ∃ tid, monitor_thread s = Some tid ∧ e = Loop tid (Ok None))
    ∧ caller s' = Idle ∧ monitoring s' = false ∧ all_exited s'.
Proof.
  intros Hrun Hlife Hc.
  pose proof (sound_run tr _ s sound_new Hrun Hlife) as S.
  pose proof (sound_stop _ S Hc) as Hm.
  assert (Hstop : ∀ s1, caller s1 = InStop → joinable s1 = true →
            step StopReturns s1 = Some (set_caller Idle s1)).
  { intros s1 H1 H2. simpl. by rewrite H1, H2. }
  assert (Hend : ∀ tr' s1, run tr' s = Some s1 →
            lifecycle tr' s = true →
            caller s1 = InStop → joinable s1 = true → monitoring s1 = false →
            run (tr' ++ [StopReturns]) s = Some (set_caller Idle s1)
            ∧ all_exited (set_caller Idle s1)).
  { intros tr' s1 H1 Hl1 Hc1 Hj1 Hm1. split.
    - rewrite run_app, H1. simpl. by rewrite Hc1, Hj1.
    - assert (S1 : sound s1) by (by eapply sound_run).
      pose proof (sound_step StopReturns s1 _ S1 (Hstop s1 Hc1 Hj1) ltac:(done)) as S2.
      by apply (sound_idle _ S2). }
  destruct (monitor_thread s) as [tid|] eqn:Ht.
  - destruct (sound_thread _ S tid Ht) as [c Hl].
    destruct (loop_exits tid s c Hl Hm) as (s1 & Hrun1 & Hex & Ht1 & Hc1).
    assert (Hm1 : monitoring s1 = false).
    { clear -Hrun1 Hm. revert s Hrun1 Hm.
      induction (steps_left c) as [|n IH]; intros s Hrun1 Hm; cbn [replicate run] in Hrun1.
      - by injection Hrun1 as <-.
      - rewrite step_loop in Hrun1.
        destruct (loop_step tid (Ok None) s) as [s0|] eqn:E; simpl in Hrun1; [|done].
        apply (IH s0 Hrun1).
        destruct (loop_step_frame _ _ _ _ E) as (-> & _). done. }
    assert (Hlife1 : lifecycle (replicate (steps_left c) (Loop tid (Ok None))) s = true).
    { clear. revert s.
      induction (steps_left c) as [|n IH]; intros s; cbn [replicate lifecycle andb]; [done|].
      rewrite step_loop. by destruct (loop_step tid (Ok None) s). }
    destruct (Hend _ s1 Hrun1 Hlife1) as [Hr He]; [congruence| |done|].
    { unfold joinable. by rewrite Ht1, Ht, Hex. }
    exists (replicate (steps_left c) (Loop tid (Ok None))), (set_caller Idle s1).
    split_and!; try done.
    + rewrite length_replicate. destruct c; simpl; lia.
    + intros e [-> _]%elem_of_replicate. eauto.
  - destruct (Hend [] s eq_refl eq_refl Hc) as [Hr He]; [|done|].
    { unfold joinable. by rewrite Ht. }
    exists [], (set_caller Idle s). split_and!; try done.
    + simpl. lia.
    + by intros e ?%elem_of_nil.
Qed.

Lemma stop_monitoring_terminates_witness :
  ∃ tr' s',
    run (tr' ++ [StopReturns])
      {| metrics_queue := [ex_sample]; monitoring := false; monitor_thread := Some 0%nat;
         loops := [AtWhile]; caller := InStop |} = Some s'
    ∧ (length tr' ≤ 4)%nat
    ∧ caller s' = Idle.
Proof.
  destruct (stop_monitoring_terminates
              [CallStart; SpawnThread;
               Loop 0 (Ok None); Loop 0 (Ok (Some ex_sample)); Loop 0 (Ok None);
               Loop 0 (Ok None); CallStop]
              {| metrics_queue := [ex_sample]; monitoring := false;
                 monitor_thread := Some 0%nat; loops := [AtWhile]; caller := InStop |})
    as (tr' & s' & H1 & H2 & _ & _ & H3 & _); [by vm_compute|by vm_compute|done|].
  by exists tr', s'.
Defined.

End QueueProps.

(** ** The history of the analyzer and its report *)

Module HistoryProps.
Import Py PerformanceMonitor AnalyzerProps.

(** *** Adding samples *)

Lemma dict_set_set {V : Type} (d : dict V) k v v' :
  Dict.set k v (Dict.set k v' d) = Dict.set k v d.
Proof.
  induction d as [|[k0 v0] d IH]; simpl.
  - by rewrite String.eqb_refl.
  - destruct (String.eqb k k0) eqn:E; simpl.
    + by rewrite String.eqb_refl.
    + by rewrite E, IH.
Qed.

Lemma add_metrics_present device_id metrics history old :
  Dict.get device_id history = Some old →
  add_metrics device_id metrics history = Dict.set device_id (old ++ metrics) history.
Proof. intros H. unfold add_metrics, Dict.mem. by rewrite H, H. Qed.

Lemma add_metrics_new device_id metrics history :
  Dict.get device_id history = None →
  add_metrics device_id metrics history = Dict.set device_id metrics history.
Proof.
  intros H. unfold add_metrics, Dict.mem. rewrite H, dict_get_set_eq. simpl.
  apply dict_set_set.
Qed.

(** X15.  [add_metrics] appends the new samples to the series of the device
    and creates the series when the device has none (also when no sample
    is added); it touches no other series; a device met for the first time
    comes last, the others keep their places; and adding two batches one
    after the other is adding their concatenation. *)
Theorem add_metrics_extends device_id metrics (history : dict (list PerformanceMetrics)) :
  Dict.get device_id (add_metrics device_id metrics history)
  = Some (default [] (Dict.get device_id history) ++ metrics)
  ∧ (∀ k, k ≠ device_id →
       Dict.get k (add_metrics device_id metrics history) = Dict.get k history)
  ∧ Dict.keys (add_metrics device_id metrics history)
    = (if Dict.mem device_id history then Dict.keys history
       else Dict.keys history ++ [device_id])
  ∧ (∀ more, add_metrics device_id more (add_metrics device_id metrics history)
             = add_metrics device_id (metrics ++ more) history)
  ∧ (NoDup (Dict.keys history) →
     NoDup (Dict.keys (add_metrics device_id metrics history))).
Proof.
  destruct (Dict.get device_id history) as [old|] eqn:E.
  - rewrite (add_metrics_present _ _ _ _ E). split_and!.
    + apply dict_get_set_eq.
    + intros k Hk. by apply dict_get_set_ne.
    + unfold Dict.mem. rewrite E. apply dict_keys_set_present. by rewrite E.
    + intros more.
      rewrite (add_metrics_present _ more _ (old ++ metrics)) by apply dict_get_set_eq.
      rewrite (add_metrics_present _ (metrics ++ more) _ _ E).
      by rewrite dict_set_set, app_assoc.
    + apply dict_keys_set_NoDup.
  - rewrite (add_metrics_new _ _ _ E). split_and!.
    + apply dict_get_set_eq.
    + intros k Hk. by apply dict_get_set_ne.
    + unfold Dict.mem. rewrite E. by apply dict_keys_set_new.
    + intros more.
      rewrite (add_metrics_present _ more _ metrics) by apply dict_get_set_eq.
      rewrite (add_metrics_new _ (metrics ++ more) _ E).
      by rewrite dict_set_set.
    + apply dict_keys_set_NoDup.
Qed.

(** *** The devices of a report *)

(** The results of the steps of a computation that returned. *)
Ltac split_binds H :=
  repeat (let x := fresh "x" in
          let Hx := fresh "Hx" in
          apply bind_Ok in H as (x & Hx & H)).

Section Report.

Variable statistics_mean : list float → PyResult float.
Variable statistics_mean_int : list Z → PyResult num.
Variable statistics_median : list float → PyResult float.
Variable statistics_stdev : list float → PyResult float.

Local Abbreviation _analyze_graphics := (_analyze_graphics statistics_mean).
Local Abbreviation device_report :=
  (device_report statistics_mean statistics_mean_int statistics_median statistics_stdev).
Local Abbreviation report_entry :=
  (report_entry statistics_mean statistics_mean_int statistics_median statistics_stdev).
Local Abbreviation generate_report :=
  (generate_report statistics_mean statistics_mean_int statistics_median statistics_stdev).

(** The devices with at least one sample. *)
Definition sampled (history : dict (list PerformanceMetrics)) : list string :=
  Dict.keys (List.filter (λ kv, match kv.2 with [] => false | _ => true end) history).

Lemma foldl_report_keys (l : dict (list PerformanceMetrics)) acc rep :
  NoDup (Dict.keys l) → (∀ k, k ∈ Dict.keys l → Dict.get k acc = None) →
  foldl (λ acc item, devices ← acc; report_entry devices item) (Ok acc) l = Ok rep →
  Dict.keys rep = Dict.keys acc ++ sampled l.
Proof.
  revert acc. induction l as [|[k ms] l IH]; intros acc Hnd Hfresh.
  - intros [= <-]. unfold sampled. simpl. by rewrite app_nil_r.
  - apply NoDup_cons in Hnd as [Hk Hnd].
    destruct ms as [|first rest].
    + intros Hrep. unfold sampled. simpl. apply IH; [done| |done].
      intros k' Hk'. apply Hfresh. by apply list_elem_of_further.
    + rewrite foldl_report_cons.
      destruct (report_entry acc (k, first :: rest)) as [acc'|e] eqn:E;
        [|by rewrite foldl_report_raise].
      apply report_entry_nonempty in E as (r & _ & ->).
      intros Hrep. apply IH in Hrep; [|done|].
      * rewrite Hrep, dict_keys_set_new by (apply Hfresh, list_elem_of_here).
        unfold sampled. simpl. by rewrite <- app_assoc.
      * intros k' Hk'. rewrite dict_get_set_ne by (by intros ->).
        apply Hfresh. by apply list_elem_of_further.
Qed.

(** X16.  A report that is produced has an entry for exactly the devices of
    the history with at least one sample, in the order of the history.
    The entry of a device gives as platform that of its first sample and
    as duration in seconds the number of its samples (no time stamp is
    read); its network totals are the sums of the deltas of the samples
    divided by 1024, and its graphics part is what [_analyze_graphics]
    gives for the series. *)
Theorem report_devices (history : dict (list PerformanceMetrics)) rep :
  NoDup (Dict.keys history) →
  generate_report history = Ok rep →
  Dict.keys rep = sampled history
  ∧ ∀ id r, Dict.get id rep = Some r →
      ∃ first rest,
        Dict.get id history = Some (first :: rest)
        ∧ rep_platform r = platform first
        ∧ rep_samples r = Z.of_nat (length (first :: rest))
        ∧ rep_duration_seconds r = rep_samples r
        ∧ int_truediv (sum_ints (map network_rx_bytes (first :: rest))) 1024
          = Ok (rx_total_kb (rep_network r))
        ∧ int_truediv (sum_ints (map network_tx_bytes (first :: rest))) 1024
          = Ok (tx_total_kb (rep_network r))
        ∧ _analyze_graphics (first :: rest) = Ok (rep_graphics r).
Proof.
  intros Hnd Hrep.
  assert (Hkeys : Dict.keys rep = sampled history).
  { by apply (foldl_report_keys history Dict.empty rep). }
  split; [done|].
  intros id r Hr.
  assert (Hin : id ∈ sampled history) by (rewrite <- Hkeys; by eapply dict_get_Some_keys).
  unfold sampled, Dict.keys in Hin.
  apply list_elem_of_fmap in Hin as ([k ms] & -> & Hin).
  apply list_elem_of_In, List.filter_In in Hin as [Hin Hne]. simpl in *.
  destruct ms as [|first rest]; [done|].
  assert (Hget : Dict.get k history = Some (first :: rest))
    by (by apply dict_get_lookup; [|apply list_elem_of_In]).
  destruct (generate_report_entry _ _ _ _ history rep k first rest Hnd Hget Hrep)
    as (r' & Hr' & Hdev).
  rewrite Hr in Hr'. injection Hr' as <-.
  exists first, rest. split; [done|].
  unfold PerformanceMonitor.device_report in Hdev.
  split_binds Hdev. injection Hdev as <-. simpl. by split_and!.
Qed.

(** X17.  The frame drops of a series are reported only when some sample of
    the series has a frame rate: for a series in which no sample has one,
    the report gives 0 as the total of the frame drops and as the drop
    rate, whatever the drops the samples recorded, and no exception is
    raised.  Otherwise the total is the sum of the drops of all samples and
    the rate is that total divided by the number of all samples, those
    without a frame rate included. *)
Theorem graphics_without_fps (metrics : list PerformanceMetrics) :
  (Forall (λ m, fps m = None) metrics →
   _analyze_graphics metrics
   = Ok {| avg_fps := None; min_fps := None; total_frame_drops := 0; drop_rate := Int 0 |})
  ∧ (∀ g, _analyze_graphics metrics = Ok g → ¬ Forall (λ m, fps m = None) metrics →
       total_frame_drops g = sum_ints (map frame_drops metrics)
       ∧ ∃ rate, int_truediv (sum_ints (map frame_drops metrics))
                   (Z.of_nat (length metrics)) = Ok rate
                 ∧ drop_rate g = Float rate
                 ∧ py_min (omap fps metrics) = Ok (default 0%float (min_fps g))).
Proof.
  assert (Hnone : Forall (λ m, fps m = None) metrics ↔ omap fps metrics = []).
  { induction metrics as [|m ms IH]; simpl; [done|].
    rewrite Forall_cons. destruct (fps m); [|by rewrite <- IH; intuition].
    split; [by intros [? _]|done]. }
  split.
  - intros H%Hnone. unfold PerformanceMonitor._analyze_graphics. by rewrite H.
  - intros g Hg Hsome. rewrite Hnone in Hsome.
    unfold PerformanceMonitor._analyze_graphics in Hg.
    destruct (omap fps metrics) as [|x xs] eqn:E; [done|].
    split_binds Hg. injection Hg as <-. simpl. split; [done|]. eauto.
Qed.

End Report.

Lemma report_devices_witness :
  Dict.keys ex_report = ["emulator-5554"].
Proof.
  destruct (report_devices plain_mean plain_mean_int plain_median plain_stdev
              ex_history ex_report) as [H _].
  - apply (bool_decide_unpack _). by vm_compute.
  - by vm_compute.
  - exact H.
Defined.

End HistoryProps.

(** ** The monitors of the two platforms *)

Module AndroidMonitorProps.
Import Py PerformanceMonitor AndroidMonitor.

Lemma sum_ints_shift (ns : list Z) a : fold_left Z.add ns a = a + sum_ints ns.
Proof.
  unfold sum_ints. revert a. induction ns as [|n ns IH]; intros a; simpl; [lia|].
  rewrite (IH (a + n)), (IH (0 + n)). lia.
Qed.

Lemma sum_ints_cons n (ns : list Z) : sum_ints (n :: ns) = n + sum_ints ns.
Proof. unfold sum_ints at 1. simpl. apply sum_ints_shift. Qed.

(** *** The network counters *)

(** The counters a line of [/proc/net/dev] gives, when it can be read:
    ten tokens or more, the second and the tenth being integers. *)
Definition reading (output : string) : option (Z * Z) :=
  if (10 <=? length (words output))%nat then
    match counters_of output with
    | Ok c => Some c
    | Raise _ => None
    end
  else None.

(** The deltas a monitor returns for successive outputs of the counter
    query, and its attribute [last_network_stats] at the end. *)
Fixpoint network_run (last : option (Z * Z)) (outputs : list string)
  : list (Z * Z) * option (Z * Z) :=
  match outputs with
  | [] => ([], last)
  | output :: rest =>
      let '(delta, last') := _parse_network_stats last output in
      let '(deltas, final) := network_run last' rest in
      (delta :: deltas, final)
  end.

Lemma _parse_network_stats_reading last output :
  _parse_network_stats last output =
  match reading output with
  | Some (rx, tx) =>
      (match last with
       | Some (last_rx, last_tx) => (rx - last_rx, tx - last_tx)
       | None => (0, 0)
       end, Some (rx, tx))
  | None => ((0, 0), last)
  end.
Proof.
  unfold _parse_network_stats, reading.
  destruct (10 <=? _)%nat; [|done].
  destruct (counters_of output) as [[rx tx]|e]; [|done].
  by destruct last as [[? ?]|].
Qed.

Lemma network_run_spec held (outputs : list string) deltas final :
  network_run held outputs = (deltas, final) →
  final = match last (omap reading outputs) with
          | Some c => Some c
          | None => held
          end
  ∧ match final, (match held with Some c => Some c | None => head (omap reading outputs) end) with
    | Some (rx, tx), Some (rx0, tx0) =>
        sum_ints (map fst deltas) = rx - rx0 ∧ sum_ints (map snd deltas) = tx - tx0
    | _, _ =>
        sum_ints (map fst deltas) = 0 ∧ sum_ints (map snd deltas) = 0
    end.
Proof.
  revert held deltas final.
  induction outputs as [|output rest IH]; intros last0 deltas final.
  - intros [= <- <-]. split; [done|].
    destruct last0 as [[rx tx]|]; simpl; [|done]. unfold sum_ints. simpl. lia.
  - cbn [network_run]. rewrite _parse_network_stats_reading.
    destruct (reading output) as [[rx tx]|] eqn:E.
    + destruct (network_run (Some (rx, tx)) rest) as [ds f] eqn:R. intros [= <- <-].
      destruct (IH _ _ _ R) as [Hf Hs].
      replace (omap reading (output :: rest)) with ((rx, tx) :: omap reading rest)
        by (simpl; by rewrite E).
      rewrite last_cons. split.
      * rewrite Hf. by destruct (last (omap reading rest)).
      * destruct f as [[rx' tx']|]; [|by destruct (last (omap reading rest))].
        cbn [map fst snd]. rewrite !sum_ints_cons.
        destruct last0 as [[last_rx last_tx]|]; simpl in *; lia.
    + destruct (network_run last0 rest) as [ds f] eqn:R. intros [= <- <-].
      destruct (IH _ _ _ R) as [Hf Hs].
      replace (omap reading (output :: rest)) with (omap reading rest)
        by (simpl; by rewrite E).
      split; [done|].
      cbn [map fst snd]. rewrite !sum_ints_cons.
      destruct f as [[rx' tx']|];
        [destruct (match last0 with Some c => Some c | None => head _ end) as [[rx0 tx0]|]|];
        lia.
Qed.

(** X18.  The deltas of the network counters add up to the difference of
    the counters: over any sequence of outputs of the counter query, the
    deltas returned sum to the last counters read minus the counters the
    monitor held at the start, or minus the first ones read when it held
    none (the first reading itself gives the deltas 0).  An output that
    cannot be read gives the deltas 0 and leaves the counters held as they
    are, so the next delta spans it; no delta is clamped, so a counter that
    went down gives a negative delta. *)
Theorem network_deltas_telescope last_stats (outputs : list string) :
  let readings := omap reading outputs in
  let deltas := (network_run last_stats outputs).1 in
  let final := (network_run last_stats outputs).2 in
  final = match last readings with
          | Some c => Some c
          | None => last_stats
          end
  ∧ match final, (match last_stats with Some c => Some c | None => head readings end) with
    | Some (rx, tx), Some (rx0, tx0) =>
        sum_ints (map fst deltas) = rx - rx0 ∧ sum_ints (map snd deltas) = tx - tx0
    | _, _ =>
        sum_ints (map fst deltas) = 0 ∧ sum_ints (map snd deltas) = 0
    end.
Proof.
  cbv zeta. destruct (network_run last_stats outputs) as [deltas final] eqn:R.
  by apply network_run_spec.
Qed.

(** *** The memory reading *)



Section Samples.

Variable float_of_str : string → PyResult float.

Local Abbreviation collect_metrics := (collect_metrics float_of_str).
Local Abbreviation _parse_battery_stats := (_parse_battery_stats float_of_str).
Local Abbreviation _parse_fps_stats := (_parse_fps_stats float_of_str).
Local Abbreviation battery_line := (battery_line float_of_str).
Local Abbreviation fps_line := (fps_line float_of_str).

(** Each of the five commands of a call returned. *)
Definition answered (env : SampleEnv) : Prop :=
  (∃ out, top_out env = Orchestrator.Completed out)
  ∧ (∃ out, meminfo_out env = Orchestrator.Completed out)
  ∧ (∃ out, netdev_out env = Orchestrator.Completed out)
  ∧ (∃ out, battery_out env = Orchestrator.Completed out)
  ∧ (∃ out, gfxinfo_out env = Orchestrator.Completed out).

(** X20.  An Android monitor drops a sample exactly when one of its five
    commands raises; an output that cannot be read never drops the sample
    (the reading is then 0 or absent), and neither does a failure of the
    [MemAvailable] query.  A sample names the monitor's device and the
    platform [android], and its network deltas are those
    [_parse_network_stats] gives for the output of the counter query; the
    counters the monitor holds are updated by that output whether or not
    the sample is dropped later in the call. *)
Theorem android_sample_dropped dev held env :
  ((collect_metrics dev held env).1 = None ↔ ¬ answered env)
  ∧ (∀ m, (collect_metrics dev held env).1 = Some m →
       device_id m = dev ∧ platform m = "android" ∧ timestamp m = clock_iso env
       ∧ ∃ out, netdev_out env = Orchestrator.Completed out
                ∧ (network_rx_bytes m, network_tx_bytes m) = (_parse_network_stats held out).1)
  ∧ (∀ out1 out2 out3,
       top_out env = Orchestrator.Completed out1 →
       meminfo_out env = Orchestrator.Completed out2 →
       netdev_out env = Orchestrator.Completed out3 →
       (collect_metrics dev held env).2 = (_parse_network_stats held out3).2).
Proof.
  unfold AndroidMonitor.collect_metrics, answered.
  destruct (top_out env) as [out1|e1]; simpl;
    [|split_and!; [split; [by intros _ ([? ?] & _)|done]|done|done]].
  destruct (meminfo_out env) as [out2|e2]; simpl;
    [|split_and!; [split; [by intros _ (_ & [? ?] & _)|done]|done|done]].
  destruct (_parse_memory_usage (avail_out env) out2) as [mu ma].
  destruct (netdev_out env) as [out3|e3]; simpl;
    [|split_and!; [split; [by intros _ (_ & _ & [? ?] & _)|done]|done|done]].
  destruct (_parse_network_stats held out3) as [[rx tx] last'] eqn:N.
  destruct (battery_out env) as [out4|e4]; simpl.
  2:{ split_and!; [split; [by intros _ (_ & _ & _ & [? ?] & _)|done]|done|].
      intros ? ? ? _ _ [= <-]. by rewrite N. }
  destruct (AndroidMonitor._parse_battery_stats float_of_str out4) as [lvl tmp].
  destruct (gfxinfo_out env) as [out5|e5]; simpl.
  2:{ split_and!; [split; [by intros _ (_ & _ & _ & _ & [? ?])|done]|done|].
      intros ? ? ? _ _ [= <-]. by rewrite N. }
  destruct (AndroidMonitor._parse_fps_stats float_of_str out5) as [fr dr]. simpl.
  split_and!.
  - split; [done|]. intros H. destruct H. split_and!; eauto.
  - intros m [= <-]. simpl. split_and!; try done. exists out3. by rewrite N.
  - intros ? ? ? _ _ [= <-]. by rewrite N.
Qed.

(** *** Readings that cannot be taken *)

Lemma for_each_raise {S : Type} (body : string → S → PyResult S) l1 line l2 s acc e :
  for_each body l1 s = Ok acc → body line acc = Raise e →
  for_each body (l1 ++ line :: l2) s = Raise e.
Proof.
  revert s. induction l1 as [|l l1 IH]; intros s; simpl.
  - intros [= ->] ->. done.
  - destruct (body l s) as [s'|e']; simpl; [apply IH|done].
Qed.

(** X21.  The battery and the frame readings of an Android monitor are all
    or nothing: when one line of the output cannot be read, the values the
    lines before it gave are given up and the reading is the default,
    (0.0, 0.0) for the battery and no frame rate with 0 drops for the
    frames.  This includes the [Total frames rendered] line, whose value is
    not used. *)
Theorem monitor_readings_all_or_nothing (output : string) l1 line l2 :
  split nl output = l1 ++ line :: l2 →
  (∀ acc e, for_each battery_line l1 (0%float, 0%float) = Ok acc →
            battery_line line acc = Raise e →
            _parse_battery_stats output = (0%float, 0%float))
  ∧ (∀ acc e, for_each fps_line l1 (None, 0) = Ok acc →
              fps_line line acc = Raise e →
              _parse_fps_stats output = (None, 0))
  ∧ (contains "Total frames rendered:" line = true →
     (∀ field, index (split ":" line) 1 = Ok field → int_of_str (strip field) = Raise ValueError) →
     ∀ acc, for_each fps_line l1 (None, 0) = Ok acc →
     _parse_fps_stats output = (None, 0)).
Proof.
  intros Hsplit.
  assert (Hfps : ∀ acc e, for_each fps_line l1 (None, 0) = Ok acc →
              fps_line line acc = Raise e →
              _parse_fps_stats output = (None, 0)).
  { intros acc e H1 H2. unfold AndroidMonitor._parse_fps_stats.
    by rewrite Hsplit, (for_each_raise _ _ _ _ _ _ _ H1 H2). }
  split_and!.
  - intros acc e H1 H2. unfold AndroidMonitor._parse_battery_stats.
    by rewrite Hsplit, (for_each_raise _ _ _ _ _ _ _ H1 H2).
  - done.
  - intros Htotal Hbad [fps drops] Hacc.
    destruct (index (split ":" line) 1) as [field|e] eqn:Hf.
    + apply (Hfps (fps, drops) ValueError Hacc).
      unfold AndroidMonitor.fps_line. rewrite Htotal, Hf. simpl.
      by rewrite (Hbad field eq_refl).
    + apply (Hfps (fps, drops) e Hacc).
      unfold AndroidMonitor.fps_line. by rewrite Htotal, Hf.
Qed.

(** *** The traffic of a sampling session *)

(** The samples successive calls of [collect_metrics] give (a call that
    gives none adds none), and the counters held at the end. *)
Fixpoint collect_series (dev : string) (held : option (Z * Z)) (envs : list SampleEnv)
  : list PerformanceMetrics * option (Z * Z) :=
  match envs with
  | [] => ([], held)
  | env :: rest =>
      let '(m, held') := collect_metrics dev held env in
      let '(ms, final) := collect_series dev held' rest in
      (match m with Some x => x :: ms | None => ms end, final)
  end.

(** The outputs of the counter query in a sequence of calls. *)
Definition netdev_outputs (envs : list SampleEnv) : list string :=
  omap (λ env, match netdev_out env with
               | Orchestrator.Completed out => Some out
               | Orchestrator.Raised _ => None
               end) envs.

Lemma collect_series_network dev held envs :
  Forall answered envs →
  length (collect_series dev held envs).1 = length envs
  ∧ Forall (λ m, device_id m = dev ∧ platform m = "android") (collect_series dev held envs).1
  ∧ map (λ m, (network_rx_bytes m, network_tx_bytes m)) (collect_series dev held envs).1
    = (network_run held (netdev_outputs envs)).1
  ∧ (collect_series dev held envs).2 = (network_run held (netdev_outputs envs)).2.
Proof.
  intros Hall. revert held. induction Hall as [|env envs Henv _ IH]; intros held; [done|].
  destruct Henv as ([o1 H1] & [o2 H2] & [o3 H3] & [o4 H4] & [o5 H5]).
  replace (netdev_outputs (env :: envs)) with (o3 :: netdev_outputs envs)
    by (unfold netdev_outputs; simpl; by rewrite H3).
  cbn [collect_series network_run]. unfold AndroidMonitor.collect_metrics.
  rewrite H1, H2, H3, H4, H5. simpl.
  destruct (_parse_memory_usage (avail_out env) o2) as [mu ma].
  destruct (_parse_network_stats held o3) as [[rx tx] held'] eqn:N.
  destruct (AndroidMonitor._parse_battery_stats float_of_str o4) as [lvl tmp].
  destruct (AndroidMonitor._parse_fps_stats float_of_str o5) as [fr dr].
  specialize (IH held').
  destruct (collect_series dev held' envs) as [ms final].
  destruct (network_run held' (netdev_outputs envs)) as [ds f].
  simpl in *. destruct IH as (Hlen & Hdev & Hnet & Hfin).
  split_and!; [by rewrite Hlen|by constructor|by rewrite Hnet|done].
Qed.

End Samples.

Section Traffic.

Variable float_of_str : string → PyResult float.
Variable statistics_mean : list float → PyResult float.
Variable statistics_mean_int : list Z → PyResult num.
Variable statistics_median : list float → PyResult float.
Variable statistics_stdev : list float → PyResult float.

Local Abbreviation collect_series := (collect_series float_of_str).
Local Abbreviation generate_report :=
  (generate_report statistics_mean statistics_mean_int statistics_median statistics_stdev).

(** X22.  Take an Android monitor that holds no counters yet and whose
    commands all answer during a session.  Every call then gives a sample
    of the monitor's device, and the network deltas of the samples add up
    to the counters of the last output of the counter query that could be
    read minus those of the first one (to 0 when none or one could be
    read).  The total traffic the analyzer reports for the series is that
    difference divided by 1024: the traffic before the first reading is
    not counted. *)
Theorem session_traffic_total dev (envs : list SampleEnv)
    (history : dict (list PerformanceMetrics)) rep :
  Forall answered envs →
  let series := (collect_series dev None envs).1 in
  let readings := omap reading (netdev_outputs envs) in
  let rx_span := match head readings, last readings with
                 | Some (rx0, _), Some (rx, _) => rx - rx0
                 | _, _ => 0
                 end in
  let tx_span := match head readings, last readings with
                 | Some (_, tx0), Some (_, tx) => tx - tx0
                 | _, _ => 0
                 end in
  length series = length envs
  ∧ Forall (λ m, device_id m = dev ∧ platform m = "android") series
  ∧ sum_ints (map network_rx_bytes series) = rx_span
  ∧ sum_ints (map network_tx_bytes series) = tx_span
  ∧ (NoDup (Dict.keys history) → Dict.get dev history = Some series →
     generate_report history = Ok rep →
     ∀ r, Dict.get dev rep = Some r →
       int_truediv rx_span 1024 = Ok (rx_total_kb (rep_network r))
       ∧ int_truediv tx_span 1024 = Ok (tx_total_kb (rep_network r))).
Proof.
  intros Hall. cbv zeta.
  destruct (collect_series_network float_of_str dev None envs Hall)
    as (Hlen & Hdev & Hnet & Hfin).
  destruct (network_run None (netdev_outputs envs)) as [deltas final] eqn:R.
  destruct (network_run_spec None _ _ _ R) as [Hfinal Hsum].
  simpl in Hnet, Hfin.
  assert (Hrx : map network_rx_bytes (collect_series dev None envs).1 = map fst deltas)
    by (by rewrite <- Hnet, map_map).
  assert (Htx : map network_tx_bytes (collect_series dev None envs).1 = map snd deltas)
    by (by rewrite <- Hnet, map_map).
  assert (Hspans :
    sum_ints (map fst deltas)
    = match head (omap reading (netdev_outputs envs)),
            last (omap reading (netdev_outputs envs)) with
      | Some (rx0, _), Some (rx, _) => rx - rx0
      | _, _ => 0
      end
    ∧ sum_ints (map snd deltas)
      = match head (omap reading (netdev_outputs envs)),
              last (omap reading (netdev_outputs envs)) with
        | Some (_, tx0), Some (_, tx) => tx - tx0
        | _, _ => 0
        end).
  { rewrite Hfinal in Hsum.
    destruct (omap reading (netdev_outputs envs)) as [|[rx0 tx0] rs] eqn:E; [done|].
    simpl head in *.
    destruct (last ((rx0, tx0) :: rs)) as [[rx tx]|] eqn:L; [done|].
    by rewrite last_cons in L; destruct (last rs). }
  destruct Hspans as [Hsx Hsy].
  split_and!; [done|done|by rewrite Hrx|by rewrite Htx|].
  intros Hnd Hget Hrep r Hr.
  destruct (collect_series dev None envs).1 as [|first rest] eqn:S.
  - by rewrite (AnalyzerProps.generate_report_skips _ _ _ _ history rep dev Hnd Hget Hrep)
      in Hr.
  - destruct (AnalyzerProps.generate_report_entry _ _ _ _ history rep dev first rest
                Hnd Hget Hrep)
      as (r' & Hr' & Hrep').
    rewrite Hr in Hr'. injection Hr' as <-.
    unfold PerformanceMonitor.device_report in Hrep'.
    HistoryProps.split_binds Hrep'. injection Hrep' as <-. simpl.
    rewrite <- Hsx, <- Hsy, <- Hrx, <- Htx. by split.
Qed.

End Traffic.

(** *** A session of three calls *)

(** The counter query answers 1000/500, then something that cannot be
    read, then 4000/900. *)
Definition ex_counters (rx tx : string) : string :=
  "wlan0: " +:+ rx +:+ " 10 0 0 0 0 0 0 " +:+ tx +:+ " 12 0 0 0 0 0 0".

Definition ex_call (net : string) (battery : string) : SampleEnv :=
  {| top_out := Orchestrator.Completed "1234 u0_a1 10 -10 12.5% 3.1% 0:01.00 com.bitcraps";
     meminfo_out := Orchestrator.Completed "        TOTAL   204800   180000";
     avail_out := Orchestrator.Completed "MemAvailable:   2097152 kB";
     netdev_out := Orchestrator.Completed net;
     battery_out := Orchestrator.Completed battery;
     gfxinfo_out := Orchestrator.Completed EmptyString;
     clock_iso := "2024-01-01T00:00:01" |}.

Definition ex_session : list SampleEnv :=
  [ex_call (ex_counters "1000" "500") ("  level: 85.0" +:+ nl +:+ "  temperature: 250.0");
   ex_call "wlan0: no such device" ("  level: 85.0" +:+ nl +:+ "  temperature: n/a");
   ex_call (ex_counters "4000" "900") ("  level: 84.0" +:+ nl +:+ "  temperature: 255.0")].

Example network_deltas_example :
  network_run None (netdev_outputs ex_session)
  = ([(0, 0); (0, 0); (3000, 400)], Some (4000, 900)).
Proof. by vm_compute. Qed.

Lemma monitor_readings_all_or_nothing_witness :
  _parse_battery_stats SchedulerProps.decimal_float
    ("  level: 85.0" +:+ nl +:+ "  temperature: n/a") = (0%float, 0%float).
Proof.
  destruct (monitor_readings_all_or_nothing SchedulerProps.decimal_float
              ("  level: 85.0" +:+ nl +:+ "  temperature: n/a")
              ["  level: 85.0"] "  temperature: n/a" []) as [H _]; [done|].
  apply (H (85%float, 0%float) ValueError); by vm_compute.
Defined.


Lemma session_traffic_total_witness :
  sum_ints (map network_rx_bytes
              (collect_series SchedulerProps.decimal_float "emulator-5554" None ex_session).1)
  = 4000 - 1000.
Proof.
  destruct (session_traffic_total SchedulerProps.decimal_float
              AnalyzerProps.plain_mean AnalyzerProps.plain_mean_int
              AnalyzerProps.plain_median AnalyzerProps.plain_stdev
              "emulator-5554" ex_session Dict.empty Dict.empty)
    as (_ & _ & H & _).
  - repeat constructor; by eexists.
  - exact H.
Defined.

End AndroidMonitorProps.

Module IOSMonitorProps.
Import Py PerformanceMonitor.

Lemma sum_ints_const (c : Z) {A : Type} (l : list A) :
  sum_ints (map (λ _, c) l) = c * Z.of_nat (length l).
Proof.
  induction l as [|x l IH]; [simpl; unfold sum_ints; simpl; lia|].
  cbn [map]. rewrite AndroidMonitorProps.sum_ints_cons, IH. simpl length. lia.
Qed.

Lemma map_omap_total {A B C : Type} (f : A → option B) (g : B → C) (h : A → C)
    (l : list A) :
  (∀ x, is_Some (f x)) → (∀ x y, f x = Some y → g y = h x) →
  map g (omap f l) = map h l.
Proof.
  intros Hf Hg. induction l as [|x l IH]; [done|]. simpl.
  destruct (Hf x) as [y Hy]. rewrite Hy. simpl. f_equal; [by apply Hg|exact IH].
Qed.

Lemma omap_cons_Some {A B : Type} (f : A → option B) x (l : list A) y :
  f x = Some y → omap f (x :: l) = y :: omap f l.
Proof. intros H. simpl. by rewrite H. Qed.

Lemma collect_metrics_total dev env : is_Some (IOSMonitor.collect_metrics dev env).
Proof.
  unfold IOSMonitor.collect_metrics, IOSMonitor._get_ios_battery_stats.
  destruct (IOSMonitor.battery_out env); simpl; eauto.
Qed.

Lemma collect_metrics_constants dev env m :
  IOSMonitor.collect_metrics dev env = Some m →
  frame_drops m = 2 ∧ network_rx_bytes m = 1024.
Proof.
  unfold IOSMonitor.collect_metrics, IOSMonitor._get_ios_battery_stats.
  destruct (IOSMonitor.battery_out env); simpl; by intros [= <-].
Qed.

Section Report.

Variable statistics_mean : list float → PyResult float.
Variable statistics_mean_int : list Z → PyResult num.
Variable statistics_median : list float → PyResult float.
Variable statistics_stdev : list float → PyResult float.

Local Abbreviation generate_report :=
  (generate_report statistics_mean statistics_mean_int statistics_median statistics_stdev).

(** The samples an iOS monitor gives in successive calls. *)
Definition ios_series (dev : string) (envs : list IOSMonitor.SampleEnv)
  : list PerformanceMetrics :=
  omap (IOSMonitor.collect_metrics dev) envs.

(** X23.  The samples of an iOS monitor do not depend on what the device
    answers: every call gives a sample, and apart from the time stamp the
    sample is the same for any two calls whose two commands returned,
    whatever they returned (memory 512 and 2048, traffic 1024 and 512,
    frame rate 60.0 with 2 drops, and, the commands having returned, CPU
    25.0 and battery 85.0 at 32.0 degrees).  The report of a session of n
    calls therefore gives the battery level 85.0 at the start and at the
    end, 2n frame drops and 1024n/1024 received kilobytes. *)
Theorem ios_samples_are_placeholders dev (envs : list IOSMonitor.SampleEnv) :
  length (ios_series dev envs) = length envs
  ∧ (∀ env out1 out2 out1' out2',
       IOSMonitor.capacity_out env = Orchestrator.Completed out1 →
       IOSMonitor.battery_out env = Orchestrator.Completed out2 →
       IOSMonitor.collect_metrics dev env
       = IOSMonitor.collect_metrics dev
           {| IOSMonitor.capacity_out := Orchestrator.Completed out1';
              IOSMonitor.battery_out := Orchestrator.Completed out2';
              IOSMonitor.clock_iso := IOSMonitor.clock_iso env |})
  ∧ (∀ (history : dict (list PerformanceMetrics)) rep,
       Forall (λ env, ∃ out, IOSMonitor.battery_out env = Orchestrator.Completed out) envs →
       NoDup (Dict.keys history) →
       Dict.get dev history = Some (ios_series dev envs) →
       generate_report history = Ok rep →
       ∀ r, Dict.get dev rep = Some r →
         rep_platform r = "ios"
         ∧ start_level (rep_battery r) = 85%float
         ∧ end_level (rep_battery r) = 85%float
         ∧ total_frame_drops (rep_graphics r) = 2 * Z.of_nat (length envs)
         ∧ int_truediv (1024 * Z.of_nat (length envs)) 1024
           = Ok (rx_total_kb (rep_network r))).
Proof.
  assert (Hmap : ∀ {B : Type} (f : PerformanceMetrics → B) (g : IOSMonitor.SampleEnv → B),
            (∀ env m, IOSMonitor.collect_metrics dev env = Some m → f m = g env) →
            map f (ios_series dev envs) = map g envs).
  { intros B f g Hfg. apply map_omap_total; [apply collect_metrics_total|done]. }
  assert (Hlen : length (ios_series dev envs) = length envs).
  { rewrite <- (length_map (λ _, tt) (ios_series dev envs)).
    rewrite (Hmap _ _ (λ _, tt)) by done. by rewrite length_map. }
  split_and!.
  - done.
  - intros env out1 out2 out1' out2' H1 H2.
    unfold IOSMonitor.collect_metrics, IOSMonitor._get_ios_cpu_usage,
      IOSMonitor._get_ios_battery_stats. simpl. by rewrite H1, H2.
  - intros history rep Hbat Hnd Hget Hrep r Hr.
    destruct (ios_series dev envs) as [|first rest] eqn:S.
    { by rewrite (AnalyzerProps.generate_report_skips _ _ _ _ history rep dev Hnd Hget Hrep)
        in Hr. }
    destruct (AnalyzerProps.generate_report_entry _ _ _ _ history rep dev first rest
                Hnd Hget Hrep) as (r' & Hr' & Hrep').
    rewrite Hr in Hr'. injection Hr' as <-.
    assert (Hall : Forall (λ m, platform m = "ios" ∧ battery_level m = 85%float
                                ∧ fps m = Some 60%float) (first :: rest)).
    { rewrite <- S. unfold ios_series. clear S Hget Hlen Hmap.
      induction Hbat as [|env envs [out Ho] _ IH]; [constructor|].
      destruct (collect_metrics_total dev env) as [m Hm].
      rewrite (omap_cons_Some _ _ _ _ Hm).
      constructor; [|done].
      unfold IOSMonitor.collect_metrics, IOSMonitor._get_ios_battery_stats in Hm.
      rewrite Ho in Hm. simpl in Hm. by injection Hm as <-. }
    assert (Hlast : battery_level (List.last (first :: rest) first) = 85%float).
    { assert (Hin : List.last (first :: rest) first ∈ first :: rest).
      { clear. generalize first at 1 3. induction rest as [|m ms IH]; intros d.
        - apply list_elem_of_here.
        - apply list_elem_of_further. apply (IH m). }
      by destruct (proj1 (Forall_forall _ _) Hall _ Hin) as (_ & ? & _). }
    apply Forall_cons in Hall as [(Hp & Hb & Hf) Hrest].
    unfold PerformanceMonitor.device_report in Hrep'.
    HistoryProps.split_binds Hrep'. injection Hrep' as <-. simpl.
    split_and!; try done.
    + match goal with
      | H : _analyze_graphics _ _ = Ok ?g |- total_frame_drops ?g = _ =>
          unfold _analyze_graphics in H;
          rewrite (omap_cons_Some _ _ _ _ Hf) in H;
          HistoryProps.split_binds H; injection H as <-
      end.
      cbn [total_frame_drops].
      change (frame_drops first :: map frame_drops rest)
        with (map frame_drops (first :: rest)).
      rewrite (Hmap _ frame_drops (λ _, 2)), sum_ints_const; [done|].
      intros env m Hm. by destruct (collect_metrics_constants _ _ _ Hm).
    + match goal with
      | H : int_truediv (sum_ints (map network_rx_bytes _)) 1024 = Ok ?x |- _ = Ok ?x =>
          rewrite <- H
      end.
      rewrite (Hmap _ network_rx_bytes (λ _, 1024)), sum_ints_const; [done|].
      intros env m Hm. by destruct (collect_metrics_constants _ _ _ Hm).
Qed.

End Report.

End IOSMonitorProps.
